(** * instagram-unfollow-v2: the rate-limited reconciliation-and-action engine

    A shallow embedding of the Go sources

    - package [storage]    (the SQLite relationship store),
    - package [browser]    (the per-target [Unfollow] state machine),
    - package [extraction] (decoding the data export),
    - package [main]       (the continuous [runUnfollow] controller with
                            [calculateWaitTime], and the importer [parseToDB]),

    together with the properties the specification states about them. *)

From stdpp Require Import gmap strings list sorting.
From Stdlib Require Import ZArith Lia.

Local Open Scope Z_scope.

(** ** Go scalars *)

(** [int64] (and [int] on the 64-bit platforms the tool runs on) wraps
    around in two's complement. *)
Definition min_int64 : Z := - 2 ^ 63.
Definition max_int64 : Z := 2 ^ 63 - 1.

Definition wrap64 (z : Z) : Z := (z + 2 ^ 63) mod 2 ^ 64 - 2 ^ 63.

(** Go's [error] values: only their presence and their message matter. *)
Definition error := string.

Inductive result (A : Type) : Type :=
| Ok (a : A)
| Err (e : error).
Arguments Ok {A} a.
Arguments Err {A} e.

(** ** pkg/storage: the schema *)

Module storage.

(** [type Relationship struct { Username, Href string; Timestamp int64 }] *)
Record Relationship := mkRelationship {
  Username : string;
  Href : string;
  Timestamp : Z
}.

(** One row of [session_actions]; the table is append-only and its
    [AUTOINCREMENT] id is the position in the list. *)
Record Action := mkAction {
  action_type : string;
  action_username : string;
  action_at : Z
}.

(** The five tables of [ensureSchema]. [following], [followers],
    [unfollowed] and [not_following] declare [username TEXT PRIMARY KEY]
    and every writer binds a Go [string] (never NULL) to it, so each is a
    finite map from the username to the remaining columns. *)
Record DB := mkDB {
  following : gmap string (string * Z);
  followers : gmap string (string * Z);
  unfollowed : gmap string Z;
  not_following : gmap string Z;
  session_actions : list Action
}.

Definition empty_db : DB := mkDB ∅ ∅ ∅ ∅ [].

Definition set_following (f : gmap string (string * Z)) (db : DB) : DB :=
  mkDB f (followers db) (unfollowed db) (not_following db) (session_actions db).
Definition set_followers (f : gmap string (string * Z)) (db : DB) : DB :=
  mkDB (following db) f (unfollowed db) (not_following db) (session_actions db).
Definition set_unfollowed (u : gmap string Z) (db : DB) : DB :=
  mkDB (following db) (followers db) u (not_following db) (session_actions db).
Definition set_not_following (n : gmap string Z) (db : DB) : DB :=
  mkDB (following db) (followers db) (unfollowed db) n (session_actions db).
Definition set_session_actions (l : list Action) (db : DB) : DB :=
  mkDB (following db) (followers db) (unfollowed db) (not_following db) l.

(** ** pkg/storage: import *)

(** [INSERT OR REPLACE INTO t (username, href, timestamp) VALUES (?, ?, ?)] *)
Definition insert_or_replace (t : gmap string (string * Z)) (r : Relationship)
  : gmap string (string * Z) :=
  <[Username r := (Href r, Timestamp r)]> t.

(** The body of the transaction of [upsertRelationships]: the statement is
    executed for the rows in order. *)
Definition upsert_rows (rows : list Relationship) (t : gmap string (string * Z))
  : gmap string (string * Z) :=
  foldl insert_or_replace t rows.

Inductive Table := TFollowing | TFollowers.

(** [upsertRelationships]. Any failure ([Begin], [Prepare], an [Exec] or
    [Commit]) returns the error and the deferred [tx.Rollback()] leaves the
    table as it was; [fault] says whether the transaction meets one. *)
Definition upsertRelationships (fault : bool) (table : Table)
    (rows : list Relationship) (db : DB) : DB * option error :=
  if fault then (db, Some "exec: storage failure"%string)
  else match table with
       | TFollowing => (set_following (upsert_rows rows (following db)) db, None)
       | TFollowers => (set_followers (upsert_rows rows (followers db)) db, None)
       end.

Definition UpsertFollowing (fault : bool) (rows : list Relationship) (db : DB) :=
  upsertRelationships fault TFollowing rows db.
Definition UpsertFollowers (fault : bool) (rows : list Relationship) (db : DB) :=
  upsertRelationships fault TFollowers rows db.

(** ** pkg/storage: the candidate query *)

(** [ORDER BY f.timestamp DESC]: [a] may precede [b]. *)
Definition ts_desc (a b : Relationship) : Prop := Timestamp b <= Timestamp a.

#[global] Instance ts_desc_dec : RelDecision ts_desc.
Proof. intros a b. unfold ts_desc. apply _. Defined.

(** [f LEFT JOIN t ON f.username = t.username ... WHERE t.username IS NULL]:
    the join is on [t]'s primary key, so the joined columns are the row
    found by the key or NULL, and the row of [f] is kept when they are NULL. *)
Definition joined_is_null {V} (t : gmap string V) (username : string) : bool :=
  match t !! username with
  | None => true
  | Some _ => false
  end.

Definition candidate_where (db : DB) (row : string * (string * Z)) : bool :=
  joined_is_null (followers db) row.1
  && joined_is_null (unfollowed db) row.1
  && joined_is_null (not_following db) row.1.

Definition scan_row (row : string * (string * Z)) : Relationship :=
  mkRelationship row.1 row.2.1 row.2.2.

(** The rows the [SELECT] of [UnfollowCandidates] yields. SQL leaves the
    order of rows with equal timestamps to the engine; here they keep the
    order of the table scan (a stable sort), which is a function of the
    table contents. *)
Definition candidate_rows (db : DB) : list Relationship :=
  merge_sort ts_desc
    (scan_row <$> filter (fun row => candidate_where db row = true)
                          (map_to_list (following db))).

(** [UnfollowCandidates]: the query fails ([fault]) or its rows are
    returned. *)
Definition UnfollowCandidates (fault : bool) (db : DB)
  : result (list Relationship) :=
  if fault then Err "query candidates: storage failure"%string
  else Ok (candidate_rows db).

(** ** pkg/storage: marks and the action log *)

(** In the statements below [now] is what SQLite's [strftime('%s', 'now')]
    evaluates to: the wall clock in whole seconds since the Unix epoch. *)

(** [MarkUnfollowed]: [INSERT OR REPLACE INTO unfollowed]. *)
Definition MarkUnfollowed (fault : bool) (now : Z) (username : string) (db : DB)
  : DB * option error :=
  if fault then (db, Some "mark unfollowed: storage failure"%string)
  else (set_unfollowed (<[username := now]> (unfollowed db)) db, None).

(** [UnfollowedCount]: [SELECT COUNT( * ) FROM unfollowed]. *)
Definition UnfollowedCount (fault : bool) (db : DB) : Z * option error :=
  if fault then (0, Some "storage failure"%string)
  else (Z.of_nat (size (unfollowed db)), None).

(** [RecordAction]: one more row of [session_actions]. *)
Definition RecordAction (fault : bool) (now : Z) (actionType username : string)
    (db : DB) : DB * option error :=
  if fault then (db, Some "storage failure"%string)
  else (set_session_actions
          (session_actions db ++ [mkAction actionType username now]) db, None).

(** [WHERE action_type = ? AND action_at > (strftime('%s', 'now') - 3600)] *)
Definition in_last_hour (now : Z) (actionType : string) (a : Action) : bool :=
  String.eqb (action_type a) actionType && (now - 3600 <? action_at a).

Definition actions_in_last_hour (now : Z) (actionType : string) (db : DB)
  : list Action :=
  List.filter (in_last_hour now actionType) (session_actions db).

(** [ActionsInLastHour]: the [COUNT( * )] of the rows in the window; on
    failure the scanned [count] keeps its zero value. *)
Definition ActionsInLastHour (fault : bool) (now : Z) (actionType : string)
    (db : DB) : Z * option error :=
  if fault then (0, Some "storage failure"%string)
  else (Z.of_nat (length (actions_in_last_hour now actionType db)), None).

(** SQL [MIN] over a column: NULL on no rows. *)
Definition sql_min (l : list Z) : option Z :=
  match l with
  | [] => None
  | x :: l' => Some (foldl Z.min x l')
  end.

Definition sql_max (l : list Z) : option Z :=
  match l with
  | [] => None
  | x :: l' => Some (foldl Z.max x l')
  end.

(** [COALESCE(v, 0)] *)
Definition coalesce0 (v : option Z) : Z :=
  match v with
  | Some z => z
  | None => 0
  end.

(** [OldestActionInLastHour]: [COALESCE(MIN(action_at), 0)] over the window. *)
Definition OldestActionInLastHour (fault : bool) (now : Z) (actionType : string)
    (db : DB) : Z * option error :=
  if fault then (0, Some "storage failure"%string)
  else (coalesce0 (sql_min (action_at <$> actions_in_last_hour now actionType db)),
        None).

(** [NewestActionInLastHour]: [COALESCE(MAX(action_at), 0)] over the window. *)
Definition NewestActionInLastHour (fault : bool) (now : Z) (actionType : string)
    (db : DB) : Z * option error :=
  if fault then (0, Some "storage failure"%string)
  else (coalesce0 (sql_max (action_at <$> actions_in_last_hour now actionType db)),
        None).

(** [MarkNotFollowing]: [INSERT OR REPLACE INTO not_following]. *)
Definition MarkNotFollowing (fault : bool) (now : Z) (username : string) (db : DB)
  : DB * option error :=
  if fault then (db, Some "storage failure"%string)
  else (set_not_following (<[username := now]> (not_following db)) db, None).

(** [RemoveFromFollowing]: [DELETE FROM following WHERE username = ?]. *)
Definition RemoveFromFollowing (fault : bool) (username : string) (db : DB)
  : DB * option error :=
  if fault then (db, Some "storage failure"%string)
  else (set_following (delete username (following db)) db, None).

End storage.

(** ** pkg/browser: the per-target state machine *)

Module browser.

(** [type UnfollowResult int] with its four constants. *)
Inductive UnfollowResult :=
| UnfollowSuccess
| UnfollowNotFollowing
| UnfollowProfileUnavailable
| UnfollowError.

#[global] Instance UnfollowResult_eq_dec : EqDecision UnfollowResult.
Proof. solve_decision. Defined.

(** What the remote site does during one call of [Unfollow]: the outcome of
    each [chromedp.Run], in the order the function issues them. Every
    step is issued at most once per call, so one answer per step describes
    the remote side completely. *)
Record Remote := mkRemote {
  navigate : option error;            (* Navigate, page load, scroll *)
  profile_unavailable : result bool;  (* the availability script *)
  follow_status : result string;      (* the follow-status script *)
  click_following : result bool;      (* click on Following; [clicked] *)
  click_unfollow : option error;      (* click on Unfollow in the modal *)
  new_status : result string;         (* the follow-status script, again *)
  elapsed : N                         (* time the call takes, nanoseconds *)
}.

(** The interactions [Unfollow] has with the remote session. *)
Inductive Step :=
| StNavigate
| StCheckAvailability
| StCheckFollowStatus
| StClickFollowing
| StClickUnfollow
| StVerify.

#[global] Instance Step_eq_dec : EqDecision Step.
Proof. solve_decision. Defined.

Inductive Level := Info | Warn | Error.

#[global] Instance Level_eq_dec : EqDecision Level.
Proof. solve_decision. Defined.

(** A [slog] record: level and message (attributes are not kept). *)
Definition LogEntry : Type := Level * string.

(** What one call of [Unfollow] returns and does. *)
Record Attempt := mkAttempt {
  at_result : UnfollowResult;
  at_err : option error;
  at_steps : list Step;
  at_logs : list LogEntry
}.

Definition wrap_err (prefix e : string) : error := (prefix ++ ": " ++ e)%string.

(** [func (b *Browser) Unfollow(username string) (UnfollowResult, error)] *)
Definition Unfollow (r : Remote) (username : string) : Attempt :=
  let log0 := [(Info, "Checking user"%string)] in
  let st1 := [StNavigate] in
  match navigate r with
  | Some e => mkAttempt UnfollowError (Some (wrap_err "navigate to profile" e)) st1 log0
  | None =>
  let st2 := st1 ++ [StCheckAvailability] in
  match profile_unavailable r with
  | Err e =>
      mkAttempt UnfollowError (Some (wrap_err "check profile availability" e)) st2 log0
  | Ok true =>
      mkAttempt UnfollowProfileUnavailable None st2
        (log0 ++ [(Info, "Profile unavailable, skipping"%string)])
  | Ok false =>
  let st3 := st2 ++ [StCheckFollowStatus] in
  match follow_status r with
  | Err e => mkAttempt UnfollowError (Some (wrap_err "check follow status" e)) st3 log0
  | Ok followStatus =>
  if String.eqb followStatus "not_following" then
    mkAttempt UnfollowNotFollowing None st3
      (log0 ++ [(Info, "Not following this user, skipping"%string)])
  else if String.eqb followStatus "unknown" then
    mkAttempt UnfollowError
      (Some ("could not determine follow status for " ++ username)%string) st3
      (log0 ++ [(Warn, "Could not determine follow status"%string)])
  else
  let log1 := log0 ++ [(Info, "Unfollowing user"%string)] in
  let st4 := st3 ++ [StClickFollowing] in
  match click_following r with
  | Err e => mkAttempt UnfollowError (Some (wrap_err "click following button" e)) st4 log1
  | Ok false =>
      mkAttempt UnfollowError
        (Some ("following button not found for " ++ username)%string) st4 log1
  | Ok true =>
  let st5 := st4 ++ [StClickUnfollow] in
  match click_unfollow r with
  | Some e => mkAttempt UnfollowError (Some (wrap_err "click unfollow in modal" e)) st5 log1
  | None =>
  let st6 := st5 ++ [StVerify] in
  match new_status r with
  | Err e => mkAttempt UnfollowError (Some (wrap_err "verify unfollow status" e)) st6 log1
  | Ok newStatus =>
  if String.eqb newStatus "following" then
    mkAttempt UnfollowError
      (Some ("unfollow verification failed for " ++ username ++ " - still following")%string)
      st6
      (log1 ++ [(Warn, "Unfollow may have failed - still showing Following button"%string)])
  else if String.eqb newStatus "not_following" then
    mkAttempt UnfollowSuccess None st6
      (log1 ++ [(Info, "Unfollowed successfully - verified button changed to Follow"%string)])
  else
    mkAttempt UnfollowSuccess None st6
      (log1 ++ [(Warn, "Could not verify unfollow status, assuming success"%string)])
  end end end end end end.

End browser.

(** ** pkg/extraction: the decoded export *)

Module extraction.
Import storage.

(** [type stringListData struct { Href, Value string; Timestamp int64 }] *)
Record stringListData := mkStringListData {
  sld_Href : string;
  sld_Value : string;
  sld_Timestamp : Z
}.

(** [followingEntry] and [followerEntry] (its [media_list_data] is not
    read). *)
Record followingEntry := mkFollowingEntry {
  fe_Title : string;
  fe_StringListData : list stringListData
}.

Record followerEntry := mkFollowerEntry {
  fr_Title : string;
  fr_StringListData : list stringListData
}.

(** The loop of [ParseFollowing] over [file.RelationshipsFollowing]. *)
Definition following_rows (entries : list followingEntry) : list Relationship :=
  (fun entry =>
     match fe_StringListData entry with
     | sld :: _ => mkRelationship (fe_Title entry) (sld_Href sld) (sld_Timestamp sld)
     | [] => mkRelationship (fe_Title entry) EmptyString 0
     end) <$> entries.

(** [ParseFollowing]; the argument is what reading and unmarshalling
    [following.json] gives. *)
Definition ParseFollowing (file : result (list followingEntry))
  : result (list Relationship) :=
  match file with
  | Err e => Err e
  | Ok entries => Ok (following_rows entries)
  end.

(** The loop of [ParseFollowers]: entries without [string_list_data] are
    skipped. *)
Definition follower_rows (entries : list followerEntry) : list Relationship :=
  entries ≫= (fun entry =>
     match fr_StringListData entry with
     | sld :: _ => [mkRelationship (sld_Value sld) (sld_Href sld) (sld_Timestamp sld)]
     | [] => []
     end).

Definition ParseFollowers (file : result (list followerEntry))
  : result (list Relationship) :=
  match file with
  | Err e => Err e
  | Ok entries => Ok (follower_rows entries)
  end.

End extraction.

(** ** package time *)

Module time.

Definition Nanosecond : Z := 1.
Definition Second : Z := 1000000000.
Definition Minute : Z := 60 * Second.
Definition Hour : Z := 60 * Minute.

(** A [time.Time] is an instant, here in nanoseconds since the Unix epoch;
    a [time.Duration] is an [int64] count of nanoseconds. *)
Definition Unix (sec nsec : Z) : Z := sec * Second + nsec.

Definition Add (t d : Z) : Z := t + d.

(** [t.Sub(u)]: the difference, or the largest (smallest) [Duration] when
    it does not fit. *)
Definition Sub (t u : Z) : Z :=
  let d := t - u in
  if max_int64 <? d then max_int64
  else if d <? min_int64 then min_int64
  else d.

(** [time.Until(t)] is [t.Sub(time.Now())]. *)
Definition Until (now t : Z) : Z := Sub t now.

End time.

(** ** package main: the world the commands run in *)

Module cmd.
Import storage browser.

(** The calls into [pkg/storage]. *)
Inductive StorageOp :=
| OpOpen
| OpUpsertFollowing
| OpUpsertFollowers
| OpUnfollowCandidates
| OpMarkUnfollowed
| OpUnfollowedCount
| OpRecordAction
| OpActionsInLastHour
| OpOldestActionInLastHour
| OpMarkNotFollowing
| OpRemoveFromFollowing.

(** What the program does not control: which storage calls fail (by kind
    and by position in the sequence of storage calls of the process), what
    the remote site answers during the n-th call of [Unfollow], and
    whether the operator logs in ([WaitForManualLogin] returns [login];
    its own log lines and waiting are not kept). *)
Record Env := mkEnv {
  db_fault : StorageOp -> nat -> bool;
  remote : nat -> Remote;
  login : option error
}.

(** The part of [config] the controller reads:
    [Instagram.AutomationLimits.Actions.Hourly] and
    [App.UnfollowDelaySeconds]. *)
Record Config := mkConfig {
  Hourly : Z;
  UnfollowDelaySeconds : Z
}.

(** One call of [b.Unfollow], with the store and the clock as they were
    when it was issued. *)
Record Dispatch := mkDispatch {
  d_username : string;
  d_steps : list Step;
  d_db : DB;
  d_clock : Z
}.

Inductive Event :=
| EvUnfollow (d : Dispatch)
| EvSleep (d : Z).

(** The state of the process and of what it acts on: the database file,
    the wall clock (nanoseconds since the Unix epoch), the number of
    storage calls and of [Unfollow] calls issued so far, the remote calls
    and sleeps in the order they happened, and the log output. The clock
    advances in [time.Sleep] and during a call of [Unfollow]; storage calls
    and logging take no time. *)
Record World := mkWorld {
  w_db : DB;
  w_clock : Z;
  w_ops : nat;
  w_calls : nat;
  w_trace : list Event;
  w_log : list LogEntry
}.

Definition init_world (db : DB) (clock : Z) : World :=
  mkWorld db clock 0 0 [] [].

(** [strftime('%s', 'now')] *)
Definition unix_now (w : World) : Z := w_clock w / time.Second.

(** A command: a function of the world. *)
Definition M (A : Type) : Type := World -> A * World.

Definition ret {A} (a : A) : M A := fun w => (a, w).
Definition bind {A B} (m : M A) (k : A -> M B) : M B :=
  fun w => let (a, w') := m w in k a w'.

Declare Scope cmd_scope.
Delimit Scope cmd_scope with cmd.
Notation "x <- m ;; k" := (bind m (fun x => k))
  (at level 100, m at next level, right associativity) : cmd_scope.
Notation "m ;;; k" := (bind m (fun _ => k))
  (at level 100, right associativity) : cmd_scope.
Local Open Scope cmd_scope.

(** [app.logger.Info/Warn/Error] *)
Definition logmsg (lvl : Level) (msg : string) : M unit :=
  fun w => (tt, mkWorld (w_db w) (w_clock w) (w_ops w) (w_calls w) (w_trace w)
                        (w_log w ++ [(lvl, msg)])).

(** [time.Sleep(d)]: returns at once when [d <= 0]. *)
Definition sleep (d : Z) : M unit :=
  fun w => (tt, mkWorld (w_db w) (if 0 <? d then w_clock w + d else w_clock w)
                        (w_ops w) (w_calls w) (w_trace w ++ [EvSleep d]) (w_log w)).

Section commands.
Context (env : Env) (cfg : Config).

(** A storage call that reads. *)
Definition db_read {A} (op : StorageOp) (f : bool -> Z -> DB -> A) : M A :=
  fun w => (f (db_fault env op (w_ops w)) (unix_now w) (w_db w),
            mkWorld (w_db w) (w_clock w) (S (w_ops w)) (w_calls w) (w_trace w)
                    (w_log w)).

(** A storage call that writes. *)
Definition db_write (op : StorageOp) (f : bool -> Z -> DB -> DB * option error)
  : M (option error) :=
  fun w => let (db', err) := f (db_fault env op (w_ops w)) (unix_now w) (w_db w) in
           (err, mkWorld db' (w_clock w) (S (w_ops w)) (w_calls w) (w_trace w)
                         (w_log w)).

(** [storage.Open]: [ensureSchema] creates only the tables that are
    missing, so an existing store is left as it is. *)
Definition Open : M (option error) :=
  db_write OpOpen (fun fault _ db =>
    if fault then (db, Some "open db: storage failure"%string) else (db, None)).

(** [b.Unfollow(username)] against the remote side's next answers. *)
Definition call_Unfollow (username : string) : M (UnfollowResult * option error) :=
  fun w =>
    let r := remote env (w_calls w) in
    let a := Unfollow r username in
    ((at_result a, at_err a),
     mkWorld (w_db w) (w_clock w + Z.of_N (elapsed r)) (w_ops w) (S (w_calls w))
             (w_trace w ++ [EvUnfollow (mkDispatch username (at_steps a) (w_db w)
                                                   (w_clock w))])
             (w_log w ++ at_logs a)).

(** [if err := f(); err != nil { app.logger.Error(msg, ...) }] *)
Definition log_if_err (msg : string) (err : option error) : M unit :=
  match err with
  | Some _ => logmsg Error msg
  | None => ret tt
  end.

(** *** calculateWaitTime *)

(** The body of [calculateWaitTime] after the query: [oldest] and [err]
    are what [OldestActionInLastHour] returned and [now] is [time.Now()]. *)
Definition wait_time (oldest : Z) (err : option error) (now : Z) : Z :=
  if bool_decide (is_Some err) || (oldest =? 0) then 5 * time.Minute
  else
    let oldestTime := time.Unix oldest 0 in
    let freeAt := time.Add oldestTime (1 * time.Hour + 1 * time.Minute) in
    let waitDuration := time.Until now freeAt in
    if waitDuration <? 1 * time.Minute then 1 * time.Minute else waitDuration.

Definition calculateWaitTime : M Z :=
  q <- db_read OpOldestActionInLastHour
         (fun fault now db => OldestActionInLastHour fault now "unfollow" db);;
  let '(oldest, err) := q in
  fun w => (wait_time oldest err (w_clock w), w).

(** *** runUnfollow: one candidate *)

Record Counters := mkCounters {
  successful : Z;
  skipped : Z;
  unavailable : Z
}.

(** The [switch result] of the batch loop: what is written for one
    outcome, and the counter that is incremented. *)
Definition apply_result (username : string) (result : UnfollowResult)
    (c : Counters) : M Counters :=
  match result with
  | UnfollowSuccess =>
      e1 <- db_write OpMarkUnfollowed
              (fun fault now db => MarkUnfollowed fault now username db);;
      log_if_err "Failed to mark unfollowed in DB" e1;;;
      e2 <- db_write OpRecordAction
              (fun fault now db => RecordAction fault now "unfollow" username db);;
      log_if_err "Failed to record action" e2;;;
      e3 <- db_write OpRemoveFromFollowing
              (fun fault _ db => RemoveFromFollowing fault username db);;
      log_if_err "Failed to remove from following table" e3;;;
      ret (mkCounters (successful c + 1) (skipped c) (unavailable c))
  | UnfollowNotFollowing =>
      e1 <- db_write OpMarkNotFollowing
              (fun fault now db => MarkNotFollowing fault now username db);;
      log_if_err "Failed to mark not following" e1;;;
      e2 <- db_write OpRemoveFromFollowing
              (fun fault _ db => RemoveFromFollowing fault username db);;
      log_if_err "Failed to remove from following table" e2;;;
      ret (mkCounters (successful c) (skipped c + 1) (unavailable c))
  | UnfollowProfileUnavailable =>
      e1 <- db_write OpRemoveFromFollowing
              (fun fault _ db => RemoveFromFollowing fault username db);;
      log_if_err "Failed to remove from following table" e1;;;
      e2 <- db_write OpMarkNotFollowing
              (fun fault now db => MarkNotFollowing fault now username db);;
      log_if_err "Failed to mark not following" e2;;;
      ret (mkCounters (successful c) (skipped c) (unavailable c + 1))
  | UnfollowError =>
      logmsg Error "Failed to unfollow";;;
      ret c
  end.

(** *** runUnfollow: one batch *)

(** [for i, candidate := range candidates[:maxCount] { ... }], from index
    [i] on; [cands] is what is left of the slice. After [UnfollowSuccess]
    the loop checks the limit and sleeps; the other three cases
    [continue]. *)
Fixpoint batch (remainingThisHour maxCount : Z) (i : Z)
    (cands : list Relationship) (c : Counters) : M Counters :=
  match cands with
  | [] => ret c
  | candidate :: rest =>
      let username := Username candidate in
      res <- call_Unfollow username;;
      let '(result, _) := res in
      c' <- apply_result username result c;;
      match result with
      | UnfollowSuccess =>
          if remainingThisHour <=? successful c' then
            logmsg Info "Reached hourly limit";;;
            ret c'
          else
            (if i <? maxCount - 1 then
               logmsg Info "Waiting before next unfollow";;;
               sleep (wrap64 (UnfollowDelaySeconds cfg * time.Second))
             else ret tt);;;
            batch remainingThisHour maxCount (i + 1) rest c'
      | _ => batch remainingThisHour maxCount (i + 1) rest c'
      end
  end.

(** *** runUnfollow: the main loop *)

(** [remainingThisHour := hourlyLimit - actionsLastHour], clamped at 0. *)
Definition remaining_this_hour (hourlyLimit actionsLastHour : Z) : Z :=
  let remainingThisHour := wrap64 (hourlyLimit - actionsLastHour) in
  if remainingThisHour <? 0 then 0 else remainingThisHour.

(** How one turn of [for { ... }] ends. *)
Inductive Flow :=
| Continue
| Return (err : option error).

Definition len {A} (l : list A) : Z := Z.of_nat (length l).

(** The body of the main loop. *)
Definition loop_body : M Flow :=
  _ <- db_read OpUnfollowedCount (fun fault _ db => UnfollowedCount fault db);;
  logmsg Info "Previously unfollowed users";;;
  q <- db_read OpActionsInLastHour
         (fun fault now db => ActionsInLastHour fault now "unfollow" db);;
  let '(count, err) := q in
  actionsLastHour <- match err with
                     | Some _ => logmsg Warn "Could not check recent actions";;; ret 0
                     | None => ret count
                     end;;
  let remainingThisHour := remaining_this_hour (Hourly cfg) actionsLastHour in
  logmsg Info "Rate limit status";;;
  if remainingThisHour <=? 0 then
    waitDuration <- calculateWaitTime;;
    logmsg Info "Hourly rate limit reached, waiting for reset";;;
    sleep waitDuration;;;
    ret Continue
  else
    r <- db_read OpUnfollowCandidates (fun fault _ db => UnfollowCandidates fault db);;
    match r with
    | Err e => ret (Return (Some e))
    | Ok candidates =>
        logmsg Info "Loaded unfollow candidates";;;
        if len candidates =? 0 then
          logmsg Info "No more unfollow candidates - all done!";;;
          ret (Return None)
        else
          let maxCount := if len candidates <? remainingThisHour
                          then len candidates else remainingThisHour in
          _ <- batch remainingThisHour maxCount 0
                 (take (Z.to_nat maxCount) candidates) (mkCounters 0 0 0);;
          logmsg Info "Session batch complete";;;
          ret Continue
    end.

(** How a run of at most [fuel] turns of the main loop ends. *)
Inductive Outcome :=
| Returned (err : option error)
| Running.

Fixpoint main_loop (fuel : nat) : M Outcome :=
  match fuel with
  | O => ret Running
  | S fuel' =>
      flow <- loop_body;;
      match flow with
      | Return err => ret (Returned err)
      | Continue => main_loop fuel'
      end
  end.

(** [runUnfollow]. The sleep inhibitor only keeps the host awake and
    [browser.New] always returns a nil error; neither touches the store. *)
Definition runUnfollow (fuel : nat) : M Outcome :=
  err <- Open;;
  match err with
  | Some e => ret (Returned (Some e))
  | None =>
      logmsg Info "Checking login status...";;;
      match login env with
      | Some e => ret (Returned (Some e))
      | None => main_loop fuel
      end
  end.

(** *** parseToDB *)

(** What [parseToDB] finds in the extracted export: the decoded
    [following.json], and the [followers*.json] files in the order
    [FindFollowerFiles] lists them, each decoded. *)
Record Export := mkExport {
  following_json : result (list extraction.followingEntry);
  follower_files : result (list (result (list extraction.followerEntry)))
}.

(** [for _, file := range followerFiles { ... allFollowers = append(...) }] *)
Fixpoint parse_follower_files (files : list (result (list extraction.followerEntry)))
    (allFollowers : list Relationship) : result (list Relationship) :=
  match files with
  | [] => Ok allFollowers
  | file :: rest =>
      match extraction.ParseFollowers file with
      | Err e => Err (wrap_err "parse" e)
      | Ok followers => parse_follower_files rest (allFollowers ++ followers)
      end
  end.

Definition parseToDB (ex : Export) : M (option error) :=
  err <- Open;;
  match err with
  | Some e => ret (Some (wrap_err "open db" e))
  | None =>
  match extraction.ParseFollowing (following_json ex) with
  | Err e => ret (Some (wrap_err "parse following" e))
  | Ok following =>
  err <- db_write OpUpsertFollowing
           (fun fault _ db => UpsertFollowing fault following db);;
  match err with
  | Some e => ret (Some (wrap_err "upsert following" e))
  | None =>
  logmsg Info "Imported following";;;
  match follower_files ex with
  | Err e => ret (Some (wrap_err "find follower files" e))
  | Ok followerFiles =>
  match parse_follower_files followerFiles [] with
  | Err e => ret (Some e)
  | Ok allFollowers =>
  err <- db_write OpUpsertFollowers
           (fun fault _ db => UpsertFollowers fault allFollowers db);;
  match err with
  | Some e => ret (Some (wrap_err "upsert followers" e))
  | None =>
  logmsg Info "Imported followers";;;
  r <- db_read OpUnfollowCandidates (fun fault _ db => UnfollowCandidates fault db);;
  match r with
  | Err e => ret (Some (wrap_err "get candidates" e))
  | Ok _ => logmsg Info "Found unfollow candidates";;; ret None
  end end end end end end end.

End commands.

(** *** Observations on runs *)

(** The calls of [b.Unfollow] recorded in a trace, in order. *)
Definition dispatches (t : list Event) : list Dispatch :=
  omap (fun e => match e with
                 | EvUnfollow d => Some d
                 | EvSleep _ => None
                 end) t.

(** The rows [ActionsInLastHour] counts in world [w]. *)
Definition window_count (w : World) : Z :=
  len (actions_in_last_hour (unix_now w) "unfollow" (w_db w)).

(** The remaining quota the controller would compute from the store [db]
    at wall clock [clock]: the count of [ActionsInLastHour] put through
    [remaining_this_hour]. *)
Definition quota_at (cfg : Config) (db : DB) (clock : Z) : Z :=
  remaining_this_hour (Hourly cfg)
    (ActionsInLastHour false (clock / time.Second) "unfollow" db).1.

(** A call of [b.Unfollow] is within quota when the remaining quota was
    positive at the moment it was issued. *)
Definition within_quota (cfg : Config) (e : Event) : Prop :=
  match e with
  | EvUnfollow d => 0 < quota_at cfg (d_db d) (d_clock d)
  | EvSleep _ => True
  end.

(** The world after the two reads that open a turn of the main loop
    ([UnfollowedCount], [ActionsInLastHour]) and their log lines. *)
Definition after_quota_check (env : Env) (w : World) : World :=
  mkWorld (w_db w) (w_clock w) (S (S (w_ops w))) (w_calls w) (w_trace w)
    ((if db_fault env OpActionsInLastHour (S (w_ops w))
      then (w_log w ++ [(Info, "Previously unfollowed users"%string)])
             ++ [(Warn, "Could not check recent actions"%string)]
      else w_log w ++ [(Info, "Previously unfollowed users"%string)])
     ++ [(Info, "Rate limit status"%string)]).

(** The value of [actionsLastHour] the turn works with. *)
Definition actions_seen (env : Env) (w : World) : Z :=
  if db_fault env OpActionsInLastHour (S (w_ops w)) then 0 else window_count w.

(** The world after one more storage call that changes nothing. *)
Definition bump_ops (w : World) : World :=
  mkWorld (w_db w) (w_clock w) (S (w_ops w)) (w_calls w) (w_trace w) (w_log w).

End cmd.

(** ** Sample stores, remotes and exports *)

Module samples.
Import storage browser cmd.

(** 2023-11-14 22:13:20 UTC, on a whole second. *)
Definition t0 : Z := 1700000000.

Definition clock0 : Z := t0 * time.Second.

(** The remote side lets the unfollow through and shows "Follow" after. *)
Definition remote_ok : Remote :=
  mkRemote None (Ok false) (Ok "following"%string) (Ok true) None
           (Ok "not_following"%string) 4000000000%N.

(** The page still shows "Following" after the two clicks. *)
Definition remote_still_following : Remote :=
  mkRemote None (Ok false) (Ok "following"%string) (Ok true) None
           (Ok "following"%string) 4000000000%N.

(** The page shows "Follow" from the start. *)
Definition remote_not_following : Remote :=
  mkRemote None (Ok false) (Ok "not_following"%string) (Ok true) None
           (Ok "not_following"%string) 4000000000%N.

(** Nothing fails. *)
Definition env_ok : Env := mkEnv (fun _ _ => false) (fun _ => remote_ok) None.

(** Every call of [ActionsInLastHour] fails; nothing else does. *)
Definition env_count_fails : Env :=
  mkEnv (fun op _ => match op with
                     | OpActionsInLastHour => true
                     | _ => false
                     end)
        (fun _ => remote_ok) None.

Definition cfg_one : Config := mkConfig 1 60.

(** Two accounts followed, none following back, nothing done yet. *)
Definition db_two : DB :=
  mkDB (<["a"%string := ("ha"%string, 5)]> (<["b"%string := ("hb"%string, 7)]> ∅))
       ∅ ∅ ∅ [].

Definition w_two : World := init_world db_two clock0.

(** One candidate, and one unfollow recorded ten seconds ago: with an
    hourly limit of 1 the quota is used up. *)
Definition db_used_up : DB :=
  mkDB (<["a"%string := ("ha"%string, 5)]> ∅) ∅ ∅ ∅
       [mkAction "unfollow" "z" (t0 - 10)].

Definition w_used_up : World := init_world db_used_up clock0.

(** One unfollow recorded 59 minutes ago. *)
Definition entry_59 : Action := mkAction "unfollow" "z" (t0 - 59 * 60).

Definition db_59 : DB := mkDB ∅ ∅ ∅ ∅ [entry_59].

Definition w_59 : World := init_world db_59 clock0.

(** An export with one followed account and one follower file. *)
Definition export_small : Export :=
  mkExport
    (Ok [extraction.mkFollowingEntry "a"
           [extraction.mkStringListData "ha" "a" 5]])
    (Ok [Ok [extraction.mkFollowerEntry "t"
               [extraction.mkStringListData "hb" "b" 7]]]).

End samples.

(** ** pkg/browser: waiting for the login, and batches without a store *)

Module browser_session.
Import storage browser cmd.

(** What the remote side does during [WaitForManualLogin]: the two
    navigations, and what [checkLoggedInWithoutNavigate] sees at the
    start and after the sleep of each turn of the polling loop. *)
Record LoginRemote := mkLoginRemote {
  home_nav : option error;
  logged_in_at_start : bool;
  login_nav : option error;
  logged_in_at_poll : nat -> bool
}.

(** What one call of [WaitForManualLogin] returns and does: the error,
    the number of [time.Sleep(5 * time.Second)] it went through, the time
    spent in them, and its log lines. *)
Record LoginRun := mkLoginRun {
  lr_err : option error;
  lr_polls : nat;
  lr_slept : Z;
  lr_logs : list LogEntry
}.

(** [for i := 0; i < 120; i++ { ... }], from turn [i] on with [n] turns
    left. *)
Fixpoint poll_login (r : LoginRemote) (n i : nat) (polls : nat) (slept : Z)
    (logs : list LogEntry) : LoginRun :=
  match n with
  | O => mkLoginRun (Some "login timeout - 10 minutes elapsed"%string) polls slept logs
  | S n' =>
      let slept' := slept + 5 * time.Second in
      if logged_in_at_poll r i then
        mkLoginRun None (S polls) slept' (logs ++ [(Info, "Login detected"%string)])
      else
        poll_login r n' (S i) (S polls) slept'
          (if (i mod 6 =? 0)%nat
           then logs ++ [(Info, "Waiting for login..."%string)]
           else logs)
  end.

(** [func (b *Browser) WaitForManualLogin() error] *)
Definition WaitForManualLogin (r : LoginRemote) : LoginRun :=
  match home_nav r with
  | Some e => mkLoginRun (Some e) 0 0 []
  | None =>
      if logged_in_at_start r then
        mkLoginRun None 0 0 [(Info, "Already logged in"%string)]
      else
        let logs :=
          [(Info, "Not logged in - please log in manually (you have 10 minutes)"%string)] in
        match login_nav r with
        | Some e => mkLoginRun (Some e) 0 0 logs
        | None => poll_login r 120 0 0 0 logs
        end
  end.

(** The part of [browser.Config] that [UnfollowBatch] reads. *)
Record BatchConfig := mkBatchConfig {
  bc_UnfollowDelaySeconds : Z;
  bc_MaxPerHour : Z
}.

Section batches.
Context (env : Env) (bcfg : BatchConfig).
Local Open Scope cmd_scope.

(** The loop of [UnfollowBatch] (the version with a fixed delay), from
    index [i] on. *)
Fixpoint unfollow_batch_loop (maxCount i : Z) (usernames : list string)
    (successful : Z) : M Z :=
  match usernames with
  | [] => ret successful
  | username :: rest =>
      res <- call_Unfollow env username;;
      let '(result, err) := res in
      match result with
      | UnfollowSuccess =>
          let successful' := successful + 1 in
          if bc_MaxPerHour bcfg <=? successful' then
            logmsg Info "Reached hourly limit";;;
            ret successful'
          else
            (if i <? maxCount - 1 then
               logmsg Info "Waiting before next unfollow";;;
               sleep (wrap64 (bc_UnfollowDelaySeconds bcfg * time.Second))
             else ret tt);;;
            unfollow_batch_loop maxCount (i + 1) rest successful'
      | _ =>
          (match err with
           | Some _ => logmsg Error "Failed to unfollow"
           | None => ret tt
           end);;;
          unfollow_batch_loop maxCount (i + 1) rest successful
      end
  end.

(** [func (b *Browser) UnfollowBatch(usernames []string, maxCount int) (int, error)] *)
Definition UnfollowBatch (usernames : list string) (maxCount : Z)
  : M (Z * option error) :=
  let maxCount := if (maxCount <=? 0) || (len usernames <? maxCount)
                  then len usernames else maxCount in
  successful <- unfollow_batch_loop maxCount 0
                  (take (Z.to_nat maxCount) usernames) 0;;
  ret (successful, None).

End batches.
End browser_session.

(** ** pkg/extraction: finding the follower files *)

Module extraction_files.

(** [strings.HasPrefix] *)
Definition HasPrefix (s prefix : string) : bool := String.prefix prefix s.

(** [strings.HasSuffix]:
    [len(s) >= len(suffix) && s[len(s)-len(suffix):] == suffix] *)
Definition HasSuffix (s suffix : string) : bool :=
  (String.length suffix <=? String.length s)%nat
  && String.eqb (String.substring (String.length s - String.length suffix)
                           (String.length suffix) s) suffix.

(** One call of the function [filepath.Walk] is given: the path, the
    file's base name, whether it is a directory, and the error of reading
    it. *)
Record WalkEntry := mkWalkEntry {
  we_path : string;
  we_name : string;
  we_isDir : bool;
  we_err : option error
}.

(** [FindFollowerFiles]: the walk over [entries] (in the order
    [filepath.Walk] visits them) stops at the first error the function
    returns. *)
Fixpoint find_follower_files (entries : list WalkEntry) (files : list string)
  : list string * option error :=
  match entries with
  | [] => (files, None)
  | e :: rest =>
      match we_err e with
      | Some err => (files, Some err)
      | None =>
          if negb (we_isDir e) && HasPrefix (we_name e) "followers"
             && HasSuffix (we_name e) ".json"
          then find_follower_files rest (files ++ [we_path e])
          else find_follower_files rest files
      end
  end.

Definition FindFollowerFiles (entries : list WalkEntry)
  : list string * option error :=
  find_follower_files entries [].

End extraction_files.

(** ** package main: flags, the one-shot run, and [main] *)

Module cmd_more.
Import storage browser cmd.

(** The world without its log output. *)
Definition forget_log (w : World) : World :=
  mkWorld (w_db w) (w_clock w) (w_ops w) (w_calls w) (w_trace w) [].

Section commands.
Context (env : Env) (cfg : Config).
Local Open Scope cmd_scope.

(** The one-shot [runUnfollow]: one quota check and one batch, then
    return. *)
Definition runUnfollowOnce : M (option error) :=
  err <- Open env;;
  match err with
  | Some e => ret (Some e)
  | None =>
  _ <- db_read env OpUnfollowedCount (fun fault _ db => UnfollowedCount fault db);;
  logmsg Info "Previously unfollowed users";;;
  q <- db_read env OpActionsInLastHour
         (fun fault now db => ActionsInLastHour fault now "unfollow" db);;
  let '(count, err) := q in
  actionsLastHour <- match err with
                     | Some _ => logmsg Warn "Could not check recent actions";;; ret 0
                     | None => ret count
                     end;;
  let remainingThisHour := remaining_this_hour (Hourly cfg) actionsLastHour in
  logmsg Info "Rate limit status";;;
  if remainingThisHour <=? 0 then
    logmsg Info "Hourly rate limit reached, please wait and try again later";;;
    ret None
  else
    r <- db_read env OpUnfollowCandidates (fun fault _ db => UnfollowCandidates fault db);;
    match r with
    | Err e => ret (Some e)
    | Ok candidates =>
        logmsg Info "Loaded unfollow candidates";;;
        if len candidates =? 0 then
          logmsg Info "No unfollow candidates found";;;
          ret None
        else
          logmsg Info "Checking login status...";;;
          match login env with
          | Some e => ret (Some e)
          | None =>
              let maxCount := if len candidates <? remainingThisHour
                              then len candidates else remainingThisHour in
              _ <- batch env cfg remainingThisHour maxCount 0
                     (take (Z.to_nat maxCount) candidates) (mkCounters 0 0 0);;
              logmsg Info "Unfollow session complete";;;
              ret None
          end
    end
  end.

(** [main] after the flags are read. [config] is what [loadConfig]
    returns; [data] is [None] when no export was named and otherwise what
    unzipping it gives (an error, or the export found in the extracted
    directory); the result is the exit status, or [None] while the
    unfollow loop is still running after [fuel] turns. *)
Definition main (fuel : nat) (config : option error)
    (data : option (result Export)) (doUnfollow : bool) : M (option Z) :=
  match config with
  | Some _ => logmsg Error "Failed to load config";;; ret (Some 1)
  | None =>
      logmsg Info "Application started";;;
      imported <-
        match data with
        | None => ret true
        | Some (Err _) => logmsg Error "Failed to unzip data";;; ret false
        | Some (Ok ex) =>
            logmsg Info "Data unzipped";;;
            err <- parseToDB env ex;;
            match err with
            | Some _ => logmsg Error "Failed to parse and import data";;; ret false
            | None => ret true
            end
        end;;
      if negb imported then ret (Some 1)
      else if doUnfollow then
        out <- runUnfollow env cfg fuel;;
        match out with
        | Returned (Some _) => logmsg Error "Unfollow process failed";;; ret (Some 1)
        | Returned None => ret (Some 0)
        | Running => ret None
        end
      else ret (Some 0)
  end.

End commands.
End cmd_more.

(** * Properties *)

(** ** The candidate reconciler *)

Module storage_facts.
Import storage.

#[global] Instance ts_desc_total : Total ts_desc.
Proof. intros a b. unfold ts_desc. lia. Qed.

#[global] Instance ts_desc_trans : Transitive ts_desc.
Proof. intros a b c. unfold ts_desc. lia. Qed.

Lemma joined_is_null_true {V} (t : gmap string V) (u : string) :
  joined_is_null t u = true ↔ u ∉ dom t.
Proof.
  unfold joined_is_null. rewrite not_elem_of_dom.
  destruct (t !! u); split; congruence.
Qed.

Lemma candidate_rows_perm (db : DB) :
  candidate_rows db ≡ₚ
  scan_row <$> filter (fun row => candidate_where db row = true)
                      (map_to_list (following db)).
Proof. unfold candidate_rows. apply merge_sort_Permutation. Qed.

Lemma elem_of_candidate_rows (db : DB) (r : Relationship) :
  r ∈ candidate_rows db ↔
  following db !! Username r = Some (Href r, Timestamp r)
  ∧ (Username r ∉ dom (followers db))
  ∧ (Username r ∉ dom (unfollowed db))
  ∧ (Username r ∉ dom (not_following db)).
Proof.
  rewrite candidate_rows_perm.
  rewrite list_elem_of_fmap. split.
  - intros ([u [h t]] & -> & Hin). simpl.
    apply list_elem_of_filter in Hin as [Hw Hin].
    apply elem_of_map_to_list in Hin.
    unfold candidate_where in Hw. simpl in Hw.
    apply andb_true_iff in Hw as [Hw H3]. apply andb_true_iff in Hw as [H1 H2].
    by rewrite <- !joined_is_null_true.
  - destruct r as [u h t]. simpl. intros (Hf & H1 & H2 & H3).
    exists (u, (h, t)). split; [done|].
    apply list_elem_of_filter. split; [|by apply elem_of_map_to_list].
    unfold candidate_where. simpl.
    rewrite !andb_true_iff, !joined_is_null_true. done.
Qed.

Lemma candidate_usernames (db : DB) (u : string) :
  u ∈ Username <$> candidate_rows db ↔
  u ∈ dom (following db) ∖ dom (followers db) ∖ dom (unfollowed db)
        ∖ dom (not_following db).
Proof.
  rewrite list_elem_of_fmap. rewrite !elem_of_difference. split.
  - intros (r & -> & Hr). apply elem_of_candidate_rows in Hr as (Hf & ? & ? & ?).
    repeat split; try done. apply elem_of_dom. eauto.
  - intros [[[Hf ?] ?] ?]. apply elem_of_dom in Hf as [[h t] Hf].
    exists (mkRelationship u h t). split; [done|].
    apply elem_of_candidate_rows. done.
Qed.

Lemma candidate_rows_NoDup (db : DB) : NoDup (Username <$> candidate_rows db).
Proof.
  rewrite candidate_rows_perm. rewrite <- list_fmap_compose.
  apply (sublist_NoDup _ ((map_to_list (following db)).*1));
    [apply NoDup_fst_map_to_list|].
  change (Username ∘ scan_row) with (@fst string (string * Z)).
  apply fmap_sublist, sublist_filter.
Qed.

Lemma candidate_rows_sorted (db : DB) : StronglySorted ts_desc (candidate_rows db).
Proof. unfold candidate_rows. apply StronglySorted_merge_sort; apply _. Qed.

Lemma candidate_rows_ext (db db' : DB) :
  following db' = following db → followers db' = followers db →
  unfollowed db' = unfollowed db → not_following db' = not_following db →
  candidate_rows db' = candidate_rows db.
Proof.
  destruct db, db'. simpl. intros -> -> -> ->. reflexivity.
Qed.

(** Following = {a, b, c}, Followers = {b}, nothing actioned or excluded:
    the candidates are a and c, the more recently observed first. *)
Example candidate_rows_abc :
  Username <$> candidate_rows
    (mkDB (<["a"%string := ("ha"%string, 30)]>
             (<["b"%string := ("hb"%string, 20)]>
                (<["c"%string := ("hc"%string, 10)]> ∅)))
          (<["b"%string := ("hb"%string, 20)]> ∅) ∅ ∅ [])
  = ["a"%string; "c"%string].
Proof. vm_compute. reflexivity. Qed.

(** *** Import *)

(** The value the rows of an import leave under key [k], over what was
    there before: the last row with that username wins. *)
Lemma lookup_upsert_rows (rows : list Relationship) (t : gmap string (string * Z))
    (k : string) :
  upsert_rows rows t !! k =
  foldl (fun acc r => if decide (Username r = k)
                      then Some (Href r, Timestamp r) else acc)
        (t !! k) rows.
Proof.
  unfold upsert_rows. revert t. induction rows as [|r rows IH]; intros t.
  - reflexivity.
  - simpl. rewrite IH. f_equal. unfold insert_or_replace.
    rewrite lookup_insert. destruct (decide (Username r = k)); reflexivity.
Qed.

Lemma override_idemp (rows : list Relationship) (k : string)
    (d : option (string * Z)) :
  let step := fun (acc : option (string * Z)) (r : Relationship) =>
                if decide (Username r = k)
                then Some (Href r, Timestamp r) else acc in
  foldl step (foldl step d rows) rows = foldl step d rows.
Proof.
  intros step. induction rows as [|r rows IH] using rev_ind.
  - reflexivity.
  - rewrite !foldl_app. subst step. simpl in *.
    destruct (decide (Username r = k)); [reflexivity|exact IH].
Qed.

Lemma upsert_rows_idemp (rows : list Relationship) (t : gmap string (string * Z)) :
  upsert_rows rows (upsert_rows rows t) = upsert_rows rows t.
Proof.
  apply map_eq. intros k. rewrite !lookup_upsert_rows. apply override_idemp.
Qed.

End storage_facts.

(** ** The target state machine *)

Module browser_facts.
Import browser.

(** What has to have happened for [Unfollow] to arrive at its
    verification: the page loaded, the profile is there, the status was
    taken for "following", and both clicks went through. *)
Lemma Unfollow_verify (r : Remote) (username followStatus newStatus : string) :
  navigate r = None →
  profile_unavailable r = Ok false →
  follow_status r = Ok followStatus →
  followStatus ≠ "not_following"%string →
  followStatus ≠ "unknown"%string →
  click_following r = Ok true →
  click_unfollow r = None →
  new_status r = Ok newStatus →
  Unfollow r username =
  let log1 := [(Info, "Checking user"%string); (Info, "Unfollowing user"%string)] in
  let steps := [StNavigate; StCheckAvailability; StCheckFollowStatus;
                StClickFollowing; StClickUnfollow; StVerify] in
  if String.eqb newStatus "following" then
    mkAttempt UnfollowError
      (Some ("unfollow verification failed for " ++ username ++ " - still following")%string)
      steps
      (log1 ++ [(Warn, "Unfollow may have failed - still showing Following button"%string)])
  else if String.eqb newStatus "not_following" then
    mkAttempt UnfollowSuccess None steps
      (log1 ++ [(Info, "Unfollowed successfully - verified button changed to Follow"%string)])
  else
    mkAttempt UnfollowSuccess None steps
      (log1 ++ [(Warn, "Could not verify unfollow status, assuming success"%string)]).
Proof.
  intros Hn Ha Hf Hnf Hu Hc Hm Hv. unfold Unfollow.
  rewrite Hn, Ha, Hf, Hc, Hm, Hv.
  apply String.eqb_neq in Hnf, Hu. rewrite Hnf, Hu.
  reflexivity.
Qed.

End browser_facts.

(** ** The controller *)

Module cmd_facts.
Import storage browser cmd storage_facts.

(** *** Waiting for a slot *)

Lemma wrap64_small (z : Z) : min_int64 <= z <= max_int64 -> wrap64 z = z.
Proof.
  change min_int64 with (-9223372036854775808).
  change max_int64 with 9223372036854775807.
  unfold wrap64. change (2 ^ 63) with 9223372036854775808.
  change (2 ^ 64) with 18446744073709551616. intros H.
  rewrite Z.mod_small; lia.
Qed.

Lemma wait_time_floor (oldest : Z) (err : option error) (now : Z) :
  1 * time.Minute <= wait_time oldest err now.
Proof.
  unfold wait_time.
  destruct (bool_decide (is_Some err) || (oldest =? 0)).
  - unfold time.Minute, time.Second. lia.
  - simpl. case_match; rewrite ?Z.ltb_lt, ?Z.ltb_ge in *; lia.
Qed.

Lemma wait_time_formula (oldest now : Z) :
  oldest ≠ 0 ->
  oldest * time.Second + (time.Hour + 60 * time.Second) - now <= max_int64 ->
  wait_time oldest None now =
  Z.max (1 * time.Minute) (oldest * time.Second + (time.Hour + 60 * time.Second) - now).
Proof.
  intros Hz Hr. unfold wait_time.
  replace (bool_decide (is_Some (@None error))) with false
    by (symmetry; apply bool_decide_eq_false; intros [? ?]; discriminate).
  apply Z.eqb_neq in Hz. rewrite Hz. simpl orb. cbv iota.
  unfold time.Until, time.Sub, time.Add, time.Unix.
  change max_int64 with 9223372036854775807 in *.
  change min_int64 with (-9223372036854775808) in *.
  unfold time.Hour, time.Minute, time.Second in *.
  repeat case_match; rewrite ?Z.ltb_lt, ?Z.ltb_ge in *; lia.
Qed.

Lemma foldl_min_spec (l : list Z) (x : Z) :
  foldl Z.min x l ∈ x :: l ∧ ∀ y, y ∈ x :: l → foldl Z.min x l <= y.
Proof.
  revert x. induction l as [|z l IH]; intros x; simpl.
  - split; [apply list_elem_of_here|]. intros y Hy.
    apply list_elem_of_singleton in Hy. lia.
  - destruct (IH (Z.min x z)) as [Hin Hle]. split.
    + apply elem_of_cons in Hin as [Heq|Hin].
      * rewrite Heq. destruct (Z.min_spec x z) as [[_ ->]|[_ ->]].
        -- apply list_elem_of_here.
        -- apply list_elem_of_further, list_elem_of_here.
      * do 2 apply list_elem_of_further. exact Hin.
    + intros y Hy. apply elem_of_cons in Hy as [->|Hy].
      * specialize (Hle (Z.min x z) (list_elem_of_here _ _)). lia.
      * apply elem_of_cons in Hy as [->|Hy].
        -- specialize (Hle (Z.min x z) (list_elem_of_here _ _)). lia.
        -- apply Hle. apply list_elem_of_further. exact Hy.
Qed.

(** [MIN(action_at)] is the timestamp of any oldest row. *)
Lemma sql_min_oldest (entries : list Action) (a : Action) :
  a ∈ entries → (∀ b, b ∈ entries → action_at a <= action_at b) →
  sql_min (action_at <$> entries) = Some (action_at a).
Proof.
  intros Hin Hmin. destruct entries as [|e entries]; [by apply elem_of_nil in Hin|].
  simpl. f_equal.
  destruct (foldl_min_spec (action_at <$> entries) (action_at e)) as [Hm Hle].
  change (action_at e :: (action_at <$> entries)) with (action_at <$> e :: entries) in *.
  apply list_elem_of_fmap in Hm as (b & Hb & Hbin).
  specialize (Hmin b Hbin).
  specialize (Hle (action_at a)).
  assert (action_at a ∈ action_at <$> e :: entries) as Ha
    by (apply list_elem_of_fmap; eauto).
  specialize (Hle Ha).
  change (foldl Z.min (action_at e) (action_at <$> entries) = action_at a). lia.
Qed.

Lemma calculateWaitTime_eq (env : Env) (w : World) :
  calculateWaitTime env w =
  (let '(oldest, err) :=
     OldestActionInLastHour (db_fault env OpOldestActionInLastHour (w_ops w))
       (unix_now w) "unfollow" (w_db w) in
   wait_time oldest err (w_clock w),
   mkWorld (w_db w) (w_clock w) (S (w_ops w)) (w_calls w) (w_trace w) (w_log w)).
Proof.
  unfold calculateWaitTime, bind, db_read.
  destruct (OldestActionInLastHour _ _ _ _) as [oldest err]. reflexivity.
Qed.

Lemma calculateWaitTime_empty (env : Env) (w : World) :
  db_fault env OpOldestActionInLastHour (w_ops w) = false →
  actions_in_last_hour (unix_now w) "unfollow" (w_db w) = [] →
  (calculateWaitTime env w).1 = 5 * time.Minute.
Proof.
  intros Hok Hnil. rewrite calculateWaitTime_eq, Hok.
  unfold OldestActionInLastHour. rewrite Hnil. reflexivity.
Qed.

Lemma calculateWaitTime_oldest (env : Env) (w : World) (a : Action) :
  db_fault env OpOldestActionInLastHour (w_ops w) = false →
  a ∈ actions_in_last_hour (unix_now w) "unfollow" (w_db w) →
  (∀ b, b ∈ actions_in_last_hour (unix_now w) "unfollow" (w_db w) →
        action_at a <= action_at b) →
  action_at a ≠ 0 →
  action_at a * time.Second + (time.Hour + 60 * time.Second) - w_clock w
    <= max_int64 →
  (calculateWaitTime env w).1 =
  Z.max (1 * time.Minute)
    (action_at a * time.Second + (time.Hour + 60 * time.Second) - w_clock w).
Proof.
  intros Hok Hin Hmin Hnz Hfit. rewrite calculateWaitTime_eq, Hok.
  unfold OldestActionInLastHour.
  rewrite (sql_min_oldest _ a Hin Hmin). cbn [coalesce0 fst].
  by apply wait_time_formula.
Qed.

(** *** One batch *)

Lemma filter_length_mono {A} (f g : A → bool) (l : list A) :
  (∀ x, f x = true → g x = true) →
  (length (List.filter f l) <= length (List.filter g l))%nat.
Proof.
  intros Hfg. induction l as [|x l IH]; simpl; [lia|].
  destruct (f x) eqn:Hf.
  - rewrite (Hfg x Hf). simpl. lia.
  - destruct (g x); simpl; lia.
Qed.

Lemma in_last_hour_mono (now now' : Z) (ty : string) (a : Action) :
  now <= now' → in_last_hour now' ty a = true → in_last_hour now ty a = true.
Proof.
  unfold in_last_hour. intros Hle.
  rewrite !andb_true_iff, !Z.ltb_lt. intros [? ?]. split; [done|lia].
Qed.

Lemma unix_now_mono (w w' : World) :
  w_clock w <= w_clock w' → unix_now w <= unix_now w'.
Proof.
  unfold unix_now. intros H. apply Z.div_le_mono; [reflexivity|exact H].
Qed.

(** As time passes and at most one row is appended, the count in the
    window grows by at most one. *)
Lemma window_count_step (w w' : World) :
  w_clock w <= w_clock w' →
  (session_actions (w_db w') = session_actions (w_db w)
   ∨ ∃ a, session_actions (w_db w') = session_actions (w_db w) ++ [a]) →
  window_count w' <= window_count w + (len (session_actions (w_db w'))
                                       - len (session_actions (w_db w))).
Proof.
  intros Hclock Hlog. unfold window_count, len, actions_in_last_hour.
  pose proof (unix_now_mono w w' Hclock) as Hnow.
  destruct Hlog as [->| [a ->]].
  - pose proof (filter_length_mono (in_last_hour (unix_now w') "unfollow")
      (in_last_hour (unix_now w) "unfollow") (session_actions (w_db w))
      (fun x => in_last_hour_mono _ _ _ x Hnow)). lia.
  - rewrite List.filter_app, !length_app. simpl.
    pose proof (filter_length_mono (in_last_hour (unix_now w') "unfollow")
      (in_last_hour (unix_now w) "unfollow") (session_actions (w_db w))
      (fun x => in_last_hour_mono _ _ _ x Hnow)).
    destruct (in_last_hour (unix_now w') "unfollow" a); simpl; lia.
Qed.

Lemma apply_result_frame (env : Env) (u : string) (res : UnfollowResult)
    (c : Counters) (w : World) :
  let c' := (apply_result env u res c w).1 in
  let w' := (apply_result env u res c w).2 in
  w_clock w' = w_clock w ∧ w_trace w' = w_trace w ∧ w_calls w' = w_calls w
  ∧ ((res ≠ UnfollowSuccess ∧ successful c' = successful c
      ∧ session_actions (w_db w') = session_actions (w_db w))
     ∨ (res = UnfollowSuccess ∧ successful c' = successful c + 1
        ∧ (session_actions (w_db w') = session_actions (w_db w)
           ∨ session_actions (w_db w') =
             session_actions (w_db w) ++ [mkAction "unfollow" u (unix_now w)]))).
Proof.
  destruct res; simpl; unfold bind, db_write, log_if_err, logmsg, ret; simpl.
  all: unfold MarkUnfollowed, RecordAction, RemoveFromFollowing, MarkNotFollowing.
  all: repeat (match goal with |- context [db_fault ?e ?o ?n] =>
                 destruct (db_fault e o n) end; simpl).
  all: repeat split; try reflexivity.
  all: try (left; repeat split; [discriminate| reflexivity ..]).
  all: try (right; repeat split; try reflexivity; auto).
Qed.

Lemma batch_cons (env : Env) (cfg : Config) (r m i : Z) (cand : Relationship)
    (rest : list Relationship) (c : Counters) (w : World) :
  batch env cfg r m i (cand :: rest) c w =
  let w1 := (call_Unfollow env (Username cand) w).2 in
  let result := (call_Unfollow env (Username cand) w).1.1 in
  let c' := (apply_result env (Username cand) result c w1).1 in
  let w2 := (apply_result env (Username cand) result c w1).2 in
  match result with
  | UnfollowSuccess =>
      if r <=? successful c' then
        (c', (logmsg Info "Reached hourly limit" w2).2)
      else
        batch env cfg r m (i + 1) rest c'
          (if i <? m - 1 then
             (sleep (wrap64 (UnfollowDelaySeconds cfg * time.Second))
                (logmsg Info "Waiting before next unfollow" w2).2).2
           else w2)
  | _ => batch env cfg r m (i + 1) rest c' w2
  end.
Proof.
  cbn [batch]. unfold bind at 1.
  destruct (call_Unfollow env (Username cand) w) as [[result err] w1].
  cbn [fst snd]. unfold bind at 1.
  destruct (apply_result env (Username cand) result c w1) as [c' w2].
  cbn [fst snd].
  destruct result; try reflexivity.
  destruct (r <=? successful c'); [reflexivity|].
  unfold bind at 1. destruct (i <? m - 1); reflexivity.
Qed.

Lemma quota_at_window (cfg : Config) (w : World) :
  quota_at cfg (w_db w) (w_clock w) = remaining_this_hour (Hourly cfg) (window_count w).
Proof. reflexivity. Qed.

Lemma remaining_this_hour_exact (h n : Z) :
  0 <= h <= max_int64 → 0 <= n <= max_int64 →
  remaining_this_hour h n = Z.max 0 (h - n).
Proof.
  intros Hh Hn. unfold remaining_this_hour.
  change max_int64 with 9223372036854775807 in *.
  rewrite wrap64_small.
  - case_match; rewrite ?Z.ltb_lt, ?Z.ltb_ge in *; lia.
  - change min_int64 with (-9223372036854775808).
    change max_int64 with 9223372036854775807. lia.
Qed.

Lemma window_count_nonneg (w : World) : 0 <= window_count w.
Proof. unfold window_count, len. lia. Qed.

Lemma remaining_this_hour_pos (h n : Z) :
  0 <= h <= max_int64 → 0 <= n < h → 0 < remaining_this_hour h n.
Proof.
  intros Hh Hn. rewrite remaining_this_hour_exact; [lia|done|].
  change max_int64 with 9223372036854775807 in *. lia.
Qed.

Lemma batch_spec (env : Env) (cfg : Config) (remaining maxCount : Z)
    (cands : list Relationship) :
  0 <= Hourly cfg <= max_int64 →
  ∀ (i : Z) (c : Counters) (w : World),
  successful c < remaining →
  remaining - successful c <= Hourly cfg - window_count w →
  ∃ new, w_trace (batch env cfg remaining maxCount i cands c w).2 = w_trace w ++ new
     ∧ (d_username <$> dispatches new) `prefix_of` (Username <$> cands)
     ∧ Forall (within_quota cfg) new.
Proof.
  intros Hh. induction cands as [|cand rest IH]; intros i c w Hs Hq.
  - exists []. simpl. rewrite app_nil_r. repeat split.
    + apply prefix_nil.
    + constructor.
  - rewrite batch_cons. cbv zeta.
    set (u := Username cand).
    set (w1 := (call_Unfollow env u w).2).
    set (result := (call_Unfollow env u w).1.1).
    pose proof (apply_result_frame env u result c w1) as Hf.
    cbv zeta in Hf.
    set (c' := (apply_result env u result c w1).1) in *.
    set (w2 := (apply_result env u result c w1).2) in *.
    cbv zeta.
    set (d := mkDispatch u (at_steps (Unfollow (remote env (w_calls w)) u))
                (w_db w) (w_clock w)).
    assert (w_trace w1 = w_trace w ++ [EvUnfollow d]) as Ht1 by reflexivity.
    assert (w_clock w <= w_clock w1) as Hc1 by (simpl; lia).
    assert (w_db w1 = w_db w) as Hd1 by reflexivity.
    assert (within_quota cfg (EvUnfollow d)) as Hd.
    { simpl. rewrite quota_at_window. apply remaining_this_hour_pos; [done|].
      pose proof (window_count_nonneg w). lia. }
    destruct Hf as (Hc2 & Ht2 & _ & Hres).
    clearbody c' w2 result w1.
    assert (window_count w2 <= window_count w
            + (len (session_actions (w_db w2)) - len (session_actions (w_db w))))
      as Hw2.
    { apply window_count_step; [lia|]. rewrite Hd1 in Hres.
      destruct Hres as [(_ & _ & ->)|(_ & _ & [->| ->])]; eauto. }
    assert (∀ w3 c3, w_trace w3 = w_trace w2 ∨ (∃ s, w_trace w3 = w_trace w2 ++ [EvSleep s]) →
       (∃ new, w_trace (batch env cfg remaining maxCount (i + 1) rest c3 w3).2
                = w_trace w3 ++ new
              ∧ (d_username <$> dispatches new) `prefix_of` (Username <$> rest)
              ∧ Forall (within_quota cfg) new) →
       ∃ new, w_trace (batch env cfg remaining maxCount (i + 1) rest c3 w3).2
                = w_trace w ++ new
         ∧ (d_username <$> dispatches new) `prefix_of` (Username <$> cand :: rest)
         ∧ Forall (within_quota cfg) new) as Hglue.
    { intros w3 c3 Ht3 (new & Hnew & Hpre & Hall).
      destruct Ht3 as [Ht3|[s Ht3]].
      - exists (EvUnfollow d :: new). rewrite Hnew, Ht3, Ht2, Ht1, <- app_assoc.
        repeat split; [|by constructor].
        simpl. by apply prefix_cons.
      - exists (EvUnfollow d :: EvSleep s :: new).
        rewrite Hnew, Ht3, Ht2, Ht1, <- !app_assoc.
        repeat split; [|by repeat constructor].
        simpl. by apply prefix_cons. }
    destruct Hres as [(Hne & Hsucc & Hlog)|(Heq & Hsucc & Hlog)].
    + assert (∃ new, w_trace (batch env cfg remaining maxCount (i + 1) rest c' w2).2
                = w_trace w ++ new
         ∧ (d_username <$> dispatches new) `prefix_of` (Username <$> cand :: rest)
         ∧ Forall (within_quota cfg) new) as Hgoal.
      { apply Hglue; [by left|]. apply IH; [lia|].
        rewrite Hlog, Hd1 in Hw2. lia. }
      destruct result; [done|exact Hgoal..].
    + rewrite Heq. destruct (Z.leb_spec remaining (successful c')) as [Hle|Hgt].
      * exists [EvUnfollow d]. repeat split.
        -- change (w_trace w2 = w_trace w ++ [EvUnfollow d]). by rewrite Ht2, Ht1.
        -- apply prefix_cons, prefix_nil.
        -- by repeat constructor.
      * assert (len (session_actions (w_db w2)) - len (session_actions (w_db w)) <= 1)
          as Hgrow.
        { rewrite Hd1 in Hlog. destruct Hlog as [->| ->]; unfold len;
            rewrite ?length_app; simpl; lia. }
        destruct (i <? maxCount - 1).
        -- apply Hglue; [right; eexists; reflexivity|].
           apply IH; [lia|].
           match goal with |- _ <= _ - window_count ?w3 =>
             assert (window_count w3 <= window_count w2) as Hw3 end.
           { etransitivity; [apply (window_count_step w2)|]; [| left; reflexivity |].
             - simpl. case_match; lia.
             - change (window_count w2 + (len (session_actions (w_db w2))
                         - len (session_actions (w_db w2))) <= window_count w2).
               lia. }
           lia.
        -- apply Hglue; [by left|]. apply IH; lia.
Qed.

Lemma loop_body_eq (env : Env) (cfg : Config) (w : World) :
  loop_body env cfg w =
  let remaining := remaining_this_hour (Hourly cfg) (actions_seen env w) in
  let wA := after_quota_check env w in
  if remaining <=? 0 then
    let wt := calculateWaitTime env wA in
    (Continue,
     (sleep wt.1 (logmsg Info "Hourly rate limit reached, waiting for reset" wt.2).2).2)
  else
    match UnfollowCandidates (db_fault env OpUnfollowCandidates (w_ops wA)) (w_db w) with
    | Err e => (Return (Some e), bump_ops wA)
    | Ok candidates =>
        let wC := (logmsg Info "Loaded unfollow candidates" (bump_ops wA)).2 in
        if len candidates =? 0 then
          (Return None, (logmsg Info "No more unfollow candidates - all done!" wC).2)
        else
          let maxCount := if len candidates <? remaining
                          then len candidates else remaining in
          (Continue,
           (logmsg Info "Session batch complete"
              (batch env cfg remaining maxCount 0
                 (take (Z.to_nat maxCount) candidates) (mkCounters 0 0 0) wC).2).2)
    end.
Proof.
  unfold loop_body, actions_seen, after_quota_check, bump_ops, window_count.
  unfold bind, db_read, ret. cbn [logmsg w_ops w_db w_clock w_calls w_trace w_log].
  unfold ActionsInLastHour, unix_now. cbn [w_clock].
  destruct (db_fault env OpActionsInLastHour (S (w_ops w))).
  - cbn [logmsg w_ops w_db w_clock w_calls w_trace w_log].
    destruct (remaining_this_hour (Hourly cfg) 0 <=? 0).
    + destruct (calculateWaitTime env _) as [wt wB]. reflexivity.
    + destruct (UnfollowCandidates _ _) as [candidates|e]; [|reflexivity].
      destruct (len candidates =? 0); [reflexivity|].
      destruct (batch _ _ _ _ _ _ _ _). reflexivity.
  - cbn [logmsg w_ops w_db w_clock w_calls w_trace w_log].
    destruct (remaining_this_hour (Hourly cfg) _ <=? 0).
    + destruct (calculateWaitTime env _) as [wt wB]. reflexivity.
    + destruct (UnfollowCandidates _ _) as [candidates|e]; [|reflexivity].
      destruct (len candidates =? 0); [reflexivity|].
      destruct (batch _ _ _ _ _ _ _ _). reflexivity.
Qed.

Lemma filter_length_bound {A} (f : A → bool) (l : list A) :
  (length (List.filter f l) <= length l)%nat.
Proof. induction l as [|x l IH]; simpl; [lia|]. destruct (f x); simpl; lia. Qed.

Lemma window_count_le_log (w : World) :
  window_count w <= len (session_actions (w_db w)).
Proof.
  unfold window_count, len, actions_in_last_hour.
  pose proof (filter_length_bound (in_last_hour (unix_now w) "unfollow")
                (session_actions (w_db w))). lia.
Qed.

Lemma dispatches_prefix_length (new : list Event) (cands : list Relationship) :
  (d_username <$> dispatches new) `prefix_of` (Username <$> cands) →
  len (dispatches new) <= len cands.
Proof.
  intros H. apply prefix_length in H. rewrite !length_fmap in H.
  unfold len. lia.
Qed.

Lemma calculateWaitTime_snd (env : Env) (w : World) :
  (calculateWaitTime env w).2 = bump_ops w.
Proof. rewrite calculateWaitTime_eq. reflexivity. Qed.

Lemma loop_body_quota (env : Env) (cfg : Config) (w : World) :
  db_fault env OpActionsInLastHour (S (w_ops w)) = false →
  0 <= Hourly cfg <= max_int64 →
  len (session_actions (w_db w)) <= max_int64 →
  let remaining := quota_at cfg (w_db w) (w_clock w) in
  let candidates := candidate_rows (w_db w) in
  let flow := (loop_body env cfg w).1 in
  let w' := (loop_body env cfg w).2 in
  ∃ new, w_trace w' = w_trace w ++ new
   ∧ (remaining = 0 →
      flow = Continue ∧ w_db w' = w_db w
      ∧ new = [EvSleep (calculateWaitTime env (after_quota_check env w)).1])
   ∧ (d_username <$> dispatches new) `prefix_of`
       (Username <$> take (Z.to_nat (Z.min remaining (len candidates))) candidates)
   ∧ len (dispatches new) <= Z.min remaining (len candidates)
   ∧ Forall (within_quota cfg) new.
Proof.
  intros Hok Hh Hlog remaining candidates flow w'.
  subst flow w'. rewrite loop_body_eq. cbv zeta.
  unfold actions_seen. rewrite Hok.
  rewrite <- quota_at_window. fold remaining.
  pose proof (window_count_nonneg w) as Hc0.
  pose proof (window_count_le_log w) as Hc1.
  assert (remaining = Z.max 0 (Hourly cfg - window_count w)) as Hrem.
  { unfold remaining. rewrite quota_at_window.
    apply remaining_this_hour_exact; [done|lia]. }
  assert (∀ new,
    (d_username <$> dispatches new) `prefix_of`
       (Username <$> take (Z.to_nat (Z.min remaining (len candidates))) candidates) →
    len (dispatches new) <= Z.min remaining (len candidates)) as Hlen.
  { intros new Hp. apply dispatches_prefix_length in Hp.
    unfold len in *. rewrite length_take in Hp. lia. }
  destruct (Z.leb_spec remaining 0) as [Hz|Hpos].
  - exists [EvSleep (calculateWaitTime env (after_quota_check env w)).1].
    split; [|split; [|split; [|split]]].
    + cbn [sleep snd w_trace logmsg]. rewrite calculateWaitTime_snd. reflexivity.
    + intros _. repeat split; try reflexivity.
      cbn [sleep snd w_db logmsg]. rewrite calculateWaitTime_snd. reflexivity.
    + apply prefix_nil.
    + apply Hlen, prefix_nil.
    + repeat constructor.
  - unfold UnfollowCandidates.
    destruct (db_fault env OpUnfollowCandidates _).
    { exists []. rewrite app_nil_r.
      split; [reflexivity|]. split; [intros ?; lia|].
      split; [apply prefix_nil|]. split; [apply Hlen, prefix_nil|constructor]. }
    fold candidates.
    destruct (Z.eqb_spec (len candidates) 0) as [Hnil|Hne].
    { exists []. rewrite app_nil_r.
      split; [reflexivity|]. split; [intros ?; lia|].
      split; [apply prefix_nil|]. split; [apply Hlen, prefix_nil|constructor]. }
    set (maxCount := if len candidates <? remaining then len candidates else remaining).
    assert (maxCount = Z.min remaining (len candidates)) as Hmax.
    { unfold maxCount. case_match; rewrite ?Z.ltb_lt, ?Z.ltb_ge in *; lia. }
    set (wC := (logmsg Info "Loaded unfollow candidates"
                  (bump_ops (after_quota_check env w))).2).
    destruct (batch_spec env cfg remaining maxCount
                (take (Z.to_nat maxCount) candidates) Hh 0 (mkCounters 0 0 0) wC)
      as (new & Hnew & Hpre & Hall).
    + simpl. lia.
    + change (window_count wC) with (window_count w). simpl. lia.
    + exists new. rewrite Hmax in Hpre.
      split; [exact Hnew|]. split; [intros ?; lia|].
      split; [exact Hpre|]. split; [by apply Hlen|exact Hall].
Qed.

(** *** Outcomes and the quota-one scenario *)

Lemma apply_result_db (env : Env) (username : string) (c : Counters) (w : World) :
  (∀ op n, (w_ops w <= n < w_ops w + 3)%nat → db_fault env op n = false) →
  let now := unix_now w in
  let db := w_db w in
  let after := fun result => w_db (apply_result env username result c w).2 in
  after UnfollowSuccess =
    mkDB (delete username (following db)) (followers db)
         (<[username := now]> (unfollowed db)) (not_following db)
         (session_actions db ++ [mkAction "unfollow" username now])
  ∧ after UnfollowNotFollowing =
    mkDB (delete username (following db)) (followers db) (unfollowed db)
         (<[username := now]> (not_following db)) (session_actions db)
  ∧ after UnfollowProfileUnavailable =
    mkDB (delete username (following db)) (followers db) (unfollowed db)
         (<[username := now]> (not_following db)) (session_actions db)
  ∧ after UnfollowError = db.
Proof.
  intros Hok now db after. subst after now db.
  assert (∀ op, db_fault env op (w_ops w) = false) as H0 by (intros; apply Hok; lia).
  assert (∀ op, db_fault env op (S (w_ops w)) = false) as H1 by (intros; apply Hok; lia).
  assert (∀ op, db_fault env op (S (S (w_ops w))) = false) as H2 by (intros; apply Hok; lia).
  unfold apply_result, bind, db_write, log_if_err, logmsg, ret.
  cbn [w_ops w_db w_clock w_calls w_trace w_log snd fst].
  rewrite !H0.
  unfold MarkUnfollowed at 1, MarkNotFollowing at 1, RemoveFromFollowing at 3.
  cbn [w_ops w_db w_clock w_calls w_trace w_log snd fst].
  rewrite !H1.
  unfold RecordAction, RemoveFromFollowing at 2, MarkNotFollowing.
  cbn [w_ops w_db w_clock w_calls w_trace w_log snd fst].
  rewrite !H2. unfold RemoveFromFollowing.
  cbn [w_ops w_db w_clock w_calls w_trace w_log snd fst].
  repeat split.
Qed.

Lemma remaining_this_hour_1_0 : remaining_this_hour 1 0 = 1.
Proof. reflexivity. Qed.

Lemma remaining_this_hour_1_1 : remaining_this_hour 1 1 = 0.
Proof. reflexivity. Qed.

Lemma main_loop_S (env : Env) (cfg : Config) (fuel : nat) (w : World) :
  main_loop env cfg (S fuel) w =
  match (loop_body env cfg w).1 with
  | Return err => (Returned err, (loop_body env cfg w).2)
  | Continue => main_loop env cfg fuel (loop_body env cfg w).2
  end.
Proof.
  cbn [main_loop]. unfold bind.
  destruct (loop_body env cfg w) as [[|err] w']; reflexivity.
Qed.

(** Quota 1 and at least two eligible candidates: the first is unfollowed
    and the next turn of the loop is a cooldown. *)
Lemma quota_one_scenario (env : Env) (cfg : Config) (w : World)
    (a b : Relationship) (rest : list Relationship) :
  Hourly cfg = 1 →
  (∀ op n, db_fault env op n = false) →
  candidate_rows (w_db w) = a :: b :: rest →
  window_count w = 0 →
  at_result (Unfollow (remote env (w_calls w)) (Username a)) = UnfollowSuccess →
  ∃ steps d,
    (main_loop env cfg 2 w).1 = Running
    ∧ w_trace (main_loop env cfg 2 w).2 =
      w_trace w ++ [EvUnfollow (mkDispatch (Username a) steps (w_db w) (w_clock w));
                    EvSleep d]
    ∧ 1 * time.Minute <= d.
Proof.
  intros Hq Hnf Hcands Hcnt Hsucc.
  set (r := remote env (w_calls w)) in *.
  set (now1 := (w_clock w + Z.of_N (elapsed r)) / time.Second).
  (* the first turn *)
  assert (∃ w1, loop_body env cfg w = (Continue, w1)
    ∧ w_trace w1 = w_trace w ++ [EvUnfollow (mkDispatch (Username a)
                      (at_steps (Unfollow r (Username a))) (w_db w) (w_clock w))]
    ∧ unix_now w1 = now1
    ∧ session_actions (w_db w1) =
      session_actions (w_db w) ++ [mkAction "unfollow" (Username a) now1])
    as (w1 & Hturn1 & Htrace1 & Hnow1 & Hlog1).
  { rewrite loop_body_eq. cbv zeta. unfold actions_seen.
    rewrite Hnf, Hcnt, Hq, remaining_this_hour_1_0.
    change (1 <=? 0) with false. cbv iota.
    rewrite Hnf. unfold UnfollowCandidates. rewrite Hcands.
    change (len (a :: b :: rest) =? 0) with
      (Z.of_nat (S (S (length rest))) =? 0).
    destruct (Z.eqb_spec (Z.of_nat (S (S (length rest)))) 0) as [?|_]; [lia|].
    change (len (a :: b :: rest) <? 1) with
      (Z.of_nat (S (S (length rest))) <? 1).
    destruct (Z.ltb_spec (Z.of_nat (S (S (length rest)))) 1) as [?|_]; [lia|].
    change (take (Z.to_nat 1) (a :: b :: rest)) with [a].
    rewrite batch_cons. cbv zeta.
    set (wC := (logmsg Info "Loaded unfollow candidates"
                  (bump_ops (after_quota_check env w))).2).
    change (call_Unfollow env (Username a) wC).1.1
      with (at_result (Unfollow r (Username a))).
    rewrite Hsucc.
    set (w1 := (call_Unfollow env (Username a) wC).2).
    pose proof (apply_result_frame env (Username a) UnfollowSuccess
                  (mkCounters 0 0 0) w1) as Hf.
    pose proof (apply_result_db env (Username a) (mkCounters 0 0 0) w1
                  (fun op n _ => Hnf op n)) as Hdb.
    cbv zeta in Hf, Hdb. destruct Hdb as [Hdb _].
    destruct Hf as (Hc2 & Ht2 & _ & [(Hne & _)|(_ & Hs & _)]); [done|].
    rewrite Hs. change (1 <=? successful (mkCounters 0 0 0) + 1) with true.
    cbv iota. eexists. split; [reflexivity|].
    cbn [logmsg snd w_trace w_db unix_now w_clock].
    rewrite Ht2, Hc2, Hdb. repeat split. }
  (* the second turn *)
  assert (window_count w1 = 1) as Hcnt1.
  { unfold window_count, len, actions_in_last_hour. rewrite Hlog1, Hnow1.
    rewrite List.filter_app, length_app.
    assert (length (List.filter (in_last_hour now1 "unfollow")
                      (session_actions (w_db w))) = 0%nat) as ->.
    { pose proof (filter_length_mono (in_last_hour now1 "unfollow")
        (in_last_hour (unix_now w) "unfollow") (session_actions (w_db w))) as Hle.
      unfold window_count, len, actions_in_last_hour in Hcnt.
      assert (unix_now w <= now1) as Hmono.
      { unfold unix_now, now1. apply Z.div_le_mono; [reflexivity|lia]. }
      specialize (Hle (fun x => in_last_hour_mono _ _ _ x Hmono)). lia. }
    cbn [List.filter]. unfold in_last_hour at 1. cbn [action_type action_at].
    rewrite String.eqb_refl.
    destruct (Z.ltb_spec (now1 - 3600) now1); [reflexivity|lia]. }
  exists (at_steps (Unfollow r (Username a))),
         (calculateWaitTime env (after_quota_check env w1)).1.
  rewrite main_loop_S, Hturn1. cbn [fst snd].
  rewrite main_loop_S. cbn [main_loop ret].
  rewrite loop_body_eq. cbv zeta. unfold actions_seen.
  rewrite Hnf, Hcnt1, Hq, remaining_this_hour_1_1.
  change (0 <=? 0) with true. cbv iota.
  split; [reflexivity|]. split.
  - cbn [sleep logmsg snd w_trace]. rewrite calculateWaitTime_snd.
    cbn [bump_ops after_quota_check w_trace]. rewrite Htrace1, <- app_assoc.
    reflexivity.
  - rewrite calculateWaitTime_eq. cbn [fst].
    destruct (OldestActionInLastHour _ _ _ _). apply wait_time_floor.
Qed.

(** *** What a batch adds, and a failed count *)

Lemma apply_result_log (env : Env) (u : string) (res : UnfollowResult)
    (c : Counters) (w : World) :
  ∃ more, w_log (apply_result env u res c w).2 = w_log w ++ more.
Proof.
  destruct res; unfold apply_result, bind, db_write, log_if_err, logmsg, ret;
    cbn [w_ops w_db w_clock w_calls w_trace w_log fst snd].
  all: unfold MarkUnfollowed, RecordAction, RemoveFromFollowing, MarkNotFollowing.
  all: repeat (match goal with |- context [db_fault ?e ?o ?n] =>
                 destruct (db_fault e o n) end;
               cbn [w_ops w_db w_clock w_calls w_trace w_log fst snd]).
  all: rewrite <- ?app_assoc; try (eexists; reflexivity).
  all: exists []; by rewrite app_nil_r.
Qed.

(** A batch only adds to the trace and to the log. *)
Lemma batch_extends (env : Env) (cfg : Config) (r m : Z)
    (cands : list Relationship) :
  ∀ (i : Z) (c : Counters) (w : World),
  ∃ new more,
    w_trace (batch env cfg r m i cands c w).2 = w_trace w ++ new
    ∧ w_log (batch env cfg r m i cands c w).2 = w_log w ++ more.
Proof.
  induction cands as [|cand rest IH]; intros i c w.
  - exists [], []. by rewrite !app_nil_r.
  - rewrite batch_cons. cbv zeta.
    set (u := Username cand).
    set (w1 := (call_Unfollow env u w).2).
    set (result := (call_Unfollow env u w).1.1).
    pose proof (apply_result_frame env u result c w1) as (_ & Ht2 & _).
    destruct (apply_result_log env u result c w1) as [more2 Hl2].
    set (c' := (apply_result env u result c w1).1) in *.
    set (w2 := (apply_result env u result c w1).2) in *.
    assert (∃ new more, w_trace w2 = w_trace w ++ new ∧ w_log w2 = w_log w ++ more)
      as (new2 & more2' & Hn2 & Hm2).
    { exists [EvUnfollow (mkDispatch u (at_steps (Unfollow (remote env (w_calls w)) u))
                (w_db w) (w_clock w))], (at_logs (Unfollow (remote env (w_calls w)) u) ++ more2).
      rewrite Ht2, Hl2. split; [reflexivity|]. by rewrite app_assoc. }
    clearbody c' w2 result w1.
    assert (∀ w3, (∃ n3 m3, w_trace w3 = w_trace w2 ++ n3 ∧ w_log w3 = w_log w2 ++ m3) →
      ∃ new more, w_trace (batch env cfg r m (i + 1) rest c' w3).2 = w_trace w ++ new
               ∧ w_log (batch env cfg r m (i + 1) rest c' w3).2 = w_log w ++ more)
      as Hrec.
    { intros w3 (n3 & m3 & Hn3 & Hm3). destruct (IH (i + 1) c' w3) as (n4 & m4 & Hn4 & Hm4).
      exists (new2 ++ n3 ++ n4), (more2' ++ m3 ++ m4).
      rewrite Hn4, Hm4, Hn3, Hm3, Hn2, Hm2, <- !app_assoc. done. }
    destruct result.
    + destruct (r <=? successful c').
      * exists new2, (more2' ++ [(Info, "Reached hourly limit"%string)]).
        cbn [logmsg snd w_trace w_log]. rewrite Hn2, Hm2, <- app_assoc. done.
      * apply Hrec. destruct (i <? m - 1).
        -- eexists _, _. cbn [sleep logmsg snd w_trace w_log]. done.
        -- exists [], []. by rewrite !app_nil_r.
    + apply Hrec. exists [], []. by rewrite !app_nil_r.
    + apply Hrec. exists [], []. by rewrite !app_nil_r.
    + apply Hrec. exists [], []. by rewrite !app_nil_r.
Qed.

(** A non-empty batch starts by calling [Unfollow] on its first candidate,
    against the store and the clock as they are. *)
Lemma batch_first_dispatch (env : Env) (cfg : Config) (r m i : Z)
    (cand : Relationship) (rest : list Relationship) (c : Counters) (w : World) :
  ∃ new,
    w_trace (batch env cfg r m i (cand :: rest) c w).2 =
      w_trace w ++ EvUnfollow (mkDispatch (Username cand)
                     (at_steps (Unfollow (remote env (w_calls w)) (Username cand)))
                     (w_db w) (w_clock w)) :: new.
Proof.
  rewrite batch_cons. cbv zeta.
  set (u := Username cand).
  set (w1 := (call_Unfollow env u w).2).
  set (result := (call_Unfollow env u w).1.1).
  pose proof (apply_result_frame env u result c w1) as (_ & Ht2 & _).
  set (c' := (apply_result env u result c w1).1) in *.
  set (w2 := (apply_result env u result c w1).2) in *.
  set (d := mkDispatch u (at_steps (Unfollow (remote env (w_calls w)) u))
              (w_db w) (w_clock w)).
  assert (w_trace w2 = w_trace w ++ [EvUnfollow d]) as Hw2 by (by rewrite Ht2).
  clearbody c' w2 result w1.
  assert (∀ w3, (∃ n3, w_trace w3 = w_trace w2 ++ n3) →
    ∃ new, w_trace (batch env cfg r m (i + 1) rest c' w3).2
           = w_trace w ++ EvUnfollow d :: new) as Hrec.
  { intros w3 (n3 & Hn3).
    destruct (batch_extends env cfg r m rest (i + 1) c' w3) as (n4 & _ & Hn4 & _).
    exists (n3 ++ n4). rewrite Hn4, Hn3, Hw2, <- !app_assoc. done. }
  destruct result.
  - destruct (r <=? successful c').
    + exists []. cbn [logmsg snd w_trace]. by rewrite Hw2.
    + apply Hrec. destruct (i <? m - 1).
      * eexists. cbn [sleep logmsg snd w_trace]. reflexivity.
      * exists []. by rewrite app_nil_r.
  - apply Hrec. exists []. by rewrite app_nil_r.
  - apply Hrec. exists []. by rewrite app_nil_r.
  - apply Hrec. exists []. by rewrite app_nil_r.
Qed.

(** *** The importer *)

(** What one run of [parseToDB] does to the two imported tables: each is
    either left alone or gets the rows of the export, and a run that
    returns nil has written both. The rows depend on the export only. *)
Lemma parseToDB_tables (env : Env) (ex : Export) :
  ∃ F A : list Relationship, ∀ w : World,
    let e := (parseToDB env ex w).1 in
    let db := w_db w in
    let db' := w_db (parseToDB env ex w).2 in
    (following db' = following db ∨ following db' = upsert_rows F (following db))
    ∧ (followers db' = followers db ∨ followers db' = upsert_rows A (followers db))
    ∧ (e = None → following db' = upsert_rows F (following db)
                  ∧ followers db' = upsert_rows A (followers db)).
Proof.
  exists (match extraction.ParseFollowing (following_json ex) with
          | Ok rows => rows | Err _ => [] end),
         (match follower_files ex with
          | Ok files => match parse_follower_files files [] with
                        | Ok rows => rows | Err _ => [] end
          | Err _ => [] end).
  intros w. cbv zeta.
  unfold parseToDB, Open, bind, db_write, db_read, ret.
  cbn [w_ops w_db w_clock w_calls w_trace w_log fst snd].
  destruct (db_fault env OpOpen (w_ops w)); cbn [logmsg w_ops w_db w_clock w_calls w_trace w_log fst snd].
  { split; [left; reflexivity|]. split; [left; reflexivity|]. discriminate. }
  destruct (extraction.ParseFollowing (following_json ex)) as [F|e];
    cbn [logmsg w_ops w_db w_clock w_calls w_trace w_log fst snd].
  2: { split; [left; reflexivity|]. split; [left; reflexivity|]. discriminate. }
  unfold UpsertFollowing, upsertRelationships.
  destruct (db_fault env OpUpsertFollowing (S (w_ops w))); cbn [logmsg w_ops w_db w_clock w_calls w_trace w_log fst snd].
  { split; [left; reflexivity|]. split; [left; reflexivity|]. discriminate. }
  cbn [logmsg w_ops w_db w_clock w_calls w_trace w_log fst snd].
  destruct (follower_files ex) as [files|e]; cbn [logmsg w_ops w_db w_clock w_calls w_trace w_log fst snd].
  2: { split; [right; reflexivity|]. split; [left; reflexivity|]. discriminate. }
  destruct (parse_follower_files files []) as [A|e]; cbn [logmsg w_ops w_db w_clock w_calls w_trace w_log fst snd].
  2: { split; [right; reflexivity|]. split; [left; reflexivity|]. discriminate. }
  unfold UpsertFollowers, upsertRelationships.
  cbn [w_ops w_db w_clock w_calls w_trace w_log fst snd].
  destruct (db_fault env OpUpsertFollowers (S (S (w_ops w)))); cbn [logmsg w_ops w_db w_clock w_calls w_trace w_log fst snd].
  { split; [right; reflexivity|]. split; [left; reflexivity|]. discriminate. }
  cbn [logmsg w_ops w_db w_clock w_calls w_trace w_log fst snd].
  destruct (UnfollowCandidates _ _); cbn [logmsg w_ops w_db w_clock w_calls w_trace w_log fst snd].
  all: split; [right; reflexivity|]; split; [right; reflexivity|]; done.
Qed.


End cmd_facts.

(** * The claims of the specification *)

Import storage browser cmd samples storage_facts browser_facts cmd_facts.

(** ** Candidate Reconciler *)

(** C1. Whatever the four persisted tables hold, [UnfollowCandidates]
    (when the query itself does not fail) returns rows of [following] whose
    usernames are exactly Following minus Followers minus Actioned
    ([unfollowed]) minus Excluded ([not_following]); the rows come most
    recent timestamp first; the list is a function of the four tables
    alone; and a username in [unfollowed] or [not_following] is not
    returned, also after it has been imported into [following] again. *)
Theorem candidates_set_difference (db : DB) :
  ∃ out : list Relationship,
    UnfollowCandidates false db = Ok out
    ∧ (∀ u : string,
         u ∈ Username <$> out ↔
         u ∈ dom (following db) ∖ dom (followers db) ∖ dom (unfollowed db)
               ∖ dom (not_following db))
    ∧ (∀ r, r ∈ out → following db !! Username r = Some (Href r, Timestamp r))
    ∧ StronglySorted ts_desc out
    ∧ (∀ db', following db' = following db → followers db' = followers db →
              unfollowed db' = unfollowed db →
              not_following db' = not_following db →
              UnfollowCandidates false db' = Ok out)
    ∧ (∀ u : string,
         u ∈ dom (unfollowed db) ∪ dom (not_following db) →
         (u ∉ Username <$> out)
         ∧ (∀ rows,
              u ∉ Username <$> candidate_rows (UpsertFollowing false rows db).1)).
Proof.
  exists (candidate_rows db). split; [reflexivity|].
  split; [apply candidate_usernames|].
  split; [intros r Hr; by apply elem_of_candidate_rows in Hr as [? _]|].
  split; [apply candidate_rows_sorted|].
  split.
  - intros db' H1 H2 H3 H4. unfold UnfollowCandidates.
    by rewrite (candidate_rows_ext db db').
  - intros u Hu. apply elem_of_union in Hu. split.
    + rewrite candidate_usernames, !elem_of_difference. tauto.
    + intros rows. rewrite candidate_usernames, !elem_of_difference.
      cbn [UpsertFollowing upsertRelationships fst set_following followers
           unfollowed not_following].
      tauto.
Qed.

(** C10. The list [UnfollowCandidates] returns never holds a username
    twice; the call fails only when the storage query does. *)
Theorem candidates_no_duplicates (db : DB) (fault : bool) :
  match UnfollowCandidates fault db with
  | Ok out => NoDup (Username <$> out)
  | Err _ => fault = true
  end.
Proof.
  unfold UnfollowCandidates. destruct fault; [reflexivity|].
  apply candidate_rows_NoDup.
Qed.

(** ** Import *)

(** C9. After an import that succeeded, importing the same export once
    more (whether or not that second run meets a storage failure) leaves
    the [following] and [followers] tables as the first run left them. *)
Theorem import_idempotent (env : Env) (ex : Export) (w : World) :
  (parseToDB env ex w).1 = None →
  let w1 := (parseToDB env ex w).2 in
  let w2 := (parseToDB env ex w1).2 in
  following (w_db w2) = following (w_db w1)
  ∧ followers (w_db w2) = followers (w_db w1).
Proof.
  intros Hok w1 w2.
  destruct (parseToDB_tables env ex) as (F & A & Htab).
  destruct (Htab w) as (_ & _ & Hrun1). destruct (Hrun1 Hok) as [HF HA].
  destruct (Htab w1) as (HF2 & HA2 & _).
  fold w1 in HF, HA. fold w2 in HF2, HA2. split.
  - destruct HF2 as [->| ->]; [done|]. rewrite HF. apply upsert_rows_idemp.
  - destruct HA2 as [->| ->]; [done|]. rewrite HA. apply upsert_rows_idemp.
Qed.

Lemma import_idempotent_witness :
  (parseToDB env_ok export_small w_two).1 = None
  ∧ (let w1 := (parseToDB env_ok export_small w_two).2 in
     let w2 := (parseToDB env_ok export_small w1).2 in
     following (w_db w2) = following (w_db w1)
     ∧ followers (w_db w2) = followers (w_db w1)).
Proof.
  split; [reflexivity|].
  apply (import_idempotent env_ok export_small w_two). reflexivity.
Defined.

(** ** Target State Machine *)

(** C8. When the page loads, the profile is there and the follow-status
    script answers "not_following", [Unfollow] returns
    [UnfollowNotFollowing] with a nil error after exactly the three
    inspection steps: neither click and no verification is issued. *)
Theorem not_following_skips_action (r : Remote) (username : string) :
  navigate r = None →
  profile_unavailable r = Ok false →
  follow_status r = Ok "not_following"%string →
  let a := Unfollow r username in
  at_result a = UnfollowNotFollowing
  ∧ at_err a = None
  ∧ at_steps a = [StNavigate; StCheckAvailability; StCheckFollowStatus]
  ∧ (StClickFollowing ∉ at_steps a)
  ∧ (StClickUnfollow ∉ at_steps a)
  ∧ (StVerify ∉ at_steps a).
Proof.
  intros Hn Ha Hf. unfold Unfollow. rewrite Hn, Ha, Hf. cbn.
  repeat split; intros Hin; repeat (apply elem_of_cons in Hin as [Hin|Hin];
    [discriminate|]); by apply elem_of_nil in Hin.
Qed.

Lemma not_following_skips_action_witness :
  (navigate remote_not_following = None
   ∧ profile_unavailable remote_not_following = Ok false
   ∧ follow_status remote_not_following = Ok "not_following"%string)
  ∧ (let a := Unfollow remote_not_following "a" in
     at_result a = UnfollowNotFollowing
     ∧ at_err a = None
     ∧ at_steps a = [StNavigate; StCheckAvailability; StCheckFollowStatus]
     ∧ (StClickFollowing ∉ at_steps a)
     ∧ (StClickUnfollow ∉ at_steps a)
     ∧ (StVerify ∉ at_steps a)).
Proof.
  split; [repeat split|].
  apply (not_following_skips_action remote_not_following "a"); reflexivity.
Defined.

(** C3. Once [Unfollow] has clicked through to its verification (the
    page loaded, the profile is there, the first status was neither
    "not_following" nor "unknown", both clicks went through and the
    status script ran again), the second status decides: "following"
    gives [UnfollowError] with an error, "not_following" gives
    [UnfollowSuccess], and "unknown" gives [UnfollowSuccess] with the
    warning that the status could not be verified. [UnfollowSuccess] is
    never returned on "following". *)
Theorem verify_outcomes (r : Remote) (username followStatus newStatus : string) :
  navigate r = None →
  profile_unavailable r = Ok false →
  follow_status r = Ok followStatus →
  followStatus ≠ "not_following"%string →
  followStatus ≠ "unknown"%string →
  click_following r = Ok true →
  click_unfollow r = None →
  new_status r = Ok newStatus →
  let a := Unfollow r username in
  last (at_steps a) = Some StVerify
  ∧ (newStatus = "following"%string →
     at_result a = UnfollowError ∧ is_Some (at_err a))
  ∧ (newStatus = "not_following"%string →
     at_result a = UnfollowSuccess ∧ at_err a = None)
  ∧ (newStatus = "unknown"%string →
     at_result a = UnfollowSuccess ∧ at_err a = None
     ∧ (Warn, "Could not verify unfollow status, assuming success"%string)
         ∈ at_logs a)
  ∧ (at_result a = UnfollowSuccess → newStatus ≠ "following"%string).
Proof.
  intros Hn Ha Hf Hnf Hu Hc Hm Hv a. subst a.
  rewrite (Unfollow_verify r username followStatus newStatus) by assumption.
  cbv zeta. split; [|split; [|split; [|split]]].
  - repeat case_match; reflexivity.
  - intros ->. cbn. split; [reflexivity|eauto].
  - intros ->. cbn. split; reflexivity.
  - intros ->. cbn. split; [reflexivity|]. split; [reflexivity|].
    do 2 apply list_elem_of_further. apply list_elem_of_here.
  - intros Hs ->. cbn in Hs. discriminate.
Qed.

Lemma verify_outcomes_witness :
  (navigate remote_still_following = None
   ∧ profile_unavailable remote_still_following = Ok false
   ∧ follow_status remote_still_following = Ok "following"%string
   ∧ "following"%string ≠ "not_following"%string
   ∧ "following"%string ≠ "unknown"%string
   ∧ click_following remote_still_following = Ok true
   ∧ click_unfollow remote_still_following = None
   ∧ new_status remote_still_following = Ok "following"%string)
  ∧ at_result (Unfollow remote_still_following "a") = UnfollowError.
Proof.
  split; [repeat split; discriminate|].
  refine (proj1 (proj1 (proj2
    (verify_outcomes remote_still_following "a" "following" "following"
       _ _ _ _ _ _ _ _)) _)); try reflexivity; discriminate.
Defined.

(** ** Session Controller: outcomes *)

(** C2. When the storage calls of one candidate do not fail, the
    controller's [switch] leaves the store as the outcome table says.
    [UnfollowSuccess]: the username is put in [unfollowed], deleted from
    [following], and one "unfollow" row is appended to the action log.
    [UnfollowNotFollowing] and [UnfollowProfileUnavailable]: the username
    is put in [not_following] and deleted from [following]; the action
    log is untouched. [UnfollowError]: the store is untouched (whether or
    not storage calls would fail), so the candidate list is the same on
    the next pass. *)
Theorem outcome_table (env : Env) (username : string) (c : Counters) (w : World) :
  (∀ op n, (w_ops w <= n < w_ops w + 3)%nat → db_fault env op n = false) →
  let now := unix_now w in
  let db := w_db w in
  let after := fun result => w_db (apply_result env username result c w).2 in
  after UnfollowSuccess =
    mkDB (delete username (following db)) (followers db)
         (<[username := now]> (unfollowed db)) (not_following db)
         (session_actions db ++ [mkAction "unfollow" username now])
  ∧ after UnfollowNotFollowing =
    mkDB (delete username (following db)) (followers db) (unfollowed db)
         (<[username := now]> (not_following db)) (session_actions db)
  ∧ after UnfollowProfileUnavailable =
    mkDB (delete username (following db)) (followers db) (unfollowed db)
         (<[username := now]> (not_following db)) (session_actions db)
  ∧ after UnfollowError = db
  ∧ candidate_rows (after UnfollowError) = candidate_rows db.
Proof.
  intros Hok now db after.
  destruct (apply_result_db env username c w Hok) as (H1 & H2 & H3 & H4).
  repeat split; assumption.
Qed.

Lemma outcome_table_witness :
  (∀ op n, (w_ops w_two <= n < w_ops w_two + 3)%nat → db_fault env_ok op n = false)
  ∧ w_db (apply_result env_ok "a" UnfollowError (mkCounters 0 0 0) w_two).2
    = w_db w_two.
Proof.
  split; [reflexivity|].
  refine (proj1 (proj2 (proj2 (proj2
    (outcome_table env_ok "a" (mkCounters 0 0 0) w_two _))))).
  reflexivity.
Defined.

(** ** Rate Limiter: time until a slot is free *)

(** C4. [calculateWaitTime], when its query does not fail: with no
    "unfollow" row in the last hour it returns 5 minutes; otherwise, for
    the oldest such row [a] (recorded at a Unix time other than 0, the
    value the query uses for "no rows", and near enough to now for the
    difference to fit a [Duration]) it returns the larger of 1 minute and
    [a]'s time plus one hour plus 60 seconds minus now. *)
Theorem wait_from_oldest_entry (env : Env) (w : World) :
  db_fault env OpOldestActionInLastHour (w_ops w) = false →
  let entries := actions_in_last_hour (unix_now w) "unfollow" (w_db w) in
  let wait := (calculateWaitTime env w).1 in
  (entries = [] → wait = 5 * time.Minute)
  ∧ (∀ a, a ∈ entries → (∀ b, b ∈ entries → action_at a <= action_at b) →
       action_at a ≠ 0 →
       action_at a * time.Second + (time.Hour + 60 * time.Second) - w_clock w
         <= max_int64 →
       wait = Z.max (1 * time.Minute)
                (action_at a * time.Second + (time.Hour + 60 * time.Second)
                 - w_clock w)).
Proof.
  intros Hok entries wait. split.
  - intros Hnil. by apply calculateWaitTime_empty.
  - intros a Hin Hmin Hnz Hfit. by apply calculateWaitTime_oldest.
Qed.

Lemma wait_from_oldest_entry_witness :
  db_fault env_ok OpOldestActionInLastHour (w_ops w_59) = false
  ∧ (entry_59
       ∈ actions_in_last_hour (unix_now w_59) "unfollow" (w_db w_59)
     ∧ (∀ b, b ∈ actions_in_last_hour (unix_now w_59) "unfollow" (w_db w_59) →
             action_at entry_59 <= action_at b)
     ∧ action_at entry_59 ≠ 0
     ∧ action_at entry_59 * time.Second + (time.Hour + 60 * time.Second)
         - w_clock w_59 <= max_int64)
  ∧ (calculateWaitTime env_ok w_59).1
    = Z.max (1 * time.Minute)
        (action_at entry_59 * time.Second + (time.Hour + 60 * time.Second)
         - w_clock w_59).
Proof.
  assert (actions_in_last_hour (unix_now w_59) "unfollow" (w_db w_59) = [entry_59])
    as Hwin by reflexivity.
  assert (entry_59 ∈ actions_in_last_hour (unix_now w_59) "unfollow" (w_db w_59))
    as Hin by (rewrite Hwin; apply list_elem_of_here).
  assert (∀ b, b ∈ actions_in_last_hour (unix_now w_59) "unfollow" (w_db w_59) →
               action_at entry_59 <= action_at b) as Hmin.
  { intros b Hb. rewrite Hwin in Hb. apply list_elem_of_singleton in Hb.
    rewrite Hb. reflexivity. }
  split; [reflexivity|]. split; [repeat split; [exact Hin|exact Hmin|done|done]|].
  apply (proj2 (wait_from_oldest_entry env_ok w_59 eq_refl) entry_59);
    [exact Hin|exact Hmin|done|done].
Defined.

(** C7, as the code has it. With exactly one "unfollow" row in the last
    hour, recorded 59 minutes before now (now in whole seconds, as SQLite
    reads it), [calculateWaitTime] returns two minutes less the
    sub-second part of now: 60 seconds until the row is an hour old plus
    the 60 seconds of margin. That is more than 119 and at most 120
    seconds, and not less than the 1 minute floor. *)
Theorem wait_for_entry_59_minutes_old (env : Env) (w : World) (a : Action) :
  db_fault env OpOldestActionInLastHour (w_ops w) = false →
  actions_in_last_hour (unix_now w) "unfollow" (w_db w) = [a] →
  action_at a = unix_now w - 59 * 60 →
  action_at a ≠ 0 →
  let wait := (calculateWaitTime env w).1 in
  wait = 120 * time.Second - w_clock w mod time.Second
  ∧ 119 * time.Second < wait <= 120 * time.Second
  ∧ 1 * time.Minute <= wait.
Proof.
  intros Hok Hwin Hat Hnz wait.
  pose proof (Z.div_mod (w_clock w) time.Second) as Hdm.
  pose proof (Z.mod_pos_bound (w_clock w) time.Second) as Hmod.
  assert (wait = 120 * time.Second - w_clock w mod time.Second) as Hw.
  { subst wait.
    rewrite (calculateWaitTime_oldest env w a Hok).
    - rewrite Hat. unfold unix_now, time.Hour, time.Minute, time.Second in *. lia.
    - rewrite Hwin. apply list_elem_of_here.
    - intros b Hb. rewrite Hwin in Hb. apply list_elem_of_singleton in Hb.
      rewrite Hb. reflexivity.
    - exact Hnz.
    - rewrite Hat. change max_int64 with 9223372036854775807.
      unfold unix_now, time.Hour, time.Minute, time.Second in *. lia. }
  rewrite Hw. unfold time.Minute, time.Second in *. lia.
Qed.

Lemma wait_for_entry_59_minutes_old_witness :
  (db_fault env_ok OpOldestActionInLastHour (w_ops w_59) = false
   ∧ actions_in_last_hour (unix_now w_59) "unfollow" (w_db w_59) = [entry_59]
   ∧ action_at entry_59 = unix_now w_59 - 59 * 60
   ∧ action_at entry_59 ≠ 0)
  ∧ (calculateWaitTime env_ok w_59).1
    = 120 * time.Second - w_clock w_59 mod time.Second.
Proof.
  split; [repeat split; done|].
  refine (proj1 (wait_for_entry_59_minutes_old env_ok w_59 entry_59 _ _ _ _));
    [reflexivity|reflexivity|reflexivity|done].
Defined.

(** C7 as stated does not hold: with one row recorded at now minus 59
    minutes the wait is 120 seconds, 59 seconds away from 61. *)
Lemma wait_61_seconds_counterexample :
  actions_in_last_hour (unix_now w_59) "unfollow" (w_db w_59) = [entry_59]
  ∧ action_at entry_59 = unix_now w_59 - 59 * 60
  ∧ (calculateWaitTime env_ok w_59).1 = 120 * time.Second
  ∧ ¬ (Z.abs ((calculateWaitTime env_ok w_59).1 - 61 * time.Second)
       <= 10 * time.Second).
Proof.
  split; [reflexivity|]. split; [reflexivity|]. split; [reflexivity|].
  vm_compute. intros H. apply H. reflexivity.
Qed.

(** ** Session Controller: the quota *)

(** C5, as the code has it. When the query that counts the recent
    actions fails at the start of a turn of the main loop, the failure is
    not returned: the controller logs the warning "Could not check recent
    actions", takes the count to be 0 and goes on. With a limit that
    leaves nothing it cools down; otherwise it loads the candidates,
    returns only an error of that load, returns nil when there are none,
    and else calls [Unfollow] on the first candidate. *)
Theorem count_failure_is_tolerated (env : Env) (cfg : Config) (w : World) :
  db_fault env OpActionsInLastHour (S (w_ops w)) = true →
  let remaining := remaining_this_hour (Hourly cfg) 0 in
  let loaded := UnfollowCandidates
                  (db_fault env OpUnfollowCandidates (S (S (w_ops w)))) (w_db w) in
  let flow := (loop_body env cfg w).1 in
  let w' := (loop_body env cfg w).2 in
  (Warn, "Could not check recent actions"%string) ∈ w_log w'
  ∧ (remaining <= 0 → flow = Continue)
  ∧ (0 < remaining →
     match loaded with
     | Err e => flow = Return (Some e)
     | Ok [] => flow = Return None
     | Ok (c :: _) =>
         flow = Continue
         ∧ ∃ steps new,
             w_trace w' =
             w_trace w ++ EvUnfollow (mkDispatch (Username c) steps (w_db w)
                                        (w_clock w)) :: new
     end)
  ∧ (∀ e, flow = Return (Some e) → loaded = Err e).
Proof.
  intros Hf remaining loaded flow w'. subst flow w'.
  rewrite loop_body_eq. cbv zeta. unfold actions_seen. rewrite Hf.
  fold remaining. change (w_ops (after_quota_check env w)) with (S (S (w_ops w))).
  fold loaded.
  assert (∀ wx more, w_log wx = w_log (after_quota_check env w) ++ more →
            (Warn, "Could not check recent actions"%string) ∈ w_log wx) as Hwarn.
  { intros wx more ->. unfold after_quota_check. cbn [w_log]. rewrite Hf.
    apply elem_of_app. left. apply elem_of_app. left.
    apply elem_of_app. right. apply list_elem_of_here. }
  destruct (Z.leb_spec remaining 0) as [Hz|Hpos].
  - split; [|split; [done|split; [lia|discriminate]]].
    apply (Hwarn _ [(Info, "Hourly rate limit reached, waiting for reset"%string)]).
    cbn [sleep logmsg snd w_log]. by rewrite calculateWaitTime_snd.
  - destruct loaded as [[|c cands]|e].
    + split; [|split; [lia|split; [done|discriminate]]].
      eapply Hwarn. cbn [logmsg snd w_log bump_ops]. rewrite <- app_assoc. reflexivity.
    + assert ((len (c :: cands) =? 0) = false) as ->
        by (apply Z.eqb_neq; unfold len; simpl; lia).
      set (maxCount := if len (c :: cands) <? remaining
                       then len (c :: cands) else remaining).
      assert (∃ k, Z.to_nat maxCount = S k) as [k Hk].
      { exists (Z.to_nat (maxCount - 1)). unfold maxCount, len.
        case_match; rewrite ?Z.ltb_lt, ?Z.ltb_ge in *; simpl length in *; lia. }
      rewrite Hk. cbn [take].
      set (wC := (logmsg Info "Loaded unfollow candidates"
                    (bump_ops (after_quota_check env w))).2).
      destruct (batch_first_dispatch env cfg remaining maxCount 0 c (take k cands)
                  (mkCounters 0 0 0) wC) as (new & Hnew).
      destruct (batch_extends env cfg remaining maxCount (c :: take k cands) 0
                  (mkCounters 0 0 0) wC) as (_ & more & _ & Hmore).
      split; [|split; [lia|split; [intros _; split; [reflexivity|]|discriminate]]].
      * eapply Hwarn. cbn [logmsg snd w_log]. rewrite Hmore.
        cbn [wC logmsg snd w_log bump_ops]. rewrite <- !app_assoc. reflexivity.
      * eexists _, new. cbn [logmsg snd w_trace]. exact Hnew.
    + split; [|split; [lia|split; [done|]]].
      * eapply (Hwarn _ []). by rewrite app_nil_r.
      * intros e' [= ->]. reflexivity.
Qed.

Lemma count_failure_is_tolerated_witness :
  db_fault env_count_fails OpActionsInLastHour (S (w_ops w_used_up)) = true
  ∧ (Warn, "Could not check recent actions"%string)
      ∈ w_log (loop_body env_count_fails cfg_one w_used_up).2.
Proof.
  split; [reflexivity|].
  exact (proj1 (count_failure_is_tolerated env_count_fails cfg_one w_used_up eq_refl)).
Defined.

(** C5 as stated does not hold: the count query fails (it is the third
    storage call of the run), the quota of 1 is in fact used up, and yet
    the run calls [Unfollow] on "a" and returns nil. *)
Lemma count_failure_counterexample :
  db_fault env_count_fails OpActionsInLastHour 2 = true
  ∧ quota_at cfg_one (w_db w_used_up) (w_clock w_used_up) = 0
  ∧ (runUnfollow env_count_fails cfg_one 2 w_used_up).1 = Returned None
  ∧ d_username <$> dispatches (w_trace (runUnfollow env_count_fails cfg_one 2
                                          w_used_up).2)
    = ["a"%string]
  ∧ ¬ (∃ e, (runUnfollow env_count_fails cfg_one 2 w_used_up).1
            = Returned (Some e)).
Proof.
  split; [reflexivity|]. split; [reflexivity|].
  split; [vm_compute; reflexivity|]. split; [vm_compute; reflexivity|].
  intros [e He]. vm_compute in He. discriminate.
Qed.

(** C6. A turn of the main loop whose count query does not fail (limit
    and row count within [int]): with no quota left it only sleeps for
    [calculateWaitTime] and goes round again, leaving the store alone; in
    any case the usernames it calls [Unfollow] on are the first
    candidates, in order, at most min(remaining quota, number of
    candidates) of them; and every such call is issued at a moment when
    the quota computed from the action log is positive. With a limit of
    1, at least two candidates, nothing recorded in the last hour and no
    storage failure, a first attempt that succeeds is followed by the
    cooldown sleep, not by an attempt on the second candidate. *)
Theorem quota_gates_dispatch (env : Env) (cfg : Config) (w : World) :
  db_fault env OpActionsInLastHour (S (w_ops w)) = false →
  0 <= Hourly cfg <= max_int64 →
  len (session_actions (w_db w)) <= max_int64 →
  (let remaining := quota_at cfg (w_db w) (w_clock w) in
   let candidates := candidate_rows (w_db w) in
   let flow := (loop_body env cfg w).1 in
   let w' := (loop_body env cfg w).2 in
   ∃ new, w_trace w' = w_trace w ++ new
     ∧ (remaining = 0 →
        flow = Continue ∧ w_db w' = w_db w
        ∧ new = [EvSleep (calculateWaitTime env (after_quota_check env w)).1])
     ∧ (d_username <$> dispatches new) `prefix_of`
         (Username <$> take (Z.to_nat (Z.min remaining (len candidates))) candidates)
     ∧ len (dispatches new) <= Z.min remaining (len candidates)
     ∧ Forall (within_quota cfg) new)
  ∧ (Hourly cfg = 1 →
     (∀ op n, db_fault env op n = false) →
     ∀ (a b : Relationship) (rest : list Relationship),
       candidate_rows (w_db w) = a :: b :: rest →
       window_count w = 0 →
       at_result (Unfollow (remote env (w_calls w)) (Username a)) = UnfollowSuccess →
       ∃ steps d,
         (main_loop env cfg 2 w).1 = Running
         ∧ w_trace (main_loop env cfg 2 w).2 =
           w_trace w ++ [EvUnfollow (mkDispatch (Username a) steps (w_db w)
                                       (w_clock w));
                         EvSleep d]
         ∧ 1 * time.Minute <= d).
Proof.
  intros Hok Hh Hlog. split.
  - exact (loop_body_quota env cfg w Hok Hh Hlog).
  - intros Hq Hnf a b rest. exact (quota_one_scenario env cfg w a b rest Hq Hnf).
Qed.

Lemma quota_gates_dispatch_witness :
  (db_fault env_ok OpActionsInLastHour (S (w_ops w_two)) = false
   ∧ 0 <= Hourly cfg_one <= max_int64
   ∧ len (session_actions (w_db w_two)) <= max_int64)
  ∧ (Hourly cfg_one = 1
     ∧ (∀ op n, db_fault env_ok op n = false)
     ∧ candidate_rows (w_db w_two)
       = [mkRelationship "b" "hb" 7; mkRelationship "a" "ha" 5]
     ∧ window_count w_two = 0
     ∧ at_result (Unfollow (remote env_ok (w_calls w_two)) "b") = UnfollowSuccess)
  ∧ ∃ steps d,
      (main_loop env_ok cfg_one 2 w_two).1 = Running
      ∧ w_trace (main_loop env_ok cfg_one 2 w_two).2 =
        [EvUnfollow (mkDispatch "b" steps db_two clock0); EvSleep d]
      ∧ 1 * time.Minute <= d.
Proof.
  assert (0 <= Hourly cfg_one <= max_int64) as Hh by (by vm_compute).
  assert (len (session_actions (w_db w_two)) <= max_int64) as Hlog by (by vm_compute).
  split; [repeat split; [apply Hh..|exact Hlog]|].
  split; [repeat split|].
  exact (proj2 (quota_gates_dispatch env_ok cfg_one w_two eq_refl Hh Hlog)
           eq_refl (fun _ _ => eq_refl)
           (mkRelationship "b" "hb" 7) (mkRelationship "a" "ha" 5) []
           eq_refl eq_refl eq_refl).
Defined.

(** * Further properties of the code *)

(** ** The store *)

Module storage_more.
Import storage storage_facts cmd_facts.

Lemma upsert_rows_app (l1 l2 : list Relationship) (t : gmap string (string * Z)) :
  upsert_rows (l1 ++ l2) t = upsert_rows l2 (upsert_rows l1 t).
Proof. unfold upsert_rows. apply foldl_app. Qed.

Lemma lookup_upsert_rows_notin (rows : list Relationship)
    (t : gmap string (string * Z)) (u : string) :
  u ∉ Username <$> rows → upsert_rows rows t !! u = t !! u.
Proof.
  revert t. induction rows as [|r rows IH]; intros t Hu; [reflexivity|].
  rewrite fmap_cons in Hu. apply not_elem_of_cons in Hu as [Hne Hu].
  change (upsert_rows (r :: rows) t) with (upsert_rows rows (insert_or_replace t r)).
  rewrite IH by exact Hu. unfold insert_or_replace.
  by rewrite lookup_insert_ne.
Qed.

Lemma dom_upsert_rows (rows : list Relationship) (t : gmap string (string * Z)) :
  dom (upsert_rows rows t) = dom t ∪ list_to_set (Username <$> rows).
Proof.
  revert t. induction rows as [|r rows IH]; intros t.
  - simpl. by rewrite (right_id_L ∅ (∪)).
  - change (upsert_rows (r :: rows) t) with (upsert_rows rows (insert_or_replace t r)).
    rewrite IH. unfold insert_or_replace. rewrite dom_insert_L.
    rewrite fmap_cons, list_to_set_cons.
    rewrite (comm_L (∪) {[Username r]} (dom t)), <- (assoc_L (∪)). reflexivity.
Qed.

Lemma foldl_max_spec (l : list Z) (x : Z) :
  foldl Z.max x l ∈ x :: l ∧ ∀ y, y ∈ x :: l → y <= foldl Z.max x l.
Proof.
  revert x. induction l as [|z l IH]; intros x; simpl.
  - split; [apply list_elem_of_here|]. intros y Hy.
    apply list_elem_of_singleton in Hy. lia.
  - destruct (IH (Z.max x z)) as [Hin Hle]. split.
    + apply elem_of_cons in Hin as [Heq|Hin].
      * rewrite Heq. destruct (Z.max_spec x z) as [[_ ->]|[_ ->]].
        -- apply list_elem_of_further, list_elem_of_here.
        -- apply list_elem_of_here.
      * do 2 apply list_elem_of_further. exact Hin.
    + intros y Hy. apply elem_of_cons in Hy as [->|Hy].
      * specialize (Hle (Z.max x z) (list_elem_of_here _ _)). lia.
      * apply elem_of_cons in Hy as [->|Hy].
        -- specialize (Hle (Z.max x z) (list_elem_of_here _ _)). lia.
        -- apply Hle. apply list_elem_of_further. exact Hy.
Qed.

Lemma elem_of_actions_in_last_hour (now : Z) (ty : string) (db : DB) (a : Action) :
  a ∈ actions_in_last_hour now ty db ↔
  a ∈ session_actions db ∧ action_type a = ty ∧ now - 3600 < action_at a.
Proof.
  unfold actions_in_last_hour. rewrite !list_elem_of_In, List.filter_In.
  unfold in_last_hour. rewrite andb_true_iff, String.eqb_eq, Z.ltb_lt. tauto.
Qed.

End storage_more.

Import storage browser cmd samples storage_facts browser_facts cmd_facts storage_more.

(** X1. An import never removes a row: after [upsertRelationships]'s
    statements have run, the table holds the usernames it held before
    together with the usernames of the rows. *)
Theorem upsert_keeps_and_adds_usernames (rows : list Relationship)
    (t : gmap string (string * Z)) :
  dom (upsert_rows rows t) = dom t ∪ list_to_set (Username <$> rows)
  ∧ (∀ u, u ∉ Username <$> rows → upsert_rows rows t !! u = t !! u).
Proof.
  split; [apply dom_upsert_rows|]. intros u. apply lookup_upsert_rows_notin.
Qed.

(** X2. When the rows of an import name a username more than once, the
    last of them is what the table holds afterwards. *)
Theorem upsert_last_row_wins (l1 l2 : list Relationship) (r : Relationship)
    (t : gmap string (string * Z)) :
  Username r ∉ Username <$> l2 →
  upsert_rows (l1 ++ r :: l2) t !! Username r = Some (Href r, Timestamp r).
Proof.
  intros Hlast. rewrite upsert_rows_app.
  change (upsert_rows (r :: l2) (upsert_rows l1 t))
    with (upsert_rows l2 (insert_or_replace (upsert_rows l1 t) r)).
  rewrite lookup_upsert_rows_notin by exact Hlast.
  unfold insert_or_replace. apply lookup_insert_eq.
Qed.

Lemma upsert_last_row_wins_witness :
  (Username (mkRelationship "a" "h2" 2) ∉
     Username <$> [mkRelationship "b" "hb" 3])
  ∧ upsert_rows ([mkRelationship "a" "h1" 1]
                   ++ mkRelationship "a" "h2" 2 :: [mkRelationship "b" "hb" 3]) ∅
      !! "a"%string = Some ("h2"%string, 2).
Proof.
  assert (Username (mkRelationship "a" "h2" 2) ∉
            Username <$> [mkRelationship "b" "hb" 3]) as H.
  { intros Hin. apply list_elem_of_singleton in Hin. discriminate. }
  split; [exact H|].
  exact (upsert_last_row_wins [mkRelationship "a" "h1" 1]
           [mkRelationship "b" "hb" 3] (mkRelationship "a" "h2" 2) ∅ H).
Defined.

(** X3. Importing followers can only take candidates away: after
    [UpsertFollowers] the candidates are the former candidates whose
    username is not among the imported rows. *)
Theorem followers_import_shrinks_candidates (rows : list Relationship) (db : DB)
    (r : Relationship) :
  r ∈ candidate_rows (UpsertFollowers false rows db).1 ↔
  r ∈ candidate_rows db ∧ Username r ∉ Username <$> rows.
Proof.
  rewrite !elem_of_candidate_rows.
  cbn [UpsertFollowers upsertRelationships fst set_followers following followers
       unfollowed not_following].
  rewrite dom_upsert_rows, not_elem_of_union, elem_of_list_to_set. tauto.
Qed.

(** X4. A row written by [RecordAction] at time [t] adds one to the count
    of [ActionsInLastHour] for its own action type as long as now is less
    than [t + 3600], and nothing after that or for another type: it is
    counted at [t + 3599] and no longer at [t + 3600]. *)
Theorem recorded_action_counts_for_an_hour (t now : Z) (ty ty' u : string) (db : DB) :
  let db' := (RecordAction false t ty u db).1 in
  (ActionsInLastHour false now ty' db').1 =
    (ActionsInLastHour false now ty' db).1
    + (if decide (ty = ty' ∧ now < t + 3600) then 1 else 0)
  ∧ (ActionsInLastHour false (t + 3599) ty db').1 =
    (ActionsInLastHour false (t + 3599) ty db).1 + 1
  ∧ (ActionsInLastHour false (t + 3600) ty db').1 =
    (ActionsInLastHour false (t + 3600) ty db).1.
Proof.
  assert (∀ now ty', (ActionsInLastHour false now ty' (RecordAction false t ty u db).1).1 =
    (ActionsInLastHour false now ty' db).1
    + (if decide (ty = ty' ∧ now < t + 3600) then 1 else 0)) as Hgen.
  { intros n y. cbn [ActionsInLastHour RecordAction fst set_session_actions].
    unfold actions_in_last_hour, set_session_actions. cbn [session_actions].
    rewrite List.filter_app, length_app, Nat2Z.inj_add. f_equal.
    cbn [List.filter]. unfold in_last_hour. cbn [action_type action_at].
    destruct (String.eqb_spec ty y) as [Heq|Hne];
      destruct (Z.ltb_spec (n - 3600) t); destruct (decide _) as [[? ?]|Hd];
      cbn; try reflexivity; try lia; try congruence.
    exfalso. apply Hd. split; [done|lia]. }
  cbv zeta. split; [apply Hgen|]. split.
  - rewrite Hgen. destruct (decide _) as [_|Hd]; [reflexivity|].
    exfalso. apply Hd. split; [done|lia].
  - rewrite Hgen. destruct (decide _) as [[_ ?]|_]; lia.
Qed.

(** X5. Over one window, [OldestActionInLastHour] and
    [NewestActionInLastHour] agree with [ActionsInLastHour]: with a count
    of 0 both return 0, and with a positive count they return timestamps
    of rows in the window, the oldest not after the newest and both later
    than now minus 3600. *)
Theorem oldest_newest_bracket (now : Z) (ty : string) (db : DB) :
  let n := (ActionsInLastHour false now ty db).1 in
  let oldest := (OldestActionInLastHour false now ty db).1 in
  let newest := (NewestActionInLastHour false now ty db).1 in
  (n = 0 → oldest = 0 ∧ newest = 0)
  ∧ (0 < n →
     now - 3600 < oldest <= newest
     ∧ (∃ a, a ∈ session_actions db ∧ action_type a = ty ∧ action_at a = oldest)
     ∧ (∃ b, b ∈ session_actions db ∧ action_type b = ty ∧ action_at b = newest)
     ∧ (∀ c, c ∈ actions_in_last_hour now ty db →
             oldest <= action_at c <= newest)).
Proof.
  cbn [ActionsInLastHour OldestActionInLastHour NewestActionInLastHour fst].
  pose proof (elem_of_actions_in_last_hour now ty db) as Hwin.
  destruct (actions_in_last_hour now ty db) as [|e entries].
  - split; [done|]. cbn. lia.
  - split; [cbn [length]; lia|]. intros _.
    rewrite !fmap_cons. cbn [sql_min sql_max coalesce0].
    destruct (foldl_min_spec (action_at <$> entries) (action_at e)) as [Hmin Hle].
    destruct (foldl_max_spec (action_at <$> entries) (action_at e)) as [Hmax Hge].
    rewrite <- fmap_cons in Hmin, Hmax, Hle, Hge.
    apply list_elem_of_fmap in Hmin as (a & Ha & Hain).
    apply list_elem_of_fmap in Hmax as (b & Hb & Hbin).
    pose proof (proj1 (Hwin a) Hain) as (Ha1 & Ha2 & Ha3).
    pose proof (proj1 (Hwin b) Hbin) as (Hb1 & Hb2 & Hb3).
    assert (∀ c, c ∈ e :: entries →
       foldl Z.min (action_at e) (action_at <$> entries) <= action_at c
       <= foldl Z.max (action_at e) (action_at <$> entries)) as Hall.
    { intros c Hc. split; [apply Hle|apply Hge]; apply list_elem_of_fmap; eauto. }
    split; [|split; [|split]].
    + pose proof (Hall a Hain). lia.
    + exists a. by rewrite Ha.
    + exists b. by rewrite Hb.
    + exact Hall.
Qed.

(** X6. [MarkUnfollowed] raises [UnfollowedCount] by one for a username
    that was not marked yet and leaves it as it is for one that was. *)
Theorem unfollowed_count_after_mark (now : Z) (u : string) (db : DB) :
  (UnfollowedCount false (MarkUnfollowed false now u db).1).1 =
  (UnfollowedCount false db).1
  + (if decide (u ∈ dom (unfollowed db)) then 0 else 1).
Proof.
  cbn [UnfollowedCount MarkUnfollowed fst set_unfollowed unfollowed].
  rewrite map_size_insert.
  destruct (decide (u ∈ dom (unfollowed db))) as [Hin|Hout].
  - apply elem_of_dom in Hin as [x ->]. simpl. lia.
  - apply not_elem_of_dom in Hout. rewrite Hout. lia.
Qed.

(** X7. [RemoveFromFollowing] for a username that is not in [following]
    leaves the store as it is, so removing twice is removing once; after
    it the username is not a candidate. *)
Theorem remove_from_following_idempotent (u : string) (db : DB) :
  let db1 := (RemoveFromFollowing false u db).1 in
  (u ∉ dom (following db) → db1 = db)
  ∧ (RemoveFromFollowing false u db1).1 = db1
  ∧ (u ∉ Username <$> candidate_rows db1).
Proof.
  cbn [RemoveFromFollowing fst]. split; [|split].
  - intros Hout. apply not_elem_of_dom in Hout.
    unfold set_following. rewrite delete_id by exact Hout. by destruct db.
  - unfold set_following. cbn [following followers unfollowed not_following
                               session_actions].
    by rewrite delete_delete_eq.
  - rewrite candidate_usernames, !elem_of_difference.
    cbn [set_following following]. rewrite dom_delete_L.
    rewrite elem_of_difference, elem_of_singleton. tauto.
Qed.

(** ** The target state machine, the login wait and plain batches *)

Module browser_more.
Import browser_session.

(** The six interactions of [Unfollow], in the order it issues them. *)
Lemma Unfollow_steps_cases (r : Remote) (username : string) :
  let all := [StNavigate; StCheckAvailability; StCheckFollowStatus;
              StClickFollowing; StClickUnfollow; StVerify] in
  ∃ n, at_steps (Unfollow r username) = take (S n) all.
Proof.
  unfold Unfollow.
  destruct (navigate r); [by exists 0%nat|].
  destruct (profile_unavailable r) as [[|]|]; [by exists 1%nat| |by exists 1%nat].
  destruct (follow_status r) as [fs|]; [|by exists 2%nat].
  destruct (String.eqb fs "not_following"); [by exists 2%nat|].
  destruct (String.eqb fs "unknown"); [by exists 2%nat|].
  destruct (click_following r) as [[|]|]; [|by exists 3%nat|by exists 3%nat].
  destruct (click_unfollow r); [by exists 4%nat|].
  destruct (new_status r) as [ns|]; [|by exists 5%nat].
  destruct (String.eqb ns "following"); [by exists 5%nat|].
  destruct (String.eqb ns "not_following"); by exists 5%nat.
Qed.

(** The polling loop: the time slept is five seconds a turn. *)
Lemma poll_login_slept (r : LoginRemote) (n : nat) :
  ∀ (i polls : nat) (slept : Z) (logs : list LogEntry),
  let run := poll_login r n i polls slept logs in
  (polls <= lr_polls run <= polls + n)%nat
  ∧ lr_slept run = slept + Z.of_nat (lr_polls run - polls) * (5 * time.Second).
Proof.
  induction n as [|n IH]; intros i polls slept logs; cbn [poll_login].
  - cbn. split; lia.
  - destruct (logged_in_at_poll r i).
    + cbn. split; [lia|]. replace (S polls - polls)%nat with 1%nat by lia. lia.
    + destruct (IH (S i) (S polls) (slept + 5 * time.Second)
                  (if (i mod 6 =? 0)%nat
                   then logs ++ [(Info, "Waiting for login..."%string)]
                   else logs)) as [Hp Hs].
      cbv zeta in Hp, Hs. split; [lia|]. rewrite Hs.
      replace (lr_polls (poll_login r n (S i) (S polls) (slept + 5 * time.Second)
                 (if (i mod 6 =? 0)%nat
                  then logs ++ [(Info, "Waiting for login..."%string)]
                  else logs)) - polls)%nat
        with (S (lr_polls (poll_login r n (S i) (S polls) (slept + 5 * time.Second)
                 (if (i mod 6 =? 0)%nat
                  then logs ++ [(Info, "Waiting for login..."%string)]
                  else logs)) - S polls))%nat by lia.
      lia.
Qed.

(** The polling loop returns nil at the first turn that sees the login. *)
Lemma poll_login_detected (r : LoginRemote) (k : nat) :
  ∀ (n i polls : nat) (slept : Z) (logs : list LogEntry),
  (k < n)%nat →
  (∀ j, (j < k)%nat → logged_in_at_poll r (i + j) = false) →
  logged_in_at_poll r (i + k) = true →
  let run := poll_login r n i polls slept logs in
  lr_err run = None ∧ lr_polls run = (polls + S k)%nat.
Proof.
  induction k as [|k IH]; intros n i polls slept logs Hk Hbefore Hat;
    destruct n as [|n]; try lia; cbn [poll_login].
  - rewrite Nat.add_0_r in Hat. rewrite Hat. cbn. split; [done|lia].
  - assert (logged_in_at_poll r i = false) as ->
      by (rewrite <- (Nat.add_0_r i); apply Hbefore; lia).
    destruct (IH n (S i) (S polls) (slept + 5 * time.Second)
                (if (i mod 6 =? 0)%nat
                 then logs ++ [(Info, "Waiting for login..."%string)]
                 else logs)) as [He Hp].
    + lia.
    + intros j Hj. replace (S i + j)%nat with (i + S j)%nat by lia.
      apply Hbefore. lia.
    + replace (S i + k)%nat with (i + S k)%nat by lia. exact Hat.
    + cbv zeta in He, Hp. split; [exact He|]. rewrite Hp. lia.
Qed.

(** The polling loop gives up only when no turn saw the login. *)
Lemma poll_login_outcome (r : LoginRemote) (n : nat) :
  ∀ (i polls : nat) (slept : Z) (logs : list LogEntry),
  let run := poll_login r n i polls slept logs in
  (lr_err run = None ∧
   ∃ k, (k < n)%nat ∧ logged_in_at_poll r (i + k) = true
        ∧ lr_polls run = (polls + S k)%nat)
  ∨ (lr_err run = Some "login timeout - 10 minutes elapsed"%string
     ∧ lr_polls run = (polls + n)%nat
     ∧ ∀ j, (j < n)%nat → logged_in_at_poll r (i + j) = false).
Proof.
  induction n as [|n IH]; intros i polls slept logs; cbn [poll_login].
  - right. cbn. split; [done|]. split; [lia|]. intros j Hj. lia.
  - destruct (logged_in_at_poll r i) eqn:Hi.
    + left. cbn. split; [done|]. exists 0%nat.
      rewrite Nat.add_0_r. split; [lia|]. split; [done|lia].
    + destruct (IH (S i) (S polls) (slept + 5 * time.Second)
                  (if (i mod 6 =? 0)%nat
                   then logs ++ [(Info, "Waiting for login..."%string)]
                   else logs)) as [(He & k & Hk & Hat & Hp)|(He & Hp & Hnone)].
      * left. split; [exact He|]. exists (S k).
        replace (i + S k)%nat with (S i + k)%nat by lia.
        split; [lia|]. split; [exact Hat|]. rewrite Hp. lia.
      * right. split; [exact He|]. split; [rewrite Hp; lia|].
        intros [|j] Hj; [by rewrite Nat.add_0_r|].
        replace (i + S j)%nat with (S i + j)%nat by lia. apply Hnone. lia.
Qed.

End browser_more.

Import browser_session browser_more.

(** A step that is not in a list of steps. *)
Ltac absent_step :=
  let Hin := fresh "Hin" in
  intros Hin;
  repeat (apply elem_of_cons in Hin as [Hin|Hin]; [discriminate|]);
  by apply elem_of_nil in Hin.

(** X8. [Unfollow] returns [UnfollowError] exactly when it returns an
    error: the other three results always come with a nil error. *)
Theorem unfollow_error_iff_err (r : Remote) (username : string) :
  at_result (Unfollow r username) = UnfollowError ↔
  is_Some (at_err (Unfollow r username)).
Proof.
  unfold Unfollow.
  repeat case_match; cbn; split; intros Hx; try discriminate; eauto;
    by destruct Hx.
Qed.

(** X9. [Unfollow] goes through its interactions strictly in order and
    stops at the first that ends the attempt: the steps issued are a
    non-empty initial part of navigate, availability, status, click
    on Following, click on Unfollow, verification; and a result of
    [UnfollowSuccess] means all six were issued. *)
Theorem unfollow_steps_in_order (r : Remote) (username : string) :
  let all := [StNavigate; StCheckAvailability; StCheckFollowStatus;
              StClickFollowing; StClickUnfollow; StVerify] in
  let a := Unfollow r username in
  at_steps a `prefix_of` all
  ∧ head (at_steps a) = Some StNavigate
  ∧ (at_result a = UnfollowSuccess → at_steps a = all)
  ∧ (at_result a = UnfollowNotFollowing ∨ at_result a = UnfollowProfileUnavailable →
     StClickFollowing ∉ at_steps a).
Proof.
  intros all a. subst a.
  destruct (Unfollow_steps_cases r username) as [n Hn]. cbv zeta in Hn.
  split; [|split; [|split]].
  - rewrite Hn. apply prefix_take.
  - rewrite Hn. reflexivity.
  - unfold Unfollow. repeat case_match; cbn; intros Hx; try discriminate; reflexivity.
  - unfold Unfollow. repeat case_match; cbn; intros [Hx|Hx]; try discriminate;
      absent_step.
Qed.

(** X10. [Unfollow] fails closed: the click on Following is issued only
    when the page loaded, the profile is there and the status script
    answered something other than "not_following" and "unknown"; the click
    on Unfollow only when the first click reported [clicked]; and the
    verification only when the second click ran without error. *)
Theorem unfollow_clicks_only_when_following (r : Remote) (username : string) :
  let a := Unfollow r username in
  (StClickFollowing ∈ at_steps a →
   navigate r = None ∧ profile_unavailable r = Ok false
   ∧ ∃ fs, follow_status r = Ok fs ∧ fs ≠ "not_following"%string
           ∧ fs ≠ "unknown"%string)
  ∧ (StClickUnfollow ∈ at_steps a → click_following r = Ok true)
  ∧ (StVerify ∈ at_steps a → click_unfollow r = None).
Proof.
  cbv zeta. unfold Unfollow.
  destruct (navigate r) as [e|] eqn:Hnav.
  { cbn. split; [absent_step|split; absent_step]. }
  destruct (profile_unavailable r) as [[|]|e] eqn:Hav.
  1,3: cbn; (split; [absent_step|split; absent_step]).
  destruct (follow_status r) as [fs|e] eqn:Hfs.
  2: { cbn. split; [absent_step|split; absent_step]. }
  destruct (String.eqb_spec fs "not_following") as [?|Hnf].
  { cbn. split; [absent_step|split; absent_step]. }
  destruct (String.eqb_spec fs "unknown") as [?|Hun].
  { cbn. split; [absent_step|split; absent_step]. }
  split; [intros _; eauto 10|].
  destruct (click_following r) as [[|]|e] eqn:Hcl.
  2,3: cbn; (split; absent_step).
  split; [done|].
  destruct (click_unfollow r) as [e|] eqn:Hun2; [|done].
  cbn. absent_step.
Qed.

(** X11. [WaitForManualLogin], when both navigations go through and the
    session is not logged in at the start: if the login is first seen at
    turn [k] of the polling loop ([k] below 120), it returns nil after
    [k + 1] sleeps of five seconds. *)
Theorem login_detected_at_poll (r : LoginRemote) (k : nat) :
  home_nav r = None →
  logged_in_at_start r = false →
  login_nav r = None →
  (k < 120)%nat →
  (∀ j, (j < k)%nat → logged_in_at_poll r j = false) →
  logged_in_at_poll r k = true →
  let run := WaitForManualLogin r in
  lr_err run = None
  ∧ lr_polls run = S k
  ∧ lr_slept run = Z.of_nat (S k) * (5 * time.Second).
Proof.
  intros Hh Hs Hl Hk Hbefore Hat. unfold WaitForManualLogin.
  rewrite Hh, Hs, Hl.
  set (logs := [(Info, "Not logged in - please log in manually (you have 10 minutes)"%string)]).
  destruct (poll_login_detected r k 120 0 0 0 logs Hk Hbefore Hat) as [He Hp].
  destruct (poll_login_slept r 120 0 0 0 logs) as [_ Hsl].
  cbv zeta in *. rewrite He, Hp in *. split; [done|]. split; [done|].
  rewrite Hsl. rewrite Nat.sub_0_r. lia.
Qed.

Lemma login_detected_at_poll_witness :
  let r := mkLoginRemote None false None (fun i => (2 <=? i)%nat) in
  (home_nav r = None ∧ logged_in_at_start r = false ∧ login_nav r = None
   ∧ (2 < 120)%nat
   ∧ (∀ j, (j < 2)%nat → logged_in_at_poll r j = false)
   ∧ logged_in_at_poll r 2 = true)
  ∧ lr_slept (WaitForManualLogin r) = 15 * time.Second.
Proof.
  cbv zeta.
  assert (∀ j, (j < 2)%nat → (2 <=? j)%nat = false) as Hb.
  { intros j Hj. apply Nat.leb_gt. exact Hj. }
  split; [repeat split; [lia|exact Hb]|].
  exact (proj2 (proj2 (login_detected_at_poll
    (mkLoginRemote None false None (fun i => (2 <=? i)%nat)) 2
    eq_refl eq_refl eq_refl (ltac:(lia)) Hb eq_refl))).
Defined.

(** X12. [WaitForManualLogin] never sleeps through more than 120 turns of
    five seconds (ten minutes); it returns nil only if the session was
    logged in at the start or at one of the turns; and when both
    navigations go through and no check sees the login, it returns the
    timeout error after exactly 120 turns. *)
Theorem login_wait_is_bounded (r : LoginRemote) :
  let run := WaitForManualLogin r in
  (lr_polls run <= 120)%nat
  ∧ lr_slept run = Z.of_nat (lr_polls run) * (5 * time.Second)
  ∧ lr_slept run <= 600 * time.Second
  ∧ (lr_err run = None →
     logged_in_at_start r = true
     ∨ ∃ k, (k < 120)%nat ∧ logged_in_at_poll r k = true ∧ lr_polls run = S k)
  ∧ (home_nav r = None → logged_in_at_start r = false → login_nav r = None →
     (∀ j, (j < 120)%nat → logged_in_at_poll r j = false) →
     lr_err run = Some "login timeout - 10 minutes elapsed"%string
     ∧ lr_polls run = 120%nat).
Proof.
  cbv zeta. unfold WaitForManualLogin.
  destruct (home_nav r) as [e|].
  { cbn. repeat split; try lia; try discriminate. }
  destruct (logged_in_at_start r).
  { cbn. repeat split; try lia; try discriminate. }
  destruct (login_nav r) as [e|].
  { cbn. repeat split; try lia; try discriminate. }
  set (logs := [(Info, "Not logged in - please log in manually (you have 10 minutes)"%string)]).
  destruct (poll_login_slept r 120 0 0 0 logs) as [Hp Hsl].
  pose proof (poll_login_outcome r 120 0 0 0 logs) as Hout.
  cbv zeta in *. rewrite Nat.sub_0_r in Hsl.
  split; [lia|]. split; [rewrite Hsl; lia|].
  split; [rewrite Hsl; unfold time.Second; lia|]. split.
  - intros He. right.
    destruct Hout as [(_ & k & Hk & Hat & Hpk)|(Herr & _)]; [|congruence].
    exists k. split; [exact Hk|]. split; [exact Hat|]. rewrite Hpk. lia.
  - intros _ _ _ Hnone.
    destruct Hout as [(_ & k & Hk & Hat & _)|(Herr & Hpk & _)].
    + change (0 + k)%nat with k in Hat. rewrite (Hnone k Hk) in Hat. discriminate.
    + split; [exact Herr|]. rewrite Hpk. lia.
Qed.

Module batch_more.

Lemma unfollow_batch_loop_cons (env : Env) (bcfg : BatchConfig) (m i : Z)
    (u : string) (rest : list string) (s : Z) (w : World) :
  unfollow_batch_loop env bcfg m i (u :: rest) s w =
  let result := (call_Unfollow env u w).1.1 in
  let err := (call_Unfollow env u w).1.2 in
  let w1 := (call_Unfollow env u w).2 in
  match result with
  | UnfollowSuccess =>
      if bc_MaxPerHour bcfg <=? s + 1 then
        (s + 1, (logmsg Info "Reached hourly limit" w1).2)
      else
        unfollow_batch_loop env bcfg m (i + 1) rest (s + 1)
          (if i <? m - 1 then
             (sleep (wrap64 (bc_UnfollowDelaySeconds bcfg * time.Second))
                (logmsg Info "Waiting before next unfollow" w1).2).2
           else w1)
  | _ =>
      unfollow_batch_loop env bcfg m (i + 1) rest s
        (match err with
         | Some _ => (logmsg Error "Failed to unfollow" w1).2
         | None => w1
         end)
  end.
Proof.
  cbn [unfollow_batch_loop]. unfold bind at 1.
  destruct (call_Unfollow env u w) as [[result err] w1]. cbn [fst snd].
  destruct result.
  - destruct (bc_MaxPerHour bcfg <=? s + 1); [reflexivity|].
    unfold bind at 1. destruct (i <? m - 1); reflexivity.
  - unfold bind at 1. destruct err; reflexivity.
  - unfold bind at 1. destruct err; reflexivity.
  - unfold bind at 1. destruct err; reflexivity.
Qed.

Lemma dispatches_app (t1 t2 : list Event) :
  dispatches (t1 ++ t2) = dispatches t1 ++ dispatches t2.
Proof. unfold dispatches. apply omap_app. Qed.

(** What the loop of [UnfollowBatch] does from any point on. *)
Lemma unfollow_batch_loop_spec (env : Env) (bcfg : BatchConfig) (m : Z)
    (usernames : list string) :
  ∀ (i s : Z) (w : World),
  let s' := (unfollow_batch_loop env bcfg m i usernames s w).1 in
  let w' := (unfollow_batch_loop env bcfg m i usernames s w).2 in
  w_db w' = w_db w
  ∧ ∃ new, w_trace w' = w_trace w ++ new
      ∧ (d_username <$> dispatches new) `prefix_of` usernames
      ∧ s <= s' <= s + len (dispatches new)
      ∧ (s < Z.max 1 (bc_MaxPerHour bcfg) → s' <= Z.max 1 (bc_MaxPerHour bcfg)).
Proof.
  induction usernames as [|u rest IH]; intros i s w; cbv zeta.
  - cbn. split; [done|]. exists []. rewrite app_nil_r.
    split; [done|]. split; [apply prefix_nil|]. unfold len. cbn. lia.
  - rewrite unfollow_batch_loop_cons. cbv zeta.
    set (d := mkDispatch u (at_steps (Unfollow (remote env (w_calls w)) u))
                (w_db w) (w_clock w)).
    set (result := (call_Unfollow env u w).1.1).
    set (err := (call_Unfollow env u w).1.2).
    set (w1 := (call_Unfollow env u w).2).
    assert (w_trace w1 = w_trace w ++ [EvUnfollow d]) as Ht1 by reflexivity.
    assert (w_db w1 = w_db w) as Hd1 by reflexivity.
    clearbody result err w1.
    assert (∀ w3 s3 extra, w_db w3 = w_db w1 →
       w_trace w3 = w_trace w1 ++ extra → dispatches extra = [] →
       s <= s3 <= s + 1 →
       (s < Z.max 1 (bc_MaxPerHour bcfg) → s3 < Z.max 1 (bc_MaxPerHour bcfg)) →
       let s' := (unfollow_batch_loop env bcfg m (i + 1) rest s3 w3).1 in
       let w' := (unfollow_batch_loop env bcfg m (i + 1) rest s3 w3).2 in
       w_db w' = w_db w
       ∧ ∃ new, w_trace w' = w_trace w ++ new
           ∧ (d_username <$> dispatches new) `prefix_of` (u :: rest)
           ∧ s <= s' <= s + len (dispatches new)
           ∧ (s < Z.max 1 (bc_MaxPerHour bcfg) →
              s' <= Z.max 1 (bc_MaxPerHour bcfg))) as Hrec.
    { intros w3 s3 extra Hd3 Ht3 Hex Hs3 Hlim. cbv zeta.
      destruct (IH (i + 1) s3 w3) as (Hdb & new & Hnew & Hpre & Hcnt & Hmax).
      split; [by rewrite Hdb, Hd3, Hd1|].
      exists (EvUnfollow d :: extra ++ new).
      rewrite Hnew, Ht3, Ht1, <- !app_assoc.
      split; [reflexivity|].
      change (EvUnfollow d :: extra ++ new) with ([EvUnfollow d] ++ extra ++ new).
      rewrite !dispatches_app, Hex.
      change (dispatches [EvUnfollow d]) with [d]. cbn [app fmap list_fmap].
      split; [by apply prefix_cons|]. unfold len in *. cbn [length].
      split; [lia|]. intros Hlt. specialize (Hlim Hlt). apply Hmax. lia. }
    destruct result.
    + destruct (Z.leb_spec (bc_MaxPerHour bcfg) (s + 1)) as [Hle|Hgt].
      * cbn [fst snd logmsg w_db w_trace]. split; [exact Hd1|].
        exists [EvUnfollow d]. rewrite Ht1. cbn. unfold len. cbn.
        split; [done|]. split; [apply prefix_cons, prefix_nil|]. lia.
      * destruct (i <? m - 1).
        -- apply (Hrec _ _ [EvSleep (wrap64 (bc_UnfollowDelaySeconds bcfg * time.Second))]);
             try reflexivity; lia.
        -- apply (Hrec _ _ []); try reflexivity; try lia. by rewrite app_nil_r.
    + destruct err; apply (Hrec _ _ []); try reflexivity; try lia;
        cbn [logmsg snd w_trace]; by rewrite app_nil_r.
    + destruct err; apply (Hrec _ _ []); try reflexivity; try lia;
        cbn [logmsg snd w_trace]; by rewrite app_nil_r.
    + destruct err; apply (Hrec _ _ []); try reflexivity; try lia;
        cbn [logmsg snd w_trace]; by rewrite app_nil_r.
Qed.

End batch_more.

Import batch_more.

(** X13. [UnfollowBatch] never returns an error and never touches the
    store. It calls [Unfollow] on an initial part of [usernames], at most
    [maxCount] of them when [maxCount] is between 1 and their number and
    at most all of them otherwise; the count it returns is at most the
    number of calls and at most the larger of 1 and [MaxPerHour]. *)
Theorem unfollow_batch_bounds (env : Env) (bcfg : BatchConfig)
    (usernames : list string) (maxCount : Z) (w : World) :
  let out := UnfollowBatch env bcfg usernames maxCount w in
  let limit := if (maxCount <=? 0) || (len usernames <? maxCount)
               then len usernames else maxCount in
  out.1.2 = None
  ∧ w_db out.2 = w_db w
  ∧ ∃ new, w_trace out.2 = w_trace w ++ new
      ∧ (d_username <$> dispatches new) `prefix_of` usernames
      ∧ len (dispatches new) <= limit <= len usernames
      ∧ 0 <= out.1.1 <= len (dispatches new)
      ∧ out.1.1 <= Z.max 1 (bc_MaxPerHour bcfg).
Proof.
  cbv zeta. unfold UnfollowBatch, bind, ret.
  set (limit := if (maxCount <=? 0) || (len usernames <? maxCount)
                then len usernames else maxCount).
  assert (0 <= limit <= len usernames) as Hlimit.
  { unfold limit, len. destruct (Z.leb_spec maxCount 0);
      destruct (Z.ltb_spec (Z.of_nat (length usernames)) maxCount); cbn; lia. }
  destruct (unfollow_batch_loop_spec env bcfg limit
              (take (Z.to_nat limit) usernames) 0 0 w)
    as (Hdb & new & Hnew & Hpre & Hcnt & Hmax).
  destruct (unfollow_batch_loop env bcfg limit 0
              (take (Z.to_nat limit) usernames) 0 w) as [s' w'].
  cbn [fst snd] in *. split; [done|]. split; [exact Hdb|].
  exists new. split; [exact Hnew|].
  split; [etransitivity; [exact Hpre|apply prefix_take]|].
  split.
  - apply prefix_length in Hpre. rewrite length_fmap, length_take in Hpre.
    unfold len in *. lia.
  - split; [lia|]. apply Hmax. lia.
Qed.

(** X14. A [MaxPerHour] of zero or less does not keep [UnfollowBatch]
    from unfollowing: it goes on until the first attempt that succeeds
    and only then stops. In particular, when the attempt on the first
    username succeeds it returns 1 after that single call. *)
Theorem unfollow_batch_ignores_zero_limit (env : Env) (bcfg : BatchConfig)
    (u : string) (rest : list string) (maxCount : Z) (w : World) :
  bc_MaxPerHour bcfg <= 0 →
  at_result (Unfollow (remote env (w_calls w)) u) = UnfollowSuccess →
  let out := UnfollowBatch env bcfg (u :: rest) maxCount w in
  out.1.1 = 1
  ∧ d_username <$> dispatches (w_trace out.2) =
    (d_username <$> dispatches (w_trace w)) ++ [u].
Proof.
  intros Hlim Hsucc. cbv zeta. unfold UnfollowBatch, bind, ret.
  set (limit := if (maxCount <=? 0) || (len (u :: rest) <? maxCount)
                then len (u :: rest) else maxCount).
  assert (∃ k, Z.to_nat limit = S k) as [k ->].
  { exists (Z.to_nat (limit - 1)). unfold limit, len. cbn [length].
    destruct (Z.leb_spec maxCount 0);
      destruct (Z.ltb_spec (Z.of_nat (S (length rest))) maxCount); cbn [orb]; lia. }
  cbn [take]. rewrite unfollow_batch_loop_cons. cbv zeta.
  change (call_Unfollow env u w).1.1 with (at_result (Unfollow (remote env (w_calls w)) u)).
  rewrite Hsucc.
  destruct (Z.leb_spec (bc_MaxPerHour bcfg) (0 + 1)) as [_|?]; [|lia].
  cbn [fst snd logmsg w_trace call_Unfollow]. split; [reflexivity|].
  rewrite dispatches_app, fmap_app. reflexivity.
Qed.

Lemma unfollow_batch_ignores_zero_limit_witness :
  (bc_MaxPerHour (mkBatchConfig 60 0) <= 0
   ∧ at_result (Unfollow (remote env_ok (w_calls w_two)) "a") = UnfollowSuccess)
  ∧ (UnfollowBatch env_ok (mkBatchConfig 60 0) ["a"%string; "b"%string] 0 w_two).1.1
    = 1.
Proof.
  split; [split; [by vm_compute|reflexivity]|].
  refine (proj1 (unfollow_batch_ignores_zero_limit env_ok (mkBatchConfig 60 0)
            "a" ["b"%string] 0 w_two _ eq_refl)).
  by vm_compute.
Defined.

(** ** The controller *)

Module controller_more.

(** How a turn of the main loop can return. *)
Lemma loop_body_return (env : Env) (cfg : Config) (w : World) (err : option error) :
  (loop_body env cfg w).1 = Return err →
  match err with
  | None => candidate_rows (w_db (loop_body env cfg w).2) = []
  | Some _ => db_fault env OpUnfollowCandidates (S (S (w_ops w))) = true
  end.
Proof.
  rewrite loop_body_eq. cbv zeta.
  destruct (remaining_this_hour (Hourly cfg) (actions_seen env w) <=? 0);
    [discriminate|].
  change (w_ops (after_quota_check env w)) with (S (S (w_ops w))).
  unfold UnfollowCandidates.
  destruct (db_fault env OpUnfollowCandidates (S (S (w_ops w)))).
  - cbn [fst]. intros [= <-]. reflexivity.
  - destruct (Z.eqb_spec (len (candidate_rows (w_db w))) 0) as [Hz|_];
      [|discriminate].
    cbn [fst snd logmsg w_db bump_ops after_quota_check]. intros [= <-].
    unfold len in Hz. destruct (candidate_rows (w_db w)); [done|cbn in Hz; lia].
Qed.

Lemma filter_length_lt {A} (f g : A → bool) (l : list A) (a : A) :
  (∀ x, f x = true → g x = true) →
  a ∈ l → g a = true → f a = false →
  (length (List.filter f l) < length (List.filter g l))%nat.
Proof.
  intros Hfg Hin Hg Hf. induction l as [|x l IH]; [by apply elem_of_nil in Hin|].
  pose proof (filter_length_mono f g l Hfg) as Hle.
  apply elem_of_cons in Hin as [<-|Hin].
  - cbn. rewrite Hf, Hg. cbn. lia.
  - specialize (IH Hin). cbn. destruct (f x) eqn:Hfx.
    + rewrite (Hfg x Hfx). cbn. lia.
    + destruct (g x); cbn; lia.
Qed.

(** What the [switch] leaves in the store when storage calls may fail:
    [fm] says whether the mark failed, [fr] whether the removal did, [fa]
    whether recording the action did. *)
Lemma apply_result_db_faults (env : Env) (u : string) (c : Counters) (w : World) :
  let now := unix_now w in
  let db := w_db w in
  let after := fun result => w_db (apply_result env u result c w).2 in
  let f0 := fun op => db_fault env op (w_ops w) in
  let f1 := fun op => db_fault env op (S (w_ops w)) in
  let f2 := fun op => db_fault env op (S (S (w_ops w))) in
  after UnfollowSuccess =
    mkDB (if f2 OpRemoveFromFollowing then following db else delete u (following db))
         (followers db)
         (if f0 OpMarkUnfollowed then unfollowed db else <[u := now]> (unfollowed db))
         (not_following db)
         (if f1 OpRecordAction then session_actions db
          else session_actions db ++ [mkAction "unfollow" u now])
  ∧ after UnfollowNotFollowing =
    mkDB (if f1 OpRemoveFromFollowing then following db else delete u (following db))
         (followers db) (unfollowed db)
         (if f0 OpMarkNotFollowing then not_following db
          else <[u := now]> (not_following db))
         (session_actions db)
  ∧ after UnfollowProfileUnavailable =
    mkDB (if f0 OpRemoveFromFollowing then following db else delete u (following db))
         (followers db) (unfollowed db)
         (if f1 OpMarkNotFollowing then not_following db
          else <[u := now]> (not_following db))
         (session_actions db).
Proof.
  cbv zeta.
  unfold apply_result, bind, db_write, log_if_err, logmsg, ret.
  unfold MarkUnfollowed, RecordAction, RemoveFromFollowing, MarkNotFollowing.
  cbn [w_ops w_db w_clock w_calls w_trace w_log snd fst].
  repeat split.
  - destruct (db_fault env OpMarkUnfollowed (w_ops w));
      cbn [w_ops w_db w_clock w_calls w_trace w_log snd fst];
      destruct (db_fault env OpRecordAction (S (w_ops w)));
      cbn [w_ops w_db w_clock w_calls w_trace w_log snd fst];
      destruct (db_fault env OpRemoveFromFollowing (S (S (w_ops w))));
      cbn [w_ops w_db w_clock w_calls w_trace w_log snd fst];
      by destruct (w_db w).
  - destruct (db_fault env OpMarkNotFollowing (w_ops w));
      cbn [w_ops w_db w_clock w_calls w_trace w_log snd fst];
      destruct (db_fault env OpRemoveFromFollowing (S (w_ops w)));
      cbn [w_ops w_db w_clock w_calls w_trace w_log snd fst];
      by destruct (w_db w).
  - destruct (db_fault env OpRemoveFromFollowing (w_ops w));
      cbn [w_ops w_db w_clock w_calls w_trace w_log snd fst];
      destruct (db_fault env OpMarkNotFollowing (S (w_ops w)));
      cbn [w_ops w_db w_clock w_calls w_trace w_log snd fst];
      by destruct (w_db w).
Qed.

(** A store whose [following] lost at most [u] and whose marks gained at
    most [u]: the other candidates are the same. *)
Lemma candidates_after_marks (db db' : DB) (u : string) (t1 t2 : Z) :
  followers db' = followers db →
  (following db' = following db ∨ following db' = delete u (following db)) →
  (unfollowed db' = unfollowed db ∨ unfollowed db' = <[u := t1]> (unfollowed db)) →
  (not_following db' = not_following db
   ∨ not_following db' = <[u := t2]> (not_following db)) →
  ∀ r, Username r ≠ u → r ∈ candidate_rows db' ↔ r ∈ candidate_rows db.
Proof.
  intros Hfr Hf Hu Hn r Hne. rewrite !elem_of_candidate_rows, Hfr.
  assert (following db' !! Username r = following db !! Username r) as ->.
  { destruct Hf as [->| ->]; [done|]. by rewrite lookup_delete_ne. }
  assert (Username r ∈ dom (unfollowed db') ↔ Username r ∈ dom (unfollowed db)) as ->.
  { destruct Hu as [->| ->]; [done|].
    rewrite dom_insert_L, elem_of_union, elem_of_singleton. tauto. }
  assert (Username r ∈ dom (not_following db')
          ↔ Username r ∈ dom (not_following db)) as ->.
  { destruct Hn as [->| ->]; [done|].
    rewrite dom_insert_L, elem_of_union, elem_of_singleton. tauto. }
  done.
Qed.

Lemma not_in_dom_delete {V} (m : gmap string V) (u : string) : u ∉ dom (delete u m).
Proof.
  rewrite dom_delete_L, elem_of_difference, elem_of_singleton. tauto.
Qed.

Lemma in_dom_insert {V} (m : gmap string V) (u : string) (x : V) :
  u ∈ dom (<[u := x]> m).
Proof. rewrite dom_insert_L, elem_of_union, elem_of_singleton. tauto. Qed.

End controller_more.

Import controller_more.

(** X15. The continuous controller returns nil only when the candidate
    list is empty, and returns an error only when loading the candidates
    failed: no other storage failure stops it. *)
Theorem main_loop_returns_when_done (env : Env) (cfg : Config) (fuel : nat)
    (w : World) :
  match (main_loop env cfg fuel w).1 with
  | Returned None => candidate_rows (w_db (main_loop env cfg fuel w).2) = []
  | Returned (Some _) => ∃ n, db_fault env OpUnfollowCandidates n = true
  | Running => True
  end.
Proof.
  revert w. induction fuel as [|fuel IH]; intros w; [exact I|].
  rewrite main_loop_S.
  destruct (loop_body env cfg w).1 as [|err] eqn:Hflow.
  - apply IH.
  - apply loop_body_return in Hflow. cbn [fst snd].
    destruct err; [eauto|exact Hflow].
Qed.

(** X16. After the cooldown the slot is free. When [calculateWaitTime]
    works from the oldest "unfollow" row of the window (the query does not
    fail, the row's time is not 0 and the difference fits a [Duration]),
    sleeping for what it returns takes that row out of the window, so the
    count of [ActionsInLastHour] is smaller after the sleep than before. *)
Theorem cooldown_frees_a_slot (env : Env) (w : World) (a : Action) :
  db_fault env OpOldestActionInLastHour (w_ops w) = false →
  a ∈ actions_in_last_hour (unix_now w) "unfollow" (w_db w) →
  (∀ b, b ∈ actions_in_last_hour (unix_now w) "unfollow" (w_db w) →
        action_at a <= action_at b) →
  action_at a ≠ 0 →
  action_at a * time.Second + (time.Hour + 60 * time.Second) - w_clock w
    <= max_int64 →
  let w' := (sleep (calculateWaitTime env w).1 w).2 in
  in_last_hour (unix_now w') "unfollow" a = false
  ∧ window_count w' < window_count w.
Proof.
  intros Hok Hin Hmin Hnz Hfit w'.
  pose proof (calculateWaitTime_oldest env w a Hok Hin Hmin Hnz Hfit) as Hwait.
  assert (0 < (calculateWaitTime env w).1) as Hpos.
  { rewrite Hwait. unfold time.Minute, time.Second. lia. }
  assert (w_clock w' = w_clock w + (calculateWaitTime env w).1) as Hclock.
  { subst w'. cbn [sleep snd w_clock].
    destruct (Z.ltb_spec 0 (calculateWaitTime env w).1); [reflexivity|lia]. }
  assert (action_at a + 3660 <= unix_now w') as Hnow.
  { unfold unix_now. rewrite Hclock, Hwait.
    apply Z.div_le_lower_bound; [unfold time.Second; lia|].
    unfold time.Hour, time.Minute, time.Second. lia. }
  assert (in_last_hour (unix_now w') "unfollow" a = false) as Hout.
  { unfold in_last_hour. apply andb_false_iff. right. apply Z.ltb_ge. lia. }
  split; [exact Hout|].
  unfold window_count, len, actions_in_last_hour.
  change (w_db w') with (w_db w).
  apply elem_of_actions_in_last_hour in Hin as (Hlog & Hty & Hwin).
  assert (unix_now w <= unix_now w') as Hmono.
  { apply unix_now_mono. rewrite Hclock. lia. }
  pose proof (filter_length_lt (in_last_hour (unix_now w') "unfollow")
    (in_last_hour (unix_now w) "unfollow") (session_actions (w_db w)) a
    (fun x => in_last_hour_mono _ _ _ x Hmono) Hlog) as Hlt.
  assert (in_last_hour (unix_now w) "unfollow" a = true) as Hina.
  { unfold in_last_hour. rewrite Hty, String.eqb_refl. cbn.
    apply Z.ltb_lt. exact Hwin. }
  specialize (Hlt Hina Hout). lia.
Qed.

Lemma cooldown_frees_a_slot_witness :
  (db_fault env_ok OpOldestActionInLastHour (w_ops w_59) = false
   ∧ entry_59 ∈ actions_in_last_hour (unix_now w_59) "unfollow" (w_db w_59)
   ∧ (∀ b, b ∈ actions_in_last_hour (unix_now w_59) "unfollow" (w_db w_59) →
           action_at entry_59 <= action_at b)
   ∧ action_at entry_59 ≠ 0
   ∧ action_at entry_59 * time.Second + (time.Hour + 60 * time.Second)
       - w_clock w_59 <= max_int64)
  ∧ window_count (sleep (calculateWaitTime env_ok w_59).1 w_59).2
    < window_count w_59.
Proof.
  assert (actions_in_last_hour (unix_now w_59) "unfollow" (w_db w_59) = [entry_59])
    as Hwin by reflexivity.
  assert (entry_59 ∈ actions_in_last_hour (unix_now w_59) "unfollow" (w_db w_59))
    as Hin by (rewrite Hwin; apply list_elem_of_here).
  assert (∀ b, b ∈ actions_in_last_hour (unix_now w_59) "unfollow" (w_db w_59) →
               action_at entry_59 <= action_at b) as Hmin.
  { intros b Hb. rewrite Hwin in Hb. apply list_elem_of_singleton in Hb.
    rewrite Hb. reflexivity. }
  assert (action_at entry_59 ≠ 0) as Hnz by done.
  assert (action_at entry_59 * time.Second + (time.Hour + 60 * time.Second)
            - w_clock w_59 <= max_int64) as Hfit by done.
  split; [repeat split; [exact Hin|exact Hmin|exact Hnz|exact Hfit]|].
  exact (proj2 (cooldown_frees_a_slot env_ok w_59 entry_59 eq_refl Hin Hmin Hnz Hfit)).
Defined.

(** X17. The cooldown is bounded. Whatever the store holds and whether or
    not the query fails, [calculateWaitTime] returns at least one minute;
    and when no "unfollow" row of the window is dated after now, it
    returns at most 61 minutes. *)
Theorem cooldown_is_bounded (env : Env) (w : World) :
  1 * time.Minute <= (calculateWaitTime env w).1
  ∧ ((∀ a, a ∈ actions_in_last_hour (unix_now w) "unfollow" (w_db w) →
           action_at a * time.Second <= w_clock w) →
     (calculateWaitTime env w).1 <= 61 * time.Minute).
Proof.
  rewrite calculateWaitTime_eq.
  destruct (OldestActionInLastHour _ _ _ _) as [oldest err] eqn:Hq. cbn [fst].
  split; [apply wait_time_floor|]. intros Hpast.
  unfold OldestActionInLastHour in Hq.
  destruct (db_fault env OpOldestActionInLastHour (w_ops w)).
  { injection Hq as <- <-. cbn. unfold time.Minute, time.Second. lia. }
  injection Hq as <- <-.
  destruct (actions_in_last_hour (unix_now w) "unfollow" (w_db w))
    as [|e entries] eqn:Hwin.
  { cbn. unfold time.Minute, time.Second. lia. }
  rewrite fmap_cons. cbn [sql_min coalesce0].
  destruct (foldl_min_spec (action_at <$> entries) (action_at e)) as [Hm _].
  rewrite <- fmap_cons in Hm. apply list_elem_of_fmap in Hm as (a & Ha & Hain).
  specialize (Hpast a Hain). rewrite <- Ha in Hpast.
  set (oldest := foldl Z.min (action_at e) (action_at <$> entries)) in *.
  unfold wait_time.
  destruct (bool_decide (is_Some (@None error)) || (oldest =? 0)).
  { unfold time.Minute, time.Second. lia. }
  unfold time.Until, time.Sub, time.Add, time.Unix.
  change max_int64 with 9223372036854775807.
  change min_int64 with (-9223372036854775808).
  unfold time.Hour, time.Minute, time.Second in *.
  repeat case_match; rewrite ?Z.ltb_lt, ?Z.ltb_ge in *; lia.
Qed.

(** X18. What the [switch] does to the candidate list when storage calls
    may fail. The other usernames are candidates after it exactly when
    they were before. For an outcome other than [UnfollowError] the
    processed username is still a candidate afterwards only if both its
    mark and its removal from [following] failed. *)
Theorem processed_candidate_leaves_list (env : Env) (u : string)
    (result : UnfollowResult) (c : Counters) (w : World) :
  let db := w_db w in
  let db' := w_db (apply_result env u result c w).2 in
  let n := w_ops w in
  (∀ r, Username r ≠ u → r ∈ candidate_rows db' ↔ r ∈ candidate_rows db)
  ∧ (u ∈ Username <$> candidate_rows db' →
     match result with
     | UnfollowSuccess =>
         db_fault env OpMarkUnfollowed n = true
         ∧ db_fault env OpRemoveFromFollowing (S (S n)) = true
     | UnfollowNotFollowing =>
         db_fault env OpMarkNotFollowing n = true
         ∧ db_fault env OpRemoveFromFollowing (S n) = true
     | UnfollowProfileUnavailable =>
         db_fault env OpRemoveFromFollowing n = true
         ∧ db_fault env OpMarkNotFollowing (S n) = true
     | UnfollowError => u ∈ Username <$> candidate_rows db
     end).
Proof.
  cbv zeta.
  destruct (apply_result_db_faults env u c w) as (Hs & Hn & Hp). cbv zeta in Hs, Hn, Hp.
  pose proof (not_in_dom_delete (following (w_db w)) u) as Hdel.
  pose proof (in_dom_insert (unfollowed (w_db w)) u (unix_now w)) as Hinu.
  pose proof (in_dom_insert (not_following (w_db w)) u (unix_now w)) as Hinn.
  destruct result.
  - rewrite Hs. split.
    + apply (candidates_after_marks _ _ u (unix_now w) 0);
        cbn [following followers unfollowed not_following];
        try done;
        repeat match goal with |- context [db_fault ?e ?o ?k] =>
                 destruct (db_fault e o k) end; auto.
    + rewrite candidate_usernames, !elem_of_difference.
      cbn [following followers unfollowed not_following].
      destruct (db_fault env OpMarkUnfollowed (w_ops w));
        destruct (db_fault env OpRemoveFromFollowing (S (S (w_ops w)))); tauto.
  - rewrite Hn. split.
    + apply (candidates_after_marks _ _ u 0 (unix_now w));
        cbn [following followers unfollowed not_following];
        try done;
        repeat match goal with |- context [db_fault ?e ?o ?k] =>
                 destruct (db_fault e o k) end; auto.
    + rewrite candidate_usernames, !elem_of_difference.
      cbn [following followers unfollowed not_following].
      destruct (db_fault env OpMarkNotFollowing (w_ops w));
        destruct (db_fault env OpRemoveFromFollowing (S (w_ops w))); tauto.
  - rewrite Hp. split.
    + apply (candidates_after_marks _ _ u 0 (unix_now w));
        cbn [following followers unfollowed not_following];
        try done;
        repeat match goal with |- context [db_fault ?e ?o ?k] =>
                 destruct (db_fault e o k) end; auto.
    + rewrite candidate_usernames, !elem_of_difference.
      cbn [following followers unfollowed not_following].
      destruct (db_fault env OpRemoveFromFollowing (w_ops w));
        destruct (db_fault env OpMarkNotFollowing (S (w_ops w))); tauto.
  - cbn [apply_result]. unfold bind, logmsg, ret. cbn [snd w_db]. done.
Qed.

(** The case analysis that follows [parseToDB] through its steps;
    [fin] closes each of the nine ways it can end. *)
Ltac parseToDB_cases env ex w fin :=
  unfold parseToDB, Open, bind, db_write, db_read, ret;
  cbn [logmsg w_ops w_db w_clock w_calls w_trace w_log fst snd];
  destruct (db_fault env OpOpen (w_ops w));
    cbn [logmsg w_ops w_db w_clock w_calls w_trace w_log fst snd]; [fin|];
  destruct (extraction.ParseFollowing (following_json ex));
    cbn [logmsg w_ops w_db w_clock w_calls w_trace w_log fst snd]; [|fin];
  unfold UpsertFollowing, upsertRelationships;
  destruct (db_fault env OpUpsertFollowing (S (w_ops w)));
    cbn [logmsg w_ops w_db w_clock w_calls w_trace w_log fst snd]; [fin|];
  destruct (follower_files ex) as [?files|?e];
    cbn [logmsg w_ops w_db w_clock w_calls w_trace w_log fst snd]; [|fin];
  destruct (parse_follower_files _ []);
    cbn [logmsg w_ops w_db w_clock w_calls w_trace w_log fst snd]; [|fin];
  unfold UpsertFollowers, upsertRelationships;
  cbn [logmsg w_ops w_db w_clock w_calls w_trace w_log fst snd];
  destruct (db_fault env OpUpsertFollowers (S (S (w_ops w))));
    cbn [logmsg w_ops w_db w_clock w_calls w_trace w_log fst snd]; [fin|];
  destruct (UnfollowCandidates _ _);
    cbn [logmsg w_ops w_db w_clock w_calls w_trace w_log fst snd]; fin.

Module quota_more.

(** A batch keeps the distance to the limit: what is left of the quota
    never exceeds what the window still allows, also at its end, and the
    action log only grows, by at most one row per success. *)
Lemma batch_keeps_quota (env : Env) (cfg : Config) (remaining maxCount : Z)
    (cands : list Relationship) :
  ∀ (i : Z) (c : Counters) (w : World),
  successful c < remaining →
  remaining - successful c <= Hourly cfg - window_count w →
  let c' := (batch env cfg remaining maxCount i cands c w).1 in
  let w' := (batch env cfg remaining maxCount i cands c w).2 in
  successful c <= successful c' <= remaining
  ∧ remaining - successful c' <= Hourly cfg - window_count w'
  ∧ ∃ added, session_actions (w_db w') = session_actions (w_db w) ++ added
      ∧ len added <= successful c' - successful c
      ∧ Forall (fun a => action_type a = "unfollow"%string) added.
Proof.
  induction cands as [|cand rest IH]; intros i c w Hs Hq; cbv zeta.
  - cbn. split; [lia|]. split; [lia|]. exists []. rewrite app_nil_r.
    split; [done|]. split; [unfold len; cbn; lia|constructor].
  - rewrite batch_cons. cbv zeta.
    set (u := Username cand).
    set (w1 := (call_Unfollow env u w).2).
    set (result := (call_Unfollow env u w).1.1).
    pose proof (apply_result_frame env u result c w1) as Hf. cbv zeta in Hf.
    set (c' := (apply_result env u result c w1).1) in *.
    set (w2 := (apply_result env u result c w1).2) in *.
    assert (w_clock w <= w_clock w1) as Hc1 by (cbn; lia).
    assert (w_db w1 = w_db w) as Hd1 by reflexivity.
    assert (unix_now w1 = unix_now w2) as Hnow
      by (unfold unix_now; destruct Hf as [-> _]; reflexivity).
    destruct Hf as (Hc2 & _ & _ & Hres).
    clearbody c' w2 result w1.
    assert (∃ added2, session_actions (w_db w2) = session_actions (w_db w) ++ added2
              ∧ len added2 <= successful c' - successful c
              ∧ Forall (fun a => action_type a = "unfollow"%string) added2
              ∧ successful c <= successful c' <= successful c + 1
              ∧ (result ≠ UnfollowSuccess → successful c' = successful c))
      as (added2 & Hlog2 & Hlen2 & Hty2 & Hsucc & Hsame).
    { rewrite Hd1 in Hres.
      destruct Hres as [(Hne & Hs' & ->)|(Heq & Hs' & [->| ->])].
      - exists []. rewrite app_nil_r. unfold len. cbn.
        repeat split; try lia; try done; by repeat constructor.
      - exists []. rewrite app_nil_r. unfold len. cbn.
        repeat split; try lia; try done; by repeat constructor.
      - eexists. split; [reflexivity|]. unfold len. cbn.
        repeat split; try lia; try done; by repeat constructor. }
    assert (window_count w2 <= window_count w + len added2) as Hw2.
    { pose proof (window_count_step w w2) as Hstep.
      assert (len (session_actions (w_db w2)) - len (session_actions (w_db w))
              = len added2) as Hd.
      { rewrite Hlog2. unfold len. rewrite length_app. lia. }
      rewrite Hd in Hstep. apply Hstep; [lia|].
      destruct Hres as [(_ & _ & ->)|(_ & _ & [->| ->])]; rewrite Hd1; eauto. }
    assert (∀ w3, w_db w3 = w_db w2 → w_clock w2 <= w_clock w3 →
       successful c' < remaining →
       let c3 := (batch env cfg remaining maxCount (i + 1) rest c' w3).1 in
       let w4 := (batch env cfg remaining maxCount (i + 1) rest c' w3).2 in
       successful c <= successful c3 <= remaining
       ∧ remaining - successful c3 <= Hourly cfg - window_count w4
       ∧ ∃ added, session_actions (w_db w4) = session_actions (w_db w) ++ added
           ∧ len added <= successful c3 - successful c
           ∧ Forall (fun a => action_type a = "unfollow"%string) added) as Hrec.
    { intros w3 Hd3 Hc3 Hlt. cbv zeta.
      assert (window_count w3 <= window_count w2) as Hw3.
      { pose proof (window_count_step w2 w3 Hc3) as Hstep. rewrite Hd3 in Hstep.
        specialize (Hstep (or_introl eq_refl)). lia. }
      destruct (IH (i + 1) c' w3 Hlt) as (Hb & Hinv & added & Hadd & Hlen & Hty);
        [lia|].
      split; [lia|]. split; [exact Hinv|].
      exists (added2 ++ added). rewrite Hadd, Hd3, Hlog2, <- app_assoc.
      split; [done|]. split; [unfold len in *; rewrite length_app; lia|].
      by apply Forall_app. }
    destruct result.
    + destruct (Z.leb_spec remaining (successful c')) as [Hle|Hgt].
      * cbn [fst snd logmsg]. split; [lia|].
        change (window_count _) with (window_count w2). split; [lia|].
        exists added2. cbn [w_db]. done.
      * apply Hrec; [|  |lia].
        -- destruct (i <? maxCount - 1); reflexivity.
        -- destruct (i <? maxCount - 1); [|lia]. cbn [sleep logmsg snd w_clock].
           match goal with |- context [0 <? ?d] => destruct (Z.ltb_spec 0 d) end; lia.
    + apply Hrec; [reflexivity|lia|]. rewrite Hsame by discriminate. lia.
    + apply Hrec; [reflexivity|lia|]. rewrite Hsame by discriminate. lia.
    + apply Hrec; [reflexivity|lia|]. rewrite Hsame by discriminate. lia.
Qed.

End quota_more.

Import quota_more.

(** X19. A turn of the main loop whose count query does not fail (limit
    and row count within [int]) never takes the number of "unfollow" rows
    of the last hour above the hourly limit: at the end of the turn the
    count is at most the larger of the limit and the count at its start.
    The action log is only appended to, by "unfollow" rows, and by no more
    rows than the quota that was left. *)
Theorem turn_keeps_count_within_limit (env : Env) (cfg : Config) (w : World) :
  db_fault env OpActionsInLastHour (S (w_ops w)) = false →
  0 <= Hourly cfg <= max_int64 →
  len (session_actions (w_db w)) <= max_int64 →
  let w' := (loop_body env cfg w).2 in
  window_count w' <= Z.max (Hourly cfg) (window_count w)
  ∧ ∃ added, session_actions (w_db w') = session_actions (w_db w) ++ added
      ∧ len added <= quota_at cfg (w_db w) (w_clock w)
      ∧ Forall (fun a => action_type a = "unfollow"%string) added.
Proof.
  intros Hok Hh Hlog w'. subst w'. rewrite loop_body_eq. cbv zeta.
  unfold actions_seen. rewrite Hok. rewrite <- quota_at_window.
  set (remaining := quota_at cfg (w_db w) (w_clock w)).
  pose proof (window_count_nonneg w) as Hc0.
  pose proof (window_count_le_log w) as Hc1.
  assert (remaining = Z.max 0 (Hourly cfg - window_count w)) as Hrem.
  { unfold remaining. rewrite quota_at_window.
    apply remaining_this_hour_exact; [done|lia]. }
  assert (∃ added, session_actions (w_db w) = session_actions (w_db w) ++ added
      ∧ len added <= remaining
      ∧ Forall (fun a => action_type a = "unfollow"%string) added) as Hnone.
  { exists []. rewrite app_nil_r. split; [done|]. split; [unfold len; cbn; lia|constructor]. }
  destruct (Z.leb_spec remaining 0) as [Hz|Hpos].
  - cbn [snd sleep logmsg w_db]. rewrite calculateWaitTime_snd. split; [|exact Hnone].
    match goal with |- window_count ?wx <= _ => set (w1 := wx) end.
    assert (w_db w1 = w_db w) as Hd1 by reflexivity.
    assert (w_clock w <= w_clock w1) as Hc.
    { subst w1. cbn [w_clock bump_ops after_quota_check].
      destruct (Z.ltb_spec 0 (calculateWaitTime env (after_quota_check env w)).1);
        lia. }
    pose proof (window_count_step w w1 Hc) as Hstep. rewrite Hd1 in Hstep.
    specialize (Hstep (or_introl eq_refl)). lia.
  - unfold UnfollowCandidates.
    destruct (db_fault env OpUnfollowCandidates _).
    { cbn [snd]. split; [|exact Hnone].
      change (window_count _) with (window_count w). lia. }
    destruct (len (candidate_rows (w_db w)) =? 0).
    { cbn [snd logmsg]. split; [|exact Hnone].
      change (window_count _) with (window_count w). lia. }
    set (maxCount := if len (candidate_rows (w_db w)) <? remaining
                     then len (candidate_rows (w_db w)) else remaining).
    set (wC := (logmsg Info "Loaded unfollow candidates"
                  (bump_ops (after_quota_check env w))).2).
    destruct (batch_keeps_quota env cfg remaining maxCount
                (take (Z.to_nat maxCount) (candidate_rows (w_db w))) 0
                (mkCounters 0 0 0) wC)
      as (Hb & Hinv & added & Hadd & Hlen & Hty).
    + cbn. lia.
    + change (window_count wC) with (window_count w). cbn. lia.
    + cbn [snd logmsg w_db]. cbn [successful] in *. split.
      * match goal with |- window_count ?wx <= _ =>
          change (window_count wx) with
            (window_count (batch env cfg remaining maxCount 0
               (take (Z.to_nat maxCount) (candidate_rows (w_db w)))
               (mkCounters 0 0 0) wC).2) end.
        lia.
      * exists added. split; [exact Hadd|]. split; [lia|exact Hty].
Qed.

Lemma turn_keeps_count_within_limit_witness :
  (db_fault env_ok OpActionsInLastHour (S (w_ops w_two)) = false
   ∧ 0 <= Hourly cfg_one <= max_int64
   ∧ len (session_actions (w_db w_two)) <= max_int64)
  ∧ window_count (loop_body env_ok cfg_one w_two).2
    <= Z.max (Hourly cfg_one) (window_count w_two).
Proof.
  assert (0 <= Hourly cfg_one <= max_int64) as Hh by (by vm_compute).
  assert (len (session_actions (w_db w_two)) <= max_int64) as Hlog by (by vm_compute).
  split; [repeat split; [apply Hh..|exact Hlog]|].
  exact (proj1 (turn_keeps_count_within_limit env_ok cfg_one w_two eq_refl Hh Hlog)).
Defined.

(** X20. [parseToDB] writes nothing but the two imported tables: the
    marks of what was unfollowed or found not followed and the action log
    are as they were, whatever the export holds and wherever the run
    fails; it calls nothing on the remote side and does not sleep. *)
Theorem import_keeps_progress (env : Env) (ex : Export) (w : World) :
  let w' := (parseToDB env ex w).2 in
  unfollowed (w_db w') = unfollowed (w_db w)
  ∧ not_following (w_db w') = not_following (w_db w)
  ∧ session_actions (w_db w') = session_actions (w_db w)
  ∧ w_trace w' = w_trace w
  ∧ w_clock w' = w_clock w.
Proof.
  cbv zeta. parseToDB_cases env ex w ltac:(done).
Qed.

(** ** The one-shot run *)

Module oneshot_more.
Import cmd_more.

Lemma runUnfollowOnce_eq (env : Env) (cfg : Config) (w : World) :
  runUnfollowOnce env cfg w =
  if db_fault env OpOpen (w_ops w) then
    (Some "open db: storage failure"%string, bump_ops w)
  else
    let w0 := bump_ops w in
    let remaining := remaining_this_hour (Hourly cfg) (actions_seen env w0) in
    let wA := after_quota_check env w0 in
    if remaining <=? 0 then
      (None,
       (logmsg Info "Hourly rate limit reached, please wait and try again later" wA).2)
    else
      match UnfollowCandidates (db_fault env OpUnfollowCandidates (w_ops wA)) (w_db w) with
      | Err e => (Some e, bump_ops wA)
      | Ok candidates =>
          let wC := (logmsg Info "Loaded unfollow candidates" (bump_ops wA)).2 in
          if len candidates =? 0 then
            (None, (logmsg Info "No unfollow candidates found" wC).2)
          else
            let wL := (logmsg Info "Checking login status..." wC).2 in
            match login env with
            | Some e => (Some e, wL)
            | None =>
                let maxCount := if len candidates <? remaining
                                then len candidates else remaining in
                (None,
                 (logmsg Info "Unfollow session complete"
                    (batch env cfg remaining maxCount 0
                       (take (Z.to_nat maxCount) candidates) (mkCounters 0 0 0) wL).2).2)
            end
      end.
Proof.
  unfold runUnfollowOnce, Open, actions_seen, after_quota_check, bump_ops, window_count.
  unfold bind, db_read, db_write, ret.
  cbn [logmsg w_ops w_db w_clock w_calls w_trace w_log fst snd].
  destruct (db_fault env OpOpen (w_ops w)); [reflexivity|].
  cbn [logmsg w_ops w_db w_clock w_calls w_trace w_log fst snd].
  unfold ActionsInLastHour, unix_now. cbn [w_clock].
  destruct (db_fault env OpActionsInLastHour (S (S (w_ops w)))).
  - cbn [logmsg w_ops w_db w_clock w_calls w_trace w_log fst snd].
    destruct (remaining_this_hour (Hourly cfg) 0 <=? 0); [reflexivity|].
    destruct (UnfollowCandidates _ _) as [candidates|e]; [|reflexivity].
    destruct (len candidates =? 0); [reflexivity|].
    destruct (login env); [reflexivity|].
    destruct (batch _ _ _ _ _ _ _ _). reflexivity.
  - cbn [logmsg w_ops w_db w_clock w_calls w_trace w_log fst snd].
    destruct (remaining_this_hour (Hourly cfg) _ <=? 0); [reflexivity|].
    destruct (UnfollowCandidates _ _) as [candidates|e]; [|reflexivity].
    destruct (len candidates =? 0); [reflexivity|].
    destruct (login env); [reflexivity|].
    destruct (batch _ _ _ _ _ _ _ _). reflexivity.
Qed.


(** Two worlds that differ in their log output only. *)
Lemma forget_log_inv (w wx : World) :
  forget_log w = forget_log wx →
  wx = mkWorld (w_db w) (w_clock w) (w_ops w) (w_calls w) (w_trace w) (w_log wx).
Proof.
  destruct w, wx. unfold forget_log. cbn. intros [= -> -> -> -> ->]. reflexivity.
Qed.



End oneshot_more.

Import cmd_more oneshot_more.

(** X21. The one-shot [runUnfollow] with the quota used up (the store
    opens, the count query does not fail, and the remaining quota
    computed from the action log is 0) returns nil at once: it does not
    load the candidates, calls nothing on the remote side, does not sleep
    and leaves the store as it is. *)
Theorem one_shot_stops_when_quota_used_up (env : Env) (cfg : Config) (w : World) :
  db_fault env OpOpen (w_ops w) = false →
  db_fault env OpActionsInLastHour (S (S (w_ops w))) = false →
  quota_at cfg (w_db w) (w_clock w) = 0 →
  let out := runUnfollowOnce env cfg w in
  out.1 = None
  ∧ w_db out.2 = w_db w
  ∧ w_trace out.2 = w_trace w
  ∧ w_clock out.2 = w_clock w
  ∧ w_ops out.2 = (w_ops w + 3)%nat.
Proof.
  intros Hopen Hcount Hq. cbv zeta. rewrite runUnfollowOnce_eq, Hopen. cbv zeta.
  unfold actions_seen. cbn [bump_ops w_ops]. rewrite Hcount.
  change (window_count (bump_ops w)) with (window_count w).
  rewrite <- quota_at_window, Hq. cbn [Z.leb Z.compare fst snd logmsg w_db w_trace
    w_clock w_ops after_quota_check bump_ops].
  repeat split. lia.
Qed.

Lemma one_shot_stops_when_quota_used_up_witness :
  (db_fault env_ok OpOpen (w_ops w_used_up) = false
   ∧ db_fault env_ok OpActionsInLastHour (S (S (w_ops w_used_up))) = false
   ∧ quota_at cfg_one (w_db w_used_up) (w_clock w_used_up) = 0)
  ∧ (runUnfollowOnce env_ok cfg_one w_used_up).1 = None.
Proof.
  split; [repeat split|].
  exact (proj1 (one_shot_stops_when_quota_used_up env_ok cfg_one w_used_up
                  eq_refl eq_refl eq_refl)).
Defined.


(** ** The importer and [main] *)

Module import_more.
Import cmd_more oneshot_more extraction extraction_files.

(** A successful loop over the follower files read every file, and
    appended their rows in order. *)
Lemma parse_follower_files_ok (fs : list (result (list followerEntry))) :
  ∀ acc all,
  parse_follower_files fs acc = Ok all →
  ∃ files, fs = Ok <$> files ∧ all = acc ++ (files ≫= follower_rows).
Proof.
  induction fs as [|f fs IH]; intros acc all H.
  - exists []. cbn in *. injection H as <-. by rewrite app_nil_r.
  - cbn in H. destruct f as [entries|e]; cbn in H; [|discriminate].
    destruct (IH _ _ H) as (files & -> & ->).
    exists (entries :: files). split; [reflexivity|].
    cbn. by rewrite app_assoc.
Qed.

Lemma parseToDB_success (env : Env) (ex : Export) (w : World) :
  (parseToDB env ex w).1 = None →
  ∃ entries files,
    following_json ex = Ok entries
    ∧ follower_files ex = Ok (Ok <$> files)
    ∧ following (w_db (parseToDB env ex w).2)
      = upsert_rows (following_rows entries) (following (w_db w))
    ∧ followers (w_db (parseToDB env ex w).2)
      = upsert_rows (files ≫= follower_rows) (followers (w_db w)).
Proof.
  unfold parseToDB, Open, bind, db_write, db_read, ret.
  cbn [w_ops w_db w_clock w_calls w_trace w_log fst snd].
  destruct (db_fault env OpOpen (w_ops w));
    cbn [logmsg w_ops w_db w_clock w_calls w_trace w_log fst snd]; [discriminate|].
  destruct (following_json ex) as [entries|e];
    cbn [ParseFollowing logmsg w_ops w_db w_clock w_calls w_trace w_log fst snd];
    [|discriminate].
  unfold UpsertFollowing, upsertRelationships.
  destruct (db_fault env OpUpsertFollowing (S (w_ops w)));
    cbn [logmsg w_ops w_db w_clock w_calls w_trace w_log fst snd]; [discriminate|].
  destruct (follower_files ex) as [fs|e];
    cbn [logmsg w_ops w_db w_clock w_calls w_trace w_log fst snd]; [|discriminate].
  destruct (parse_follower_files fs []) as [A|e] eqn:HA;
    cbn [logmsg w_ops w_db w_clock w_calls w_trace w_log fst snd]; [|discriminate].
  apply parse_follower_files_ok in HA as (files & -> & ->).
  unfold UpsertFollowers, upsertRelationships.
  cbn [logmsg w_ops w_db w_clock w_calls w_trace w_log fst snd].
  destruct (db_fault env OpUpsertFollowers (S (S (w_ops w))));
    cbn [logmsg w_ops w_db w_clock w_calls w_trace w_log fst snd]; [discriminate|].
  destruct (UnfollowCandidates _ _);
    cbn [logmsg w_ops w_db w_clock w_calls w_trace w_log fst snd]; [|discriminate].
  intros _. exists entries, files. cbn [following followers set_following set_followers].
  done.
Qed.

(** [parseToDB] writes the two imported tables and the log output only. *)
Lemma parseToDB_frame (env : Env) (ex : Export) (w : World) :
  unfollowed (w_db (parseToDB env ex w).2) = unfollowed (w_db w)
  ∧ not_following (w_db (parseToDB env ex w).2) = not_following (w_db w)
  ∧ session_actions (w_db (parseToDB env ex w).2) = session_actions (w_db w)
  ∧ w_trace (parseToDB env ex w).2 = w_trace w.
Proof.
  parseToDB_cases env ex w ltac:(done).
Qed.

(** Whether the import fails does not depend on what was logged before. *)
Lemma parseToDB_forget (env : Env) (ex : Export) (w wx : World) :
  forget_log w = forget_log wx →
  (parseToDB env ex w).1 = (parseToDB env ex wx).1.
Proof.
  intros Heq. rewrite (forget_log_inv w wx Heq). clear Heq.
  parseToDB_cases env ex w ltac:(done).
Qed.

(** The walk with the files found so far. *)
Lemma find_follower_files_spec (entries : list WalkEntry) :
  ∀ files : list string,
  let out := find_follower_files entries files in
  (∀ p, p ∈ out.1 →
        p ∈ files
        ∨ ∃ e, e ∈ entries ∧ we_path e = p ∧ we_err e = None ∧ we_isDir e = false
               ∧ HasPrefix (we_name e) "followers" = true
               ∧ HasSuffix (we_name e) ".json" = true)
  ∧ (∀ p, p ∈ files → p ∈ out.1)
  ∧ (out.2 = None →
     ∀ e, e ∈ entries → we_isDir e = false →
          HasPrefix (we_name e) "followers" = true →
          HasSuffix (we_name e) ".json" = true → we_path e ∈ out.1)
  ∧ (out.2 = None ↔ ∀ e, e ∈ entries → we_err e = None).
Proof.
  induction entries as [|e rest IH]; intros files; cbv zeta.
  - cbn. split; [auto|]. split; [auto|]. split.
    + intros _ e He. by apply elem_of_nil in He.
    + split; [|done]. intros _ e He. by apply elem_of_nil in He.
  - cbn [find_follower_files]. destruct (we_err e) as [err|] eqn:Herr.
    { cbn. split; [auto|]. split; [auto|]. split; [discriminate|].
      split; [discriminate|]. intros H. specialize (H e (list_elem_of_here _ _)).
      congruence. }
    destruct (negb (we_isDir e) && HasPrefix (we_name e) "followers"
              && HasSuffix (we_name e) ".json") eqn:Hm.
    + destruct (IH (files ++ [we_path e])) as (Hs & Hk & Hc & He).
      apply andb_true_iff in Hm as [Hm Hsuf]. apply andb_true_iff in Hm as [Hdir Hpre].
      apply negb_true_iff in Hdir.
      split; [|split; [|split]].
      * intros p Hp. destruct (Hs p Hp) as [Hin|(e' & ? & ?)].
        -- apply elem_of_app in Hin as [?|Hin]; [by left|].
           apply list_elem_of_singleton in Hin as ->. right. exists e.
           split; [apply list_elem_of_here|]. done.
        -- right. exists e'. split; [by apply list_elem_of_further|done].
      * intros p Hp. apply Hk, elem_of_app. by left.
      * intros Hn e' He' ? ? ?. apply elem_of_cons in He' as [->|He'].
        -- apply Hk, elem_of_app. right. apply list_elem_of_here.
        -- by apply Hc.
      * rewrite He. split.
        -- intros H e' He'. apply elem_of_cons in He' as [->|He']; auto.
        -- intros H e' He'. apply H. by apply list_elem_of_further.
    + destruct (IH files) as (Hs & Hk & Hc & He).
      split; [|split; [|split]].
      * intros p Hp. destruct (Hs p Hp) as [Hin|(e' & ? & ?)]; [by left|].
        right. exists e'. split; [by apply list_elem_of_further|done].
      * done.
      * intros Hn e' He' Hd Hp Hsf. apply elem_of_cons in He' as [->|He'].
        -- rewrite Hd, Hp, Hsf in Hm. discriminate.
        -- by apply Hc.
      * rewrite He. split.
        -- intros H e' He'. apply elem_of_cons in He' as [->|He']; auto.
        -- intros H e' He'. apply H. by apply list_elem_of_further.
Qed.

End import_more.

Import cmd_more oneshot_more import_more extraction extraction_files.

(** X23. After a successful [parseToDB] the unfollow candidates are the
    usernames that were in the [following] table or are the title of an
    entry of the export's following.json, except those that were in the
    [followers] table, those named by a followers file of the export
    (the value of the first [string_list_data] item of an entry), and
    those marked unfollowed or not followed. A success also means that
    following.json and every followers file were read. *)
Theorem candidates_after_import (env : Env) (ex : Export) (w : World) :
  (parseToDB env ex w).1 = None →
  ∃ entries files,
    following_json ex = Ok entries
    ∧ follower_files ex = Ok (Ok <$> files)
    ∧ ∀ u, u ∈ Username <$> candidate_rows (w_db (parseToDB env ex w).2) ↔
           (u ∈ dom (following (w_db w)) ∨ u ∈ fe_Title <$> entries)
           ∧ (u ∉ dom (followers (w_db w)))
           ∧ (u ∉ Username <$> (files ≫= follower_rows))
           ∧ (u ∉ dom (unfollowed (w_db w)))
           ∧ (u ∉ dom (not_following (w_db w))).
Proof.
  intros Hok.
  destruct (parseToDB_success env ex w Hok) as (entries & files & Hj & Hf & Hfg & Hfr).
  exists entries, files. split; [done|]. split; [done|]. intros u.
  destruct (parseToDB_frame env ex w) as (Hu & Hn & _).
  rewrite candidate_usernames, !elem_of_difference, Hfg, Hfr, Hu, Hn.
  rewrite !dom_upsert_rows, !elem_of_union, !elem_of_list_to_set.
  assert (Username <$> following_rows entries = fe_Title <$> entries) as ->.
  { unfold following_rows. rewrite <- list_fmap_compose. apply list_fmap_ext.
    intros i e _. cbn. by destruct (fe_StringListData e). }
  tauto.
Qed.

Lemma candidates_after_import_witness :
  (parseToDB env_ok export_small (init_world empty_db clock0)).1 = None
  ∧ ∃ entries files,
      following_json export_small = Ok entries
      ∧ follower_files export_small = Ok (Ok <$> files)
      ∧ ∀ u, u ∈ Username <$> candidate_rows
                   (w_db (parseToDB env_ok export_small (init_world empty_db clock0)).2) ↔
             (u ∈ dom (following (w_db (init_world empty_db clock0)))
              ∨ u ∈ fe_Title <$> entries)
             ∧ (u ∉ dom (followers (w_db (init_world empty_db clock0))))
             ∧ (u ∉ Username <$> (files ≫= follower_rows))
             ∧ (u ∉ dom (unfollowed (w_db (init_world empty_db clock0))))
             ∧ (u ∉ dom (not_following (w_db (init_world empty_db clock0)))).
Proof.
  split; [reflexivity|].
  apply (candidates_after_import env_ok export_small (init_world empty_db clock0)).
  reflexivity.
Defined.

(** X24. [FindFollowerFiles] returns the paths of the files (not
    directories) whose name starts with followers and ends with .json,
    and nothing else; when the walk meets no error none of them is
    missing, and it returns an error exactly when the walk meets one. *)
Theorem follower_files_found (entries : list WalkEntry) :
  let out := FindFollowerFiles entries in
  (∀ p, p ∈ out.1 →
        ∃ e, e ∈ entries ∧ we_path e = p ∧ we_err e = None ∧ we_isDir e = false
             ∧ HasPrefix (we_name e) "followers" = true
             ∧ HasSuffix (we_name e) ".json" = true)
  ∧ (out.2 = None →
     ∀ e, e ∈ entries → we_isDir e = false →
          HasPrefix (we_name e) "followers" = true →
          HasSuffix (we_name e) ".json" = true → we_path e ∈ out.1)
  ∧ (out.2 = None ↔ ∀ e, e ∈ entries → we_err e = None).
Proof.
  cbv zeta. unfold FindFollowerFiles.
  destruct (find_follower_files_spec entries []) as (Hs & _ & Hc & He).
  split; [|split; [exact Hc|exact He]].
  intros p Hp. destruct (Hs p Hp) as [Hin|H]; [|exact H].
  by apply elem_of_nil in Hin.
Qed.

(** X25. [main] exits with status 1 before the unfollow run starts when
    the configuration cannot be loaded, the export cannot be unzipped, or
    the import fails: nothing is called on the remote side, and the marks
    and the action log are as they were. *)
Theorem main_stops_before_unfollowing (env : Env) (cfg : Config) (fuel : nat)
    (config : option error) (data : option (result Export)) (doUnfollow : bool)
    (w : World) :
  (is_Some config
   ∨ (∃ e, data = Some (Err e))
   ∨ (∃ ex e, data = Some (Ok ex) ∧ (parseToDB env ex w).1 = Some e)) →
  let out := main env cfg fuel config data doUnfollow w in
  out.1 = Some 1
  ∧ w_trace out.2 = w_trace w
  ∧ unfollowed (w_db out.2) = unfollowed (w_db w)
  ∧ not_following (w_db out.2) = not_following (w_db w)
  ∧ session_actions (w_db out.2) = session_actions (w_db w).
Proof.
  intros H. cbv zeta. unfold main.
  destruct config as [e|].
  { cbn. done. }
  destruct H as [[? [=]]|[[e ->]|(ex & e & -> & Hfail)]].
  { cbn. done. }
  unfold bind, ret. cbn [logmsg fst snd].
  set (w1 := mkWorld _ _ _ _ _ _).
  assert (forget_log w = forget_log w1) as Hf by reflexivity.
  rewrite (parseToDB_forget env ex w w1 Hf) in Hfail.
  destruct (parseToDB_frame env ex w1) as (Hu & Hn & Hs & Ht).
  destruct (parseToDB env ex w1) as [err w2]. cbn [fst snd] in *. subst err.
  cbn [logmsg negb fst snd w_db w_trace]. done.
Qed.

Lemma main_stops_before_unfollowing_witness :
  is_Some (Some "no such file"%string : option error)
  ∧ (main env_ok cfg_one 1 (Some "no such file"%string) None true w_two).1 = Some 1.
Proof.
  split; [by eexists|].
  apply (main_stops_before_unfollowing env_ok cfg_one 1
           (Some "no such file"%string) None true w_two).
  left. by eexists.
Defined.
